(** * compgrid: window expressions, their evaluation and config validation

    A shallow embedding of [compgrid/config.py] and of the evaluation
    driver of [compgrid/compgrid.py].

    Conventions of the embedding.
    - Python exceptions are values of [exn]; a computation returns a
      [result]: [Ok v], [Raise e], or [OutOfFuel] when a [while True] loop
      has not left within the iterations it was given.
    - Numbers are exact rationals kept in lowest terms ([Qred]); the one
      non-finite value kept is [NaN], the mean of an empty selection.
      Rounding, overflow to infinity and 64-bit wrap-around of the pandas
      reductions are not modelled: the statements below say which
      observations a window reduces, with which reduction and in which
      order of operations, and are to be read up to that arithmetic.
    - A [datetime.date] is a record of year, month and day; the calendar
      functions follow the proleptic Gregorian arithmetic of Python's
      [datetime] module, with its range 0001-01-01 .. 9999-12-31.  The
      constructor and [replace] take their fields as C [int]s: a field
      outside -2^31 .. 2^31-1 is an [OverflowError], a field that names no
      calendar day a [ValueError].
    - A pandas frame is a list of observations; [sum] and [mean] are the
      column reductions ([sum] of nothing is 0, [mean] of nothing is NaN).
    - Text is a [string] of characters with code points below 256, among
      which the decimal digits are '0'..'9'.  [int] refuses more than 4300
      digits, the interpreter's default limit. *)

From Stdlib Require Import ZArith QArith Qabs String Ascii List Bool Lia.
Import ListNotations.
Local Open Scope string_scope.
Local Open Scope Z_scope.

Set Implicit Arguments.
Set Warnings "-register-all".

(** ** YAML values as produced by the line-tracking loader *)

(** [SafeLineLoader.construct_mapping] stores the 1-based line of every
    mapping under the key [__line__]; [YMap line entries] keeps it apart
    from the other entries, which are in document order. *)
Inductive yaml : Type :=
| YNull
| YNum (q : Q)
| YStr (s : string)
| YList (items : list yaml)
| YMap (line : Z) (entries : list (string * yaml)).

Fixpoint assoc (A : Type) (k : string) (l : list (string * A)) : option A :=
  match l with
  | [] => None
  | (k', v) :: l' => if String.eqb k k' then Some v else assoc k l'
  end.

Record mapping : Type := mkmap { map_line : Z; map_entries : list (string * yaml) }.

(** [config[key]] / [config.get(key)] on a loaded mapping. *)
Definition dict_get (m : mapping) (k : string) : option yaml :=
  if String.eqb k "__line__" then Some (YNum (inject_Z (map_line m)))
  else assoc k (map_entries m).

(** [key in config] *)
Definition dict_in (k : string) (m : mapping) : bool :=
  match dict_get m k with Some _ => true | None => false end.

(** ** Exceptions and results *)

(** The text of a [ConfigError]: a literal, or a template applied with
    ['%s' % value]. *)
Inductive message : Type :=
| Text (s : string)
| Fmt (template : string) (arg : yaml).

Inductive exn : Type :=
| ConfigError (msg : message) (line : Z) (filename : option string)
| KeyError (key : string)
| TypeError
| ValueError
| OverflowError
| AttributeError.

Inductive result (A : Type) : Type :=
| Ok (a : A)
| Raise (e : exn)
| OutOfFuel.

Arguments Raise {A} e.
Arguments OutOfFuel {A}.

Definition bind (A B : Type) (r : result A) (k : A -> result B) : result B :=
  match r with
  | Ok a => k a
  | Raise e => Raise e
  | OutOfFuel => OutOfFuel
  end.

Notation "x <- r ;; k" := (bind r (fun x => k))
  (at level 61, r at next level, right associativity).

Notation "' pat <- r ;; k" := (bind r (fun x => let 'pat := x in k))
  (at level 61, pat pattern, r at next level, right associativity).

Fixpoint mapM (A B : Type) (f : A -> result B) (l : list A) : result (list B) :=
  match l with
  | [] => Ok []
  | a :: l' => b <- f a ;; bs <- mapM f l' ;; Ok (b :: bs)
  end.

(** ** Calendar: [datetime.date] *)

Module Calendar.

Record date : Type := mkdate { year : Z; month : Z; day : Z }.

Definition MINYEAR : Z := 1.
Definition MAXYEAR : Z := 9999.
Definition MAXORDINAL : Z := 3652059.

Definition is_leap (y : Z) : bool :=
  (y mod 4 =? 0) && (negb (y mod 100 =? 0) || (y mod 400 =? 0)).

Definition DAYS_IN_MONTH (m : Z) : Z :=
  match m with
  | 1 => 31 | 2 => 28 | 3 => 31 | 4 => 30 | 5 => 31 | 6 => 30
  | 7 => 31 | 8 => 31 | 9 => 30 | 10 => 31 | 11 => 30 | 12 => 31
  | _ => -1
  end.

Definition DAYS_BEFORE_MONTH (m : Z) : Z :=
  match m with
  | 1 => 0 | 2 => 31 | 3 => 59 | 4 => 90 | 5 => 120 | 6 => 151
  | 7 => 181 | 8 => 212 | 9 => 243 | 10 => 273 | 11 => 304 | 12 => 334
  | _ => -1
  end.

Definition days_in_month (y m : Z) : Z :=
  if (m =? 2) && is_leap y then 29 else DAYS_IN_MONTH m.

Definition days_before_year (y : Z) : Z :=
  let y' := y - 1 in y' * 365 + y' / 4 - y' / 100 + y' / 400.

Definition days_before_month (y m : Z) : Z :=
  DAYS_BEFORE_MONTH m + (if (2 <? m) && is_leap y then 1 else 0).

(** The field check of the [date] constructor. *)
Definition valid_ymd (y m d : Z) : bool :=
  (MINYEAR <=? y) && (y <=? MAXYEAR) && (1 <=? m) && (m <=? 12)
  && (1 <=? d) && (d <=? days_in_month y m).

Definition valid_date (d : date) : Prop :=
  valid_ymd (year d) (month d) (day d) = true.

(** The fields of a date are parsed as C [int]s. *)
Definition INT_MIN : Z := -2147483648.
Definition INT_MAX : Z := 2147483647.

Definition c_int (z : Z) : bool := (INT_MIN <=? z) && (z <=? INT_MAX).

(** [date(y, m, d)] and [today.replace(year=y, month=m, day=d)]:
    [OverflowError] when a field does not fit a C [int], then
    [ValueError] when the fields do not name a calendar day. *)
Definition date_new (y m d : Z) : result date :=
  if c_int y && c_int m && c_int d then
    if valid_ymd y m d then Ok (mkdate y m d) else Raise ValueError
  else Raise OverflowError.

Definition replace_day (t : date) (d : Z) : result date :=
  date_new (year t) (month t) d.

Definition toordinal (d : date) : Z :=
  days_before_year (year d) + days_before_month (year d) (month d) + day d.

Definition DI400Y : Z := 146097.
Definition DI100Y : Z := 36524.
Definition DI4Y : Z := 1461.

(** [date.fromordinal] on an ordinal in range. *)
Definition ord2ymd (n0 : Z) : date :=
  let n := n0 - 1 in
  let n400 := n / DI400Y in
  let n := n mod DI400Y in
  let y := n400 * 400 + 1 in
  let n100 := n / DI100Y in
  let n := n mod DI100Y in
  let n4 := n / DI4Y in
  let n := n mod DI4Y in
  let n1 := n / 365 in
  let n := n mod 365 in
  let y := y + n100 * 100 + n4 * 4 + n1 in
  if (n1 =? 4) || (n100 =? 4) then mkdate (y - 1) 12 31
  else
    let leapyear := (n1 =? 3) && (negb (n4 =? 24) || (n100 =? 3)) in
    let m := Z.shiftr (n + 50) 5 in
    let preceding :=
      DAYS_BEFORE_MONTH m + (if (2 <? m) && leapyear then 1 else 0) in
    if n <? preceding then
      let m' := m - 1 in
      let preceding' :=
        preceding
        - (DAYS_IN_MONTH m' + (if (m' =? 2) && leapyear then 1 else 0)) in
      mkdate y m' (n - preceding' + 1)
    else mkdate y m (n - preceding + 1).

(** [d + timedelta(days=n)]: [OverflowError] outside the date range. *)
Definition add_days (d : date) (n : Z) : result date :=
  let o := toordinal d + n in
  if (0 <? o) && (o <=? MAXORDINAL) then Ok (ord2ymd o)
  else Raise OverflowError.

Definition sub_days (d : date) (n : Z) : result date := add_days d (- n).

(** [d.weekday()]: Monday is 0, Sunday is 6. *)
Definition weekday (d : date) : Z := (toordinal d + 6) mod 7.

(** Comparison of dates is the lexicographic order on (year, month, day). *)
Definition date_eqb (a b : date) : bool :=
  (year a =? year b) && (month a =? month b) && (day a =? day b).

Definition date_ltb (a b : date) : bool :=
  (year a <? year b)
  || ((year a =? year b)
      && ((month a <? month b)
          || ((month a =? month b) && (day a <? day b)))).

Definition date_leb (a b : date) : bool := date_ltb a b || date_eqb a b.

End Calendar.
Import Calendar.

(** ** Numbers, values and frames *)

Inductive num : Type :=
| Fin (q : Q)
| NaN.

(** [x == 0] *)
Definition num_is_zero (n : num) : bool :=
  match n with
  | Fin q => Qeq_bool q 0
  | NaN => false
  end.

Definition num_div (a b : num) : num :=
  match a, b with
  | Fin x, Fin y => Fin (Qred (x / y))
  | _, _ => NaN
  end.

(** What a window or a column evaluates to. *)
Inductive pyval : Type :=
| PNone
| PNum (n : num)
| PStr (s : string).

Record observation : Type :=
  mkobs { obs_date : date; obs_total : Q; obs_over : Q }.

(** The query result: a [date] column, a [total] column and, when
    [has_over], an [over] column ([obs_over] is read only then). *)
Record frame : Type :=
  mkframe { has_over : bool; observations : list observation }.

(** A frame reduced column by column: [series["total"]], [series.get("over")]. *)
Record series : Type := mkseries { s_total : num; s_over : option num }.

(** [df[mask]] with a mask computed from the date column. *)
Definition df_where (mask : date -> bool) (df : frame) : frame :=
  mkframe (has_over df)
          (filter (fun o => mask (obs_date o)) (observations df)).

Definition Qsum (l : list Q) : Q := fold_right Qplus (0 # 1)%Q l.

Definition col_sum (l : list Q) : num := Fin (Qred (Qsum l)).

Definition col_mean (l : list Q) : num :=
  match l with
  | [] => NaN
  | _ => Fin (Qred (Qsum l / inject_Z (Z.of_nat (List.length l))))
  end.

Definition df_reduce (red : list Q -> num) (df : frame) : series :=
  mkseries (red (map obs_total (observations df)))
           (if has_over df then Some (red (map obs_over (observations df)))
            else None).

Definition df_sum : frame -> series := df_reduce col_sum.
Definition df_mean : frame -> series := df_reduce col_mean.

(** If df represents a fraction, calculate it. *)
Definition calculate_total_over (df : series) : pyval :=
  let total := s_total df in
  match s_over df with
  | None => PNum total
  | Some over =>
      if num_is_zero over then PNone
      else PNum (num_div total over)
  end.

(** ** Window specifications (the [Column] subclasses) *)

Inductive Column : Type :=
| TrailingAverage (days : Z)
| DaysAgo (days : Z)
| WeekdayWeekend (days : Z)
| Month (months_ago : Z)
| MonthAgo (months_ago : Z)
| WeeksAgo (weeks_ago : Z)
| WeekToDate (weeks_ago : Z)
| MonthToDate (months_ago : Z)
| MonthToDateAverage (months_ago : Z)
| SinceDate (since : date)
| NumberGoal (number : string)
| FieldGoal (field_name : string).

(** [while new_month < 1: new_month += 12; new_year -= 1].  The loop
    leaves after at most [1 - new_month] rounds, which is the fuel
    [shift_month] gives it. *)
Fixpoint wrap_month (fuel : nat) (new_month new_year : Z) : Z * Z :=
  if new_month <? 1 then
    match fuel with
    | O => (new_month, new_year)
    | S f => wrap_month f (new_month + 12) (new_year - 1)
    end
  else (new_month, new_year).

Definition shift_month (today : date) (months_ago : Z) : Z * Z :=
  let new_month := month today - months_ago in
  wrap_month (Z.to_nat (1 - new_month)) new_month (year today).

(** [while True: try: target = today.replace(...); break
     except ValueError: extra_days += 1].  Only [ValueError] is caught:
    an [OverflowError] of [replace] leaves the loop. *)
Fixpoint clamp_day (fuel : nat) (today : date)
         (new_year new_month extra_days : Z) : result date :=
  match fuel with
  | O => OutOfFuel
  | S f =>
      match date_new new_year new_month (day today - extra_days) with
      | Raise ValueError =>
          clamp_day f today new_year new_month (extra_days + 1)
      | r => r
      end
  end.

(** The target date of [MonthAgo] and [MonthToDate]. *)
Definition month_target (fuel : nat) (today : date) (months_ago : Z)
  : result date :=
  let '(new_month, new_year) := shift_month today months_ago in
  clamp_day fuel today new_year new_month 0.

(** [for _ in range(months_ago)] of [MonthToDateAverage]. *)
Fixpoint mtdavg_shift (n : nat) (month_start today : date)
  : result (date * date) :=
  match n with
  | O => Ok (month_start, today)
  | S n' =>
      prev <- sub_days month_start 1 ;;
      month_start' <- replace_day prev 1 ;;
      today' <- date_new (year month_start') (month month_start') (day today) ;;
      mtdavg_shift n' month_start' today'
  end.

(** ** Rows, column values and the collaborators of evaluation *)

Inductive style : Type :=
| style_positive_green
| style_negative_green
| style_neutral.

(** The table [STYLES]. *)
Definition STYLES (k : string) : option style :=
  if String.eqb k "positive-green" then Some style_positive_green
  else if String.eqb k "negative-green" then Some style_negative_green
  else if String.eqb k "neutral" then Some style_neutral
  else None.

(** [value >= 0] and [value <= 0] on an evaluated value: both are
    [False] for NaN, and comparing [None] or a string with 0 is a
    [TypeError]. *)
Definition py_ge_zero (value : pyval) : result bool :=
  match value with
  | PNum (Fin q) => Ok (Qle_bool 0 q)
  | PNum NaN => Ok false
  | PNone | PStr _ => Raise TypeError
  end.

Definition py_le_zero (value : pyval) : result bool :=
  match value with
  | PNum (Fin q) => Ok (Qle_bool q 0)
  | PNum NaN => Ok false
  | PNone | PStr _ => Raise TypeError
  end.

(** The function a style tag stands for, applied to a value:
    [style_positive_green], [style_negative_green], [style_neutral]. *)
Definition apply_style (s : style) (value : pyval) : result string :=
  match s with
  | style_positive_green =>
      b <- py_ge_zero value ;;
      Ok ("color: " ++ (if b then "#00b37d" else "#f00"))
  | style_negative_green =>
      b <- py_le_zero value ;;
      Ok ("color: " ++ (if b then "#00b37d" else "#f00"))
  | style_neutral => Ok "color: #000"
  end.

(** The data connection is an opaque handle. *)
Inductive connection : Type := Connection (handle : Z).

(** [compgrid.ColumnValue] *)
Record ColumnValue : Type :=
  mkvalue { cv_name : yaml; cv_template : string;
            cv_value : pyval; cv_type : string }.

(** [config.Row], with the two attributes that are attached to it later
    ([config_directory] by [read_config], [connection] by [evaluate_row]);
    [None] there means the attribute has not been set. *)
Record Row : Type :=
  mkrow { row_name : yaml;
          row_query : yaml;
          row_type : string;
          row_style : style;
          row_columns : list ColumnValue;
          row_fields : mapping;
          row_config_directory : option string;
          row_connection : option connection }.

Definition is_absolute (p : string) : bool :=
  match p with
  | String c _ => Ascii.eqb c "/"
  | EmptyString => false
  end.

Definition path_join (dir p : string) : string := dir ++ "/" ++ p.

Definition getattr (A : Type) (o : option A) : result A :=
  match o with
  | Some a => Ok a
  | None => Raise AttributeError
  end.

Section Evaluation.

(** The collaborators: the database ([pd.read_sql_query]), the file
    system ([Path.read_text]), the sparkline renderer and [str.format]
    with the keyword [yesterday_date]. *)
Variable read_sql_query : yaml -> connection -> result frame.
Variable read_text : string -> result string.
Variable sparkline : yaml -> frame -> date -> result string.
Variable format : string -> date -> result string.

Definition resolve_query_path (row : Row) (p : string) : result string :=
  if is_absolute p then Ok p
  else dir <- getattr (row_config_directory row) ;; Ok (path_join dir p).

Definition FieldGoal_eval (field_name : string) (row : option Row)
  : result pyval :=
  match row with
  | None => Ok PNone
  | Some row =>
      match dict_get (row_fields row) field_name with
      | None | Some YNull => Ok PNone
      | Some (YNum q) => Ok (PNum (Fin q))
      | Some (YStr value) =>
          query_path <- resolve_query_path row value ;;
          sql <- read_text query_path ;;
          conn <- getattr (row_connection row) ;;
          df <- read_sql_query (YStr sql) conn ;;
          Ok (calculate_total_over (df_sum df))
      | Some _ => Raise TypeError
      end
  end.

(** [Column.eval(df, today, row)], one case per subclass.  [fuel] bounds
    the day-clamping loop of [MonthAgo] and [MonthToDate]. *)
Definition eval (fuel : nat) (c : Column) (df : frame) (today : date)
           (row : option Row) : result pyval :=
  match c with
  | TrailingAverage days =>
      lo <- sub_days today days ;;
      Ok (calculate_total_over
            (df_mean (df_where (fun d => date_ltb d today && date_leb lo d) df)))
  | DaysAgo days =>
      target <- sub_days today days ;;
      Ok (calculate_total_over
            (df_sum (df_where (fun d => date_eqb d target) df)))
  | WeekdayWeekend days =>
      end_date <- sub_days today days ;;
      start_date <- (if 5 <=? weekday end_date
                     then sub_days end_date (weekday end_date - 4)
                     else Ok end_date) ;;
      Ok (calculate_total_over
            (df_sum (df_where
                       (fun d => date_leb start_date d && date_leb d end_date)
                       df)))
  | Month months_ago =>
      let '(new_month, new_year) := shift_month today months_ago in
      month_start <- date_new new_year new_month 1 ;;
      next <- add_days month_start 31 ;;
      next_start <- replace_day next 1 ;;
      month_end <- sub_days next_start 1 ;;
      Ok (calculate_total_over
            (df_sum (df_where
                       (fun d => date_leb d month_end && date_leb month_start d)
                       df)))
  | MonthAgo months_ago =>
      target <- month_target fuel today months_ago ;;
      Ok (calculate_total_over
            (df_sum (df_where (fun d => date_eqb d target) df)))
  | WeeksAgo weeks_ago =>
      today <- add_days today 1 ;;
      week_start <- sub_days today (weekday today) ;;
      week_start <- sub_days week_start (7 * weeks_ago) ;;
      week_end <- add_days week_start 6 ;;
      Ok (calculate_total_over
            (df_sum (df_where
                       (fun d => date_leb d week_end && date_leb week_start d)
                       df)))
  | WeekToDate weeks_ago =>
      week_start <- sub_days today (weekday today) ;;
      week_start <- sub_days week_start (7 * weeks_ago) ;;
      today <- sub_days today (7 * weeks_ago) ;;
      Ok (calculate_total_over
            (df_sum (df_where
                       (fun d => date_leb d today && date_leb week_start d)
                       df)))
  | MonthToDate months_ago =>
      target <- month_target fuel today months_ago ;;
      month_start <- replace_day target 1 ;;
      Ok (calculate_total_over
            (df_sum (df_where
                       (fun d => date_leb d target && date_leb month_start d)
                       df)))
  | MonthToDateAverage months_ago =>
      month_start <- replace_day today 1 ;;
      '(month_start, today) <-
        mtdavg_shift (Z.to_nat months_ago) month_start today ;;
      Ok (calculate_total_over
            (df_mean (df_where
                        (fun d => date_leb d today && date_leb month_start d)
                        df)))
  | SinceDate since =>
      Ok (calculate_total_over
            (df_sum (df_where
                       (fun d => date_leb d today && date_leb since d)
                       df)))
  | NumberGoal number => Ok (PStr number)
  | FieldGoal field_name => FieldGoal_eval field_name row
  end.

(** ** Column definitions and their evaluation *)

Inductive ColumnDef : Type :=
| NumberColumn (name : yaml) (value : Column)
| PctChangeColumn (name : yaml) (value base : Column)
| SparklineColumn (name : yaml) (days : yaml).

Definition column_name (c : ColumnDef) : yaml :=
  match c with
  | NumberColumn name _ => name
  | PctChangeColumn name _ _ => name
  | SparklineColumn name _ => name
  end.

Definition column_template (c : ColumnDef) : string :=
  match c with
  | NumberColumn _ _ => "column_number.md"
  | PctChangeColumn _ _ _ => "column_pctchange.md"
  | SparklineColumn _ _ => "column_sparkline.md"
  end.

(** [v == 0] on an evaluated value; a string is never equal to 0. *)
Definition py_is_zero (v : pyval) : bool :=
  match v with
  | PNum n => num_is_zero n
  | _ => false
  end.

(** [100.0 * value / base - 100.0]; arithmetic on a string is a
    [TypeError], and is never reached with [None]. *)
Definition pct_formula (value base : pyval) : result pyval :=
  match value, base with
  | PNum (Fin v), PNum (Fin b) =>
      Ok (PNum (Fin (Qred (100 * v / b - 100)%Q)))
  | PNum _, PNum _ => Ok (PNum NaN)
  | _, _ => Raise TypeError
  end.

(** The case analysis of [PctChangeColumn.eval] on the two sub-results. *)
Definition pct_change (value base : pyval) : result pyval :=
  match value, base with
  | PNone, _ | _, PNone => Ok PNone
  | _, _ =>
      if py_is_zero base && py_is_zero value then Ok (PNum (Fin 0))
      else if py_is_zero base then Ok PNone
      else pct_formula value base
  end.

Definition column_eval (fuel : nat) (c : ColumnDef) (dt : frame)
           (today : date) (row : option Row) : result pyval :=
  match c with
  | NumberColumn _ value => eval fuel value dt today row
  | PctChangeColumn _ value base =>
      value <- eval fuel value dt today row ;;
      base <- eval fuel base dt today row ;;
      pct_change value base
  | SparklineColumn _ days =>
      img <- sparkline days dt today ;; Ok (PStr img)
  end.

(** [ColumnValue.abs_value] *)
Definition abs_value (v : ColumnValue) : result pyval :=
  match cv_value v with
  | PNone => Ok (PNum (Fin 0))
  | PNum (Fin q) => Ok (PNum (Fin (Qabs q)))
  | PNum NaN => Ok (PNum NaN)
  | PStr _ => Raise TypeError
  end.

(** ** The configuration dictionary and the evaluation driver *)

(** What the keys of the validated [config] dictionary hold: untouched
    YAML, the parsed columns, the parsed rows, or a date. *)
Inductive cfgval : Type :=
| CYaml (v : yaml)
| CColumns (cols : list ColumnDef)
| CRows (rows : list Row)
| CDate (d : date).

Record Config : Type :=
  mkconfig { cfg_line : Z; cfg_entries : list (string * cfgval) }.

(** [config[k] = v]: in place when the key exists, appended otherwise. *)
Fixpoint dict_set (A : Type) (k : string) (v : A) (l : list (string * A))
  : list (string * A) :=
  match l with
  | [] => [(k, v)]
  | (k', v') :: l' =>
      if String.eqb k k' then (k, v) :: l' else (k', v') :: dict_set k v l'
  end.

Definition cfg_get (c : Config) (k : string) : result cfgval :=
  match assoc k (cfg_entries c) with
  | Some v => Ok v
  | None => Raise (KeyError k)
  end.

Definition cfg_set (k : string) (v : cfgval) (c : Config) : Config :=
  mkconfig (cfg_line c) (dict_set k v (cfg_entries c)).

Definition cfg_columns (c : Config) : result (list ColumnDef) :=
  v <- cfg_get c "columns" ;;
  match v with CColumns cols => Ok cols | _ => Raise TypeError end.

Definition cfg_rows (c : Config) : result (list Row) :=
  v <- cfg_get c "rows" ;;
  match v with CRows rows => Ok rows | _ => Raise TypeError end.

Definition set_connection (conn : connection) (row : Row) : Row :=
  mkrow (row_name row) (row_query row) (row_type row) (row_style row)
        (row_columns row) (row_fields row) (row_config_directory row)
        (Some conn).

Definition set_columns (results : list ColumnValue) (row : Row) : Row :=
  mkrow (row_name row) (row_query row) (row_type row) (row_style row)
        results (row_fields row) (row_config_directory row)
        (row_connection row).

(** [evaluate_row(row, config, connection)]; [yesterday] is the anchor
    date read from the clock.  The row object is updated in place, so the
    returned row is the state of that object afterwards. *)
Definition evaluate_row (fuel : nat) (yesterday : date) (row : Row)
           (config : Config) (conn : connection) : result Row :=
  let row := set_connection conn row in
  df <- read_sql_query (row_query row) conn ;;
  columns <- cfg_columns config ;;
  results <-
    mapM (fun column =>
            r <- column_eval fuel column df yesterday (Some row) ;;
            Ok (mkvalue (column_name column) (column_template column)
                        r (row_type row)))
         columns ;;
  Ok (set_columns results row).

(** The first loop of [build_message]: every entry other than
    [columns] and [rows] is replaced by its [format]. *)
Definition format_entry (yesterday_date : date) (kv : string * cfgval)
  : result (string * cfgval) :=
  let '(k, v) := kv in
  if String.eqb k "columns" || String.eqb k "rows" then Ok kv
  else
    match v with
    | CYaml (YStr s) =>
        s' <- format s yesterday_date ;; Ok (k, CYaml (YStr s'))
    | _ => Raise AttributeError
    end.

(** [build_message(config, connection)]: the dictionary afterwards.  The
    rows listed under [table] are the row objects of [rows] themselves. *)
Definition build_message (fuel : nat) (yesterday_date : date)
           (config : Config) (conn : connection) : result Config :=
  entries <- mapM (format_entry yesterday_date) (cfg_entries config) ;;
  let config := mkconfig (cfg_line config) entries in
  rows <- cfg_rows config ;;
  results <-
    mapM (fun row => evaluate_row fuel yesterday_date row config conn) rows ;;
  let config := cfg_set "rows" (CRows results) config in
  let config := cfg_set "table" (CRows results) config in
  Ok (cfg_set "yesterday_date" (CDate yesterday_date) config).

End Evaluation.

(** ** The window-expression parser *)

(** [re.match] anchors a pattern at the start of the text only.  The
    patterns of the parser all have the shape [name\((C+)\)] with a
    character class [C] that excludes the closing parenthesis, so a match
    is: the literal prefix, the longest run of [C], then [")"]. *)

Fixpoint strip_prefix (p s : string) : option string :=
  match p with
  | EmptyString => Some s
  | String a p' =>
      match s with
      | String b s' => if Ascii.eqb a b then strip_prefix p' s' else None
      | EmptyString => None
      end
  end.

Fixpoint span (f : ascii -> bool) (s : string) : string * string :=
  match s with
  | EmptyString => (EmptyString, EmptyString)
  | String c s' =>
      if f c then let '(g, r) := span f s' in (String c g, r)
      else (EmptyString, s)
  end.

Definition is_digit (c : ascii) : bool :=
  (48 <=? Z.of_nat (nat_of_ascii c)) && (Z.of_nat (nat_of_ascii c) <=? 57).

Definition not_close (c : ascii) : bool := negb (Ascii.eqb c ")").

Definition starts_with_close (s : string) : bool :=
  match s with
  | String c _ => Ascii.eqb c ")"
  | EmptyString => false
  end.

(** [re.match(name\((C+)\), text)]: group 1 of the match, if any. *)
Definition match_call (name : string) (cls : ascii -> bool) (text : string)
  : option string :=
  match strip_prefix (name ++ "(") text with
  | None => None
  | Some rest =>
      let '(g, rest') := span cls rest in
      match g with
      | EmptyString => None
      | _ => if starts_with_close rest' then Some g else None
      end
  end.

(** A fixed sequence of one-character classes, as in [\d\d\d\d-\d\d-\d\d]. *)
Fixpoint match_shape (shape : list (ascii -> bool)) (s : string)
  : option (string * string) :=
  match shape with
  | [] => Some (EmptyString, s)
  | f :: shape' =>
      match s with
      | String c s' =>
          if f c then
            match match_shape shape' s' with
            | Some (g, r) => Some (String c g, r)
            | None => None
            end
          else None
      | EmptyString => None
      end
  end.

Definition is_dash (c : ascii) : bool := Ascii.eqb c "-".

Definition date_shape : list (ascii -> bool) :=
  [is_digit; is_digit; is_digit; is_digit; is_dash;
   is_digit; is_digit; is_dash; is_digit; is_digit].

(** [re.match(r"since\((\d\d\d\d-\d\d-\d\d)\)", text)] *)
Definition match_since (text : string) : option string :=
  match strip_prefix "since(" text with
  | None => None
  | Some rest =>
      match match_shape date_shape rest with
      | Some (g, rest') => if starts_with_close rest' then Some g else None
      | None => None
      end
  end.

(** The decimal value of a string of digits. *)
Fixpoint int_acc (acc : Z) (s : string) : Z :=
  match s with
  | EmptyString => acc
  | String c s' => int_acc (10 * acc + (Z.of_nat (nat_of_ascii c) - 48)) s'
  end.

Definition decimal (s : string) : Z := int_acc 0 s.

(** [sys.get_int_max_str_digits()], by default. *)
Definition int_max_str_digits : Z := 4300.

(** [int(s)] on a string of decimal digits: a string of more digits than
    the limit, leading zeros counted, is a [ValueError]. *)
Definition int (s : string) : result Z :=
  if int_max_str_digits <? Z.of_nat (String.length s) then Raise ValueError
  else Ok (decimal s).

(** [datetime.strptime(s, "%Y-%m-%d").date()] on a string of the shape
    dddd-dd-dd: every rejection is a [ValueError].  The fields have four
    and two digits, far from every limit. *)
Definition strptime_date (s : string) : result date :=
  date_new (decimal (substring 0 4 s)) (decimal (substring 5 2 s))
           (decimal (substring 8 2 s)).

Definition parse_window (text : string) (line : Z) : result Column :=
  if String.eqb text "yesterday" then Ok (DaysAgo 0)
  else if String.eqb text "weekdayweekend" then Ok (WeekdayWeekend 0)
  else match match_call "daysago" is_digit text with
  | Some g => n <- int g ;; Ok (DaysAgo n)
  | None =>
  if String.eqb text "lastweek" then Ok (WeeksAgo 1)
  else match match_call "week" is_digit text with
  | Some g => n <- int g ;; Ok (WeeksAgo n)
  | None =>
  match match_call "trailingavg" is_digit text with
  | Some g => n <- int g ;; Ok (TrailingAverage n)
  | None =>
  if String.eqb text "month" then Ok (Month 1)
  else match match_call "month" is_digit text with
  | Some g => n <- int g ;; Ok (Month n)
  | None =>
  if String.eqb text "monthago" then Ok (MonthAgo 1)
  else match match_call "monthago" is_digit text with
  | Some g => n <- int g ;; Ok (MonthAgo n)
  | None =>
  if String.eqb text "wtd" then Ok (WeekToDate 0)
  else match match_call "wtd" is_digit text with
  | Some g => n <- int g ;; Ok (WeekToDate n)
  | None =>
  if String.eqb text "mtdavg" then Ok (MonthToDateAverage 0)
  else match match_call "mtdavg" is_digit text with
  | Some g => n <- int g ;; Ok (MonthToDateAverage n)
  | None =>
  if String.eqb text "mtd" then Ok (MonthToDate 0)
  else match match_call "mtd" is_digit text with
  | Some g => n <- int g ;; Ok (MonthToDate n)
  | None =>
  match match_since text with
  | Some g => since <- strptime_date g ;; Ok (SinceDate since)
  | None =>
  match match_call "goal" is_digit text with
  | Some g => Ok (NumberGoal g)
  | None =>
  match match_call "goal" not_close text with
  | Some g => Ok (FieldGoal g)
  | None =>
      Raise (ConfigError (Fmt "unknown column value '%s'" (YStr text))
                         line None)
  end end end end end end end end end end end.

(** [read_column_value_config(text, line)].  [text] is whatever the
    document holds under the key; for anything but a string the first
    [re.match] raises [TypeError]. *)
Definition read_column_value_config (text : yaml) (line : Z) : result Column :=
  match text with
  | YStr s => parse_window s line
  | _ => Raise TypeError
  end.

(** ** Validation of the configuration document *)

Definition config_error (A : Type) (text : string) (line : Z) : result A :=
  Raise (ConfigError (Text text) line None).

Arguments config_error {A} text line.

Definition yaml_is_str (v : yaml) (s : string) : bool :=
  match v with
  | YStr s' => String.eqb s' s
  | _ => false
  end.

(** [config[k]] once [k in config] has been tested. *)
Definition dict_item (m : mapping) (k : string) : result yaml :=
  match dict_get m k with
  | Some v => Ok v
  | None => Raise (KeyError k)
  end.

(** [NumberColumn.from_config] *)
Definition NumberColumn_from_config (config : mapping) : result ColumnDef :=
  let line := map_line config in
  if negb (dict_in "name" config) then
    config_error "missing name attribute for column" line
  else if negb (dict_in "value" config) then
    config_error "missing value attribute for column" line
  else
    name <- dict_item config "name" ;;
    text <- dict_item config "value" ;;
    value <- read_column_value_config text line ;;
    Ok (NumberColumn name value).

(** [PctChangeColumn.from_config] *)
Definition PctChangeColumn_from_config (config : mapping) : result ColumnDef :=
  let line := map_line config in
  if negb (dict_in "name" config) then
    config_error "missing name attribute for column" line
  else if negb (dict_in "value" config) then
    config_error "missing value attribute for column" line
  else if negb (dict_in "base" config) then
    config_error "missing base attribute for column" line
  else
    name <- dict_item config "name" ;;
    vtext <- dict_item config "value" ;;
    value <- read_column_value_config vtext line ;;
    btext <- dict_item config "base" ;;
    base <- read_column_value_config btext line ;;
    Ok (PctChangeColumn name value base).

(** [SparklineColumn.from_config] *)
Definition SparklineColumn_from_config (config : mapping) : result ColumnDef :=
  let name := match dict_get config "name" with Some v => v | None => YNull end in
  let days :=
    match dict_get config "days" with Some v => v | None => YNum (30 # 1) end in
  Ok (SparklineColumn name days).

(** The body of the loop of [read_column_config].  An entry that is not
    a mapping ends in a [TypeError] on every path: the membership test
    fails on a scalar, and indexing a string or a list by a key fails. *)
Definition read_one_column (column : yaml) : result ColumnDef :=
  match column with
  | YMap line entries =>
      let column := mkmap line entries in
      if negb (dict_in "type" column) then
        config_error "missing type attribute for column" line
      else
        type_ <- dict_item column "type" ;;
        if yaml_is_str type_ "number" then NumberColumn_from_config column
        else if yaml_is_str type_ "pctchange" then
          PctChangeColumn_from_config column
        else if yaml_is_str type_ "sparkline" then
          SparklineColumn_from_config column
        else Raise (ConfigError (Fmt "unknown column type '%s'" type_) line None)
  | _ => Raise TypeError
  end.

Definition read_column_config (config : list yaml) : result (list ColumnDef) :=
  mapM read_one_column config.

Definition row_types : list string := ["number"; "float"; "percent"; "currency"].

(** [type_ not in ["number", "float", "percent", "currency"]] *)
Definition row_type_of (type_ : yaml) : option string :=
  match type_ with
  | YStr s => if existsb (String.eqb s) row_types then Some s else None
  | _ => None
  end.

(** [STYLES[style_name]] under [except KeyError]: a list or a mapping is
    not hashable, which is a [TypeError]. *)
Definition lookup_style (style_name : yaml) (line : Z) : result style :=
  let unknown :=
    Raise (ConfigError (Fmt "unknown row style '%s'" style_name) line None) in
  match style_name with
  | YStr s => match STYLES s with Some st => Ok st | None => unknown end
  | YNull | YNum _ => unknown
  | YList _ | YMap _ _ => Raise TypeError
  end.

(** The body of the loop of [read_row_config]. *)
Definition read_one_row (row : yaml) : result Row :=
  match row with
  | YMap line entries =>
      let row := mkmap line entries in
      if negb (dict_in "name" row) then
        config_error "missing name attribute for row" line
      else if negb (dict_in "query" row) then
        config_error "missing query attribute for row" line
      else
        let type_ :=
          match dict_get row "type" with Some v => v | None => YStr "float" end in
        match row_type_of type_ with
        | None => Raise (ConfigError (Fmt "unknown row type '%s'" type_) line None)
        | Some ty =>
            let style_name :=
              match dict_get row "style" with
              | Some v => v
              | None => YStr "positive-green"
              end in
            st <- lookup_style style_name line ;;
            name <- dict_item row "name" ;;
            query <- dict_item row "query" ;;
            Ok (mkrow name query ty st [] row None None)
        end
  | _ => Raise TypeError
  end.

Definition read_row_config (config : list yaml) : result (list Row) :=
  mapM read_one_row config.

(** [except ConfigError as e: e.filename = filename; raise] *)
Definition with_filename (A : Type) (filename : string) (r : result A)
  : result A :=
  match r with
  | Raise (ConfigError msg line _) =>
      Raise (ConfigError msg line (Some filename))
  | _ => r
  end.

Definition lift_entries (m : mapping) : list (string * cfgval) :=
  map (fun kv => (fst kv, CYaml (snd kv))) (map_entries m).

(** The body of [read_config_from_string] on the loaded document, a
    mapping; the statements are those of the [try] block, in order. *)
Definition validate (config : mapping) : result Config :=
  if negb (dict_in "name" config) then
    config_error "missing toplevel name attribute" 1
  else if negb (dict_in "columns" config) then
    config_error "missing toplevel columns attribute" 1
  else
    columns <- dict_item config "columns" ;;
    match columns with
    | YList columns =>
        columns <- read_column_config columns ;;
        let parsed :=
          cfg_set "columns" (CColumns columns)
                  (mkconfig (map_line config) (lift_entries config)) in
        rows_ok <-
          (if dict_in "rows" config then
             rows <- dict_item config "rows" ;;
             match rows with
             | YList _ => Ok tt
             | _ => config_error "rows must be a list" 1
             end
           else Ok tt) ;;
        rows <- dict_item config "rows" ;;
        match rows with
        | YList rows =>
            rows <- read_row_config rows ;;
            Ok (cfg_set "rows" (CRows rows) parsed)
        | _ => Raise TypeError
        end
    | _ => config_error "columns must be a list" 1
    end.

Definition read_config_from_string (config : mapping) (filename : string)
  : result Config :=
  with_filename filename (validate config).

(** [read_config(path)] after the document has been loaded: every row's
    query file is read into [row.query]. *)
Definition load_query (read_text : string -> result string)
           (config_directory : string) (row : Row) : result Row :=
  match row_query row with
  | YStr p =>
      let query_path :=
        if is_absolute p then p else path_join config_directory p in
      sql <- read_text query_path ;;
      Ok (mkrow (row_name row) (YStr sql) (row_type row) (row_style row)
                (row_columns row) (row_fields row) (Some config_directory)
                (row_connection row))
  | _ => Raise TypeError
  end.

Definition read_config (read_text : string -> result string)
           (config_directory filename : string) (document : mapping)
  : result Config :=
  config <- read_config_from_string document filename ;;
  rows <- cfg_rows config ;;
  rows <- mapM (load_query read_text config_directory) rows ;;
  Ok (cfg_set "rows" (CRows rows) config).

(** ** Vocabulary of the statements *)

(** The ratio of the summed columns, undefined when the summed
    denominator is zero. *)
Definition ratio_of_sums (rows : list observation) : pyval :=
  let total := Qsum (map obs_total rows) in
  let over := Qsum (map obs_over rows) in
  if Qeq_bool over 0 then PNone else PNum (Fin (Qred (total / over))).

(** The windows that reduce their selection with [sum]. *)
Definition sum_window (c : Column) : bool :=
  match c with
  | DaysAgo _ | WeekdayWeekend _ | Month _ | MonthAgo _ | WeeksAgo _
  | WeekToDate _ | MonthToDate _ | SinceDate _ => true
  | _ => false
  end.

(** The reading of the specification for a ratio window: the ratio is
    taken per matched date, and one undefined ratio makes the sum
    undefined. *)
Definition per_date_ratio (o : observation) : option Q :=
  if Qeq_bool (obs_over o) 0 then None
  else Some (obs_total o / obs_over o)%Q.

Fixpoint sum_of_ratios_opt (rows : list observation) : option Q :=
  match rows with
  | [] => Some (0 # 1)%Q
  | o :: rows' =>
      match per_date_ratio o, sum_of_ratios_opt rows' with
      | Some r, Some s => Some (r + s)%Q
      | _, _ => None
      end
  end.

Definition sum_of_ratios (rows : list observation) : pyval :=
  match sum_of_ratios_opt rows with
  | Some s => PNum (Fin (Qred s))
  | None => PNone
  end.

(** The text holds a closing parenthesis. *)
Fixpoint has_close (s : string) : bool :=
  match s with
  | EmptyString => false
  | String c s' => Ascii.eqb c ")" || has_close s'
  end.

(** The eight expressions that are matched by equality. *)
Definition literals : list string :=
  ["yesterday"; "weekdayweekend"; "lastweek"; "month"; "monthago";
   "wtd"; "mtdavg"; "mtd"].

Definition is_literal (text : string) : bool :=
  existsb (String.eqb text) literals.

(** Every character of the text is in the class. *)
Fixpoint string_forall (f : ascii -> bool) (s : string) : bool :=
  match s with
  | EmptyString => true
  | String c s' => f c && string_forall f s'
  end.

(** What [evaluate_row] leaves of a row and what it overwrites. *)
Definition row_updated (conn : connection) (columns : list ColumnDef)
           (row row' : Row) : Prop :=
  row_name row' = row_name row /\
  row_query row' = row_query row /\
  row_type row' = row_type row /\
  row_style row' = row_style row /\
  row_fields row' = row_fields row /\
  row_config_directory row' = row_config_directory row /\
  row_connection row' = Some conn /\
  Forall2 (fun column value =>
             cv_name value = column_name column /\
             cv_template value = column_template column /\
             cv_type value = row_type row)
          columns (row_columns row').

(** The month and the day of the 0-based day [n] of a year, as the last
    part of [ord2ymd] computes them. *)
Definition month_day (n : Z) (leapyear : bool) : Z * Z :=
  let m := Z.shiftr (n + 50) 5 in
  let preceding :=
    DAYS_BEFORE_MONTH m + (if (2 <? m) && leapyear then 1 else 0) in
  if n <? preceding then
    let m' := m - 1 in
    let preceding' :=
      preceding - (DAYS_IN_MONTH m' + (if (m' =? 2) && leapyear then 1 else 0)) in
    (m', n - preceding' + 1)
  else (m, n - preceding + 1).

Definition month_day_ok (leapyear : bool) (n : Z) : bool :=
  let '(m, d) := month_day n leapyear in
  (1 <=? m) && (m <=? 12) && (1 <=? d)
  && (d <=? (if (m =? 2) && leapyear then 29 else DAYS_IN_MONTH m))
  && (DAYS_BEFORE_MONTH m + (if (2 <? m) && leapyear then 1 else 0) + d =? n + 1).

(** Every observation of the frame is dated with a calendar day. *)
Definition frame_valid (df : frame) : Prop :=
  Forall (fun o => valid_date (obs_date o)) (observations df).

(** The observations whose day number lies in [lo, hi]. *)
Definition on_days (lo hi : Z) (df : frame) : frame :=
  df_where (fun d => (lo <=? toordinal d) && (toordinal d <=? hi)) df.

(** The month after and the month before a month of a year. *)
Definition next_month (y m : Z) : Z * Z :=
  if m =? 12 then (y + 1, 1) else (y, m + 1).

Definition prev_month (y m : Z) : Z * Z :=
  if m =? 1 then (y - 1, 12) else (y, m - 1).

(** The observations of one calendar month, up to a day of it. *)
Definition in_month (y m last : Z) (df : frame) : frame :=
  df_where (fun d => (year d =? y) && (month d =? m) && (day d <=? last)) df.

(** The observations of one calendar month. *)
Definition whole_month (y m : Z) (df : frame) : frame :=
  df_where (fun d => (year d =? y) && (month d =? m)) df.

(** The windows that read the frame. *)
Definition table_window (c : Column) : bool :=
  match c with
  | NumberGoal _ | FieldGoal _ => false
  | _ => true
  end.

(** The patterns with one integer parameter and the window each builds,
    in the order the parser tries them. *)
Definition int_patterns : list (string * (Z -> Column)) :=
  [("daysago", DaysAgo); ("week", WeeksAgo); ("trailingavg", TrailingAverage);
   ("month", Month); ("monthago", MonthAgo); ("wtd", WeekToDate);
   ("mtdavg", MonthToDateAverage); ("mtd", MonthToDate)].

(** What the parser guarantees of a window it returns. *)
Definition well_formed (c : Column) : Prop :=
  match c with
  | TrailingAverage n | DaysAgo n | Month n | MonthAgo n | WeeksAgo n
  | WeekToDate n | MonthToDate n | MonthToDateAverage n => 0 <= n
  | WeekdayWeekend n => n = 0
  | SinceDate d => valid_date d
  | NumberGoal g => g <> EmptyString /\ string_forall is_digit g = true
  | FieldGoal k => k <> EmptyString /\ string_forall not_close k = true
  end.

(** The text holds an opening parenthesis. *)
Fixpoint has_open (s : string) : bool :=
  match s with
  | EmptyString => false
  | String c s' => Ascii.eqb c "(" || has_open s'
  end.

(** The windows of a column definition are well formed. *)
Definition column_well_formed (c : ColumnDef) : Prop :=
  match c with
  | NumberColumn _ value => well_formed value
  | PctChangeColumn _ value base => well_formed value /\ well_formed base
  | SparklineColumn _ _ => True
  end.

(** How [read_column_config] builds a column from a mapping of the
    document: the class is chosen by [type], the name is the entry's
    [name], and each window is what the parser returns for the text under
    [value] or [base], with the line of the mapping. *)
Definition window_of (m : mapping) (key : string) (w : Column) : Prop :=
  exists text,
    dict_get m key = Some (YStr text) /\
    parse_window text (map_line m) = Ok w.

Definition column_of (y : yaml) (c : ColumnDef) : Prop :=
  exists line entries,
    y = YMap line entries /\
    let m := mkmap line entries in
    match c with
    | NumberColumn name value =>
        dict_get m "type" = Some (YStr "number") /\
        dict_get m "name" = Some name /\
        window_of m "value" value
    | PctChangeColumn name value base =>
        dict_get m "type" = Some (YStr "pctchange") /\
        dict_get m "name" = Some name /\
        window_of m "value" value /\
        window_of m "base" base
    | SparklineColumn name days =>
        dict_get m "type" = Some (YStr "sparkline") /\
        name = match dict_get m "name" with Some v => v | None => YNull end /\
        days = match dict_get m "days" with
               | Some v => v
               | None => YNum (30 # 1)
               end
    end.

(** How [read_row_config] builds a row from a mapping of the document. *)
Definition row_of (y : yaml) (r : Row) : Prop :=
  exists line entries,
    y = YMap line entries /\
    let m := mkmap line entries in
    dict_get m "name" = Some (row_name r) /\
    dict_get m "query" = Some (row_query r) /\
    In (row_type r) row_types /\
    (dict_get m "type" = None -> row_type r = "float") /\
    (forall v, dict_get m "type" = Some v -> v = YStr (row_type r)) /\
    (dict_get m "style" = None -> row_style r = style_positive_green) /\
    (forall v, dict_get m "style" = Some v ->
               exists tag, v = YStr tag /\ STYLES tag = Some (row_style r)) /\
    row_columns r = [] /\
    row_fields r = m /\
    row_config_directory r = None /\
    row_connection r = None.

(** How [read_config] completes a validated row. *)
Definition row_loaded (read_text : string -> result string)
           (config_directory : string) (r0 r : Row) : Prop :=
  exists p sql,
    row_query r0 = YStr p /\
    read_text (if is_absolute p then p else path_join config_directory p)
    = Ok sql /\
    row_query r = YStr sql /\
    row_config_directory r = Some config_directory /\
    row_name r = row_name r0 /\
    row_type r = row_type r0 /\
    row_style r = row_style r0 /\
    row_columns r = row_columns r0 /\
    row_fields r = row_fields r0 /\
    row_connection r = row_connection r0.

(** ** Data for the concrete runs *)

(** Collaborators for runs that do not reach them, and a [format] that
    leaves its text as it is. *)
Definition no_sql : yaml -> connection -> result frame :=
  fun _ _ => Raise ValueError.
Definition no_text : string -> result string := fun _ => Raise ValueError.
Definition no_sparkline : yaml -> frame -> date -> result string :=
  fun _ _ _ => Raise ValueError.
Definition format_id : string -> date -> result string := fun s _ => Ok s.

(** Monday 2024-01-01 with [over] = 0 and Tuesday 2024-01-02. *)
Definition week_frame : frame :=
  mkframe true [mkobs (mkdate 2024 1 1) 1 0; mkobs (mkdate 2024 1 2) 1 1].

(** Friday 2024-01-05 to Sunday 2024-01-07, [total] only. *)
Definition weekend_frame : frame :=
  mkframe false [mkobs (mkdate 2024 1 5) 1 0; mkobs (mkdate 2024 1 6) 2 0;
                 mkobs (mkdate 2024 1 7) 4 0].

(** Two consecutive days, [total] only. *)
Definition two_day_frame : frame :=
  mkframe false [mkobs (mkdate 2024 1 9) 5 0; mkobs (mkdate 2024 1 10) 10 0].

(** A document with one valid column and no [rows] key:
<<
name: thealth
columns:
- name: yesterday
  type: number
  value: yesterday
>> *)
Definition doc_without_rows : mapping :=
  mkmap 1 [("name", YStr "thealth");
           ("columns",
            YList [YMap 3 [("name", YStr "yesterday");
                           ("type", YStr "number");
                           ("value", YStr "yesterday")]])].

(** The second column of this document has no [type]:
<<
name: thealth
columns:
- name: yesterday
  type: number
  value: yesterday
- name: last week
  value: lastweek
rows: this is never looked at
>> *)
Definition doc_column_without_type : mapping :=
  mkmap 1 [("name", YStr "thealth");
           ("columns",
            YList [YMap 3 [("name", YStr "yesterday");
                           ("type", YStr "number");
                           ("value", YStr "yesterday")];
                   YMap 6 [("name", YStr "last week");
                           ("value", YStr "lastweek")]]);
           ("rows", YStr "this is never looked at")].

(** A column mapping of the test documents. *)
Definition column (line : Z) (entries : list (string * yaml)) : yaml :=
  YMap line entries.

(** A valid document with one column and one row:
<<
name: thealth
columns:
- name: yesterday
  type: number
  value: yesterday
rows:
  - name: Email sends
    query: select date, total from sends
    type: number
>> *)
Definition doc_one_row : mapping :=
  mkmap 1 [("name", YStr "thealth");
           ("columns",
            YList [YMap 3 [("name", YStr "yesterday");
                           ("type", YStr "number");
                           ("value", YStr "yesterday")]]);
           ("rows",
            YList [YMap 7 [("name", YStr "Email sends");
                           ("query", YStr "select date, total from sends");
                           ("type", YStr "number")]])].

(** A database that answers every query with [two_day_frame]. *)
Definition sql_two_days : yaml -> connection -> result frame :=
  fun _ _ => Ok two_day_frame.

(** The row object as validation leaves it, and after [build_message]. *)
Definition row_parsed : Row :=
  mkrow (YStr "Email sends") (YStr "select date, total from sends") "number"
        style_positive_green []
        (mkmap 7 [("name", YStr "Email sends");
                  ("query", YStr "select date, total from sends");
                  ("type", YStr "number")])
        None None.

Definition row_evaluated : Row :=
  mkrow (YStr "Email sends") (YStr "select date, total from sends") "number"
        style_positive_green
        [mkvalue (YStr "yesterday") "column_number.md" (PNum (Fin 10)) "number"]
        (mkmap 7 [("name", YStr "Email sends");
                  ("query", YStr "select date, total from sends");
                  ("type", YStr "number")])
        None (Some (Connection 1)).

Definition config_parsed : Config :=
  mkconfig 1 [("name", CYaml (YStr "thealth"));
              ("columns",
               CColumns [NumberColumn (YStr "yesterday") (DaysAgo 0)]);
              ("rows", CRows [row_parsed])].

Definition config_evaluated : Config :=
  mkconfig 1 [("name", CYaml (YStr "thealth"));
              ("columns",
               CColumns [NumberColumn (YStr "yesterday") (DaysAgo 0)]);
              ("rows", CRows [row_evaluated]);
              ("table", CRows [row_evaluated]);
              ("yesterday_date", CDate (mkdate 2024 1 10))].

(** A run of n zeros. *)
Fixpoint zeros (n : nat) : string :=
  match n with
  | O => EmptyString
  | S n' => String "0" (zeros n')
  end.

(** A file system in which every query file holds the same text. *)
Definition stored_query : string -> result string :=
  fun _ => Ok "select date, total from sends".

(** The configuration of [doc_one_row], read from the directory
    [reports] with [stored_query]. *)
Definition config_loaded : Config :=
  mkconfig 1 [("name", CYaml (YStr "thealth"));
              ("columns",
               CColumns [NumberColumn (YStr "yesterday") (DaysAgo 0)]);
              ("rows",
               CRows [mkrow (YStr "Email sends")
                            (YStr "select date, total from sends") "number"
                            style_positive_green []
                            (mkmap 7 [("name", YStr "Email sends");
                                      ("query",
                                       YStr "select date, total from sends");
                                      ("type", YStr "number")])
                            (Some "reports") None])].

(** * Properties *)

Unset Implicit Arguments.

(** ** Test runs of the embedding *)

Example ord_2024_01_06 : toordinal (mkdate 2024 1 6) = 738891.
Proof. reflexivity. Qed.

Example from_ord_2024_01_06 : ord2ymd 738891 = mkdate 2024 1 6.
Proof. reflexivity. Qed.

Example weekday_2024_01_06 : weekday (mkdate 2024 1 6) = 5.
Proof. reflexivity. Qed.

Example max_ordinal : toordinal (mkdate 9999 12 31) = MAXORDINAL.
Proof. reflexivity. Qed.

Example parse_daysago : parse_window "daysago(3)" 4 = Ok (DaysAgo 3).
Proof. reflexivity. Qed.

Example parse_since :
  parse_window "since(2000-01-01)" 4 = Ok (SinceDate (mkdate 2000 1 1)).
Proof. reflexivity. Qed.

Example parse_since_invalid :
  parse_window "since(2000-02-30)" 4 = Raise ValueError.
Proof. reflexivity. Qed.

Example parse_unknown :
  parse_window "after(2000-01-01)" 4
  = Raise (ConfigError (Fmt "unknown column value '%s'"
                            (YStr "after(2000-01-01)")) 4 None).
Proof. reflexivity. Qed.

(** ** Rationals in lowest terms *)

Lemma Qeq_bool_Qred_0 (x : Q) : Qeq_bool (Qred x) 0 = Qeq_bool x 0.
Proof.
  apply eq_true_iff_eq. rewrite !Qeq_bool_iff, Qred_correct. reflexivity.
Qed.

Lemma Qred_div_Qred (a b : Q) : Qred (Qred a / Qred b) = Qred (a / b).
Proof.
  apply Qred_complete. rewrite !Qred_correct. reflexivity.
Qed.

(** ** Frames *)

Lemma filter_none (A : Type) (f : A -> bool) (l : list A) :
  (forall a, In a l -> f a = false) -> filter f l = [].
Proof.
  induction l as [|a l IH]; intros H; simpl; [reflexivity|].
  rewrite (H a (or_introl eq_refl)). apply IH. intros b Hb.
  apply H. right. exact Hb.
Qed.

Lemma total_over_of_sum (df : frame) :
  has_over df = true ->
  calculate_total_over (df_sum df) = ratio_of_sums (observations df).
Proof.
  intros Hover.
  unfold calculate_total_over, df_sum, df_reduce, ratio_of_sums, col_sum.
  cbn [s_total s_over]. rewrite Hover. cbn [num_is_zero num_div].
  rewrite Qeq_bool_Qred_0.
  destruct (Qeq_bool _ 0); [reflexivity|].
  rewrite Qred_div_Qred. reflexivity.
Qed.

Lemma total_over_of_nothing (df : frame) (mask : date -> bool) :
  (forall o, In o (observations df) -> mask (obs_date o) = false) ->
  calculate_total_over (df_sum (df_where mask df))
  = if has_over df then PNone else PNum (Fin 0).
Proof.
  intros Hnone.
  unfold calculate_total_over, df_sum, df_reduce, df_where. simpl.
  rewrite (filter_none _ (fun o => mask (obs_date o)) (observations df) Hnone).
  destruct (has_over df); reflexivity.
Qed.

Ltac step_bind H :=
  match type of H with
  | context [bind ?r _] =>
      let E := fresh "E" in
      destruct r eqn:E; simpl in H; try discriminate H
  end.

Section WindowProperties.

Variable read_sql_query : yaml -> connection -> result frame.
Variable read_text : string -> result string.
Variable sparkline : yaml -> frame -> date -> result string.

Local Abbreviation eval' := (eval read_sql_query read_text).
Local Abbreviation column_eval' :=
  (column_eval read_sql_query read_text sparkline).

(** C1 (as amended).  A window that sums, evaluated over a frame with an
    [over] column, selects its dates from the anchor alone, sums [total]
    and [over] separately over the selected rows and only then divides:
    the result is the ratio of the two sums, and it is [None] exactly when
    the summed [over] is zero. *)
Theorem C1_ratio_of_sums :
  forall fuel c df today row v,
    sum_window c = true ->
    has_over df = true ->
    eval' fuel c df today row = Ok v ->
    exists mask,
      (forall df',
          eval' fuel c df' today row
          = Ok (calculate_total_over (df_sum (df_where mask df')))) /\
      v = ratio_of_sums (observations (df_where mask df)).
Proof.
  intros fuel c df today row v Hsum Hover Heval.
  assert (Hshape :
    exists mask, forall df',
        eval' fuel c df' today row
        = Ok (calculate_total_over (df_sum (df_where mask df')))).
  { unfold eval in *.
    destruct c; try discriminate Hsum.
    - step_bind Heval. eexists. intros df'. simpl. reflexivity.
    - step_bind Heval. step_bind Heval.
      eexists. intros df'. simpl. rewrite E0. simpl. reflexivity.
    - destruct (shift_month today months_ago) as [nm ny].
      do 4 step_bind Heval.
      eexists. intros df'. simpl. rewrite E0. simpl. rewrite E1. simpl.
      rewrite E2. simpl. reflexivity.
    - step_bind Heval. eexists. intros df'. simpl. reflexivity.
    - do 4 step_bind Heval.
      eexists. intros df'. simpl. rewrite E0. simpl. rewrite E1. simpl.
      rewrite E2. simpl. reflexivity.
    - do 3 step_bind Heval.
      eexists. intros df'. simpl. rewrite E0. simpl. rewrite E1. simpl.
      reflexivity.
    - do 2 step_bind Heval.
      eexists. intros df'. simpl. rewrite E0. simpl. reflexivity.
    - eexists. intros df'. reflexivity. }
  destruct Hshape as [mask Hmask]. exists mask. split; [exact Hmask|].
  rewrite (Hmask df) in Heval. injection Heval as <-.
  apply total_over_of_sum. exact Hover.
Qed.

(** C2 (as amended).  A single-date window whose date has no observation
    evaluates without an exception to the reduction of an empty
    selection: [None] when the frame has an [over] column (the summed
    denominator is 0), and the number 0 when it has none. *)
Theorem C2_single_date_absent :
  forall fuel df today row target,
    (forall o, In o (observations df) -> date_eqb (obs_date o) target = false) ->
    (forall n,
        sub_days today n = Ok target ->
        eval' fuel (DaysAgo n) df today row
        = Ok (if has_over df then PNone else PNum (Fin 0))) /\
    (forall n,
        month_target fuel today n = Ok target ->
        eval' fuel (MonthAgo n) df today row
        = Ok (if has_over df then PNone else PNum (Fin 0))).
Proof.
  intros fuel df today row target Habsent.
  split; intros n Htarget; unfold eval; rewrite Htarget; simpl;
    f_equal; apply total_over_of_nothing; exact Habsent.
Qed.

(** C6.  [PctChangeColumn.eval] evaluates [value] and [base] on the same
    frame, anchor and row and combines the two results: [None] if either
    is [None]; 0 if both are zero; [None] if [base] is zero and [value] is
    not; otherwise 100 * value / base - 100. *)
Theorem C6_pct_change_cases :
  forall fuel name value base dt today row v b,
    eval' fuel value dt today row = Ok v ->
    eval' fuel base dt today row = Ok b ->
    let r := column_eval' fuel (PctChangeColumn name value base) dt today row in
    (v = PNone \/ b = PNone -> r = Ok PNone) /\
    (forall x y, v = PNum (Fin x) -> b = PNum (Fin y) ->
                 (x == 0)%Q -> (y == 0)%Q -> r = Ok (PNum (Fin 0))) /\
    (forall y, b = PNum (Fin y) -> (y == 0)%Q ->
               v <> PNone -> py_is_zero v = false -> r = Ok PNone) /\
    (forall x y, v = PNum (Fin x) -> b = PNum (Fin y) -> ~ (y == 0)%Q ->
                 r = Ok (PNum (Fin (Qred (100 * x / y - 100)%Q)))).
Proof.
  intros fuel name value base dt today row v b Hv Hb r.
  assert (Hr : r = pct_change v b).
  { subst r. unfold column_eval.
    rewrite Hv. simpl. rewrite Hb. reflexivity. }
  rewrite Hr. clear Hr r. repeat split.
  - intros [-> | ->]; [reflexivity|]. destruct v; reflexivity.
  - intros x y -> -> Hx Hy. unfold pct_change. simpl.
    apply Qeq_bool_iff in Hx, Hy. rewrite Hx, Hy. reflexivity.
  - intros y -> Hy Hnone Hnz. apply Qeq_bool_iff in Hy.
    destruct v as [|n|s]; [contradiction| |]; unfold pct_change; simpl in *;
      rewrite Hy; simpl; try rewrite Hnz; reflexivity.
  - intros x y -> -> Hy. unfold pct_change. simpl.
    destruct (Qeq_bool y 0) eqn:E; [|reflexivity].
    apply Qeq_bool_iff in E. contradiction.
Qed.

End WindowProperties.

(** ** Month arithmetic *)

Lemma days_in_month_bounds (y m : Z) :
  1 <= m <= 12 -> 28 <= days_in_month y m <= 31.
Proof.
  intros Hm.
  assert (Hcases : m = 1 \/ m = 2 \/ m = 3 \/ m = 4 \/ m = 5 \/ m = 6 \/
                   m = 7 \/ m = 8 \/ m = 9 \/ m = 10 \/ m = 11 \/ m = 12)
    by lia.
  unfold days_in_month.
  repeat (destruct Hcases as [-> | Hcases]); try subst m;
    simpl; destruct (is_leap y); simpl; lia.
Qed.

Lemma valid_ymd_iff (y m d : Z) :
  valid_ymd y m d = true <->
  1 <= y <= 9999 /\ 1 <= m <= 12 /\ 1 <= d <= days_in_month y m.
Proof.
  unfold valid_ymd, MINYEAR, MAXYEAR.
  rewrite !andb_true_iff, !Z.leb_le. intuition lia.
Qed.

Lemma c_int_iff (z : Z) : c_int z = true <-> INT_MIN <= z <= INT_MAX.
Proof. unfold c_int. rewrite andb_true_iff, !Z.leb_le. reflexivity. Qed.

Lemma c_int_small (z : Z) : -10000 <= z <= 10000 -> c_int z = true.
Proof. intros H. apply c_int_iff. unfold INT_MIN, INT_MAX. lia. Qed.

(** Fields that name a calendar day fit a C [int]. *)
Lemma date_new_valid_ymd (y m d : Z) :
  valid_ymd y m d = true -> date_new y m d = Ok (mkdate y m d).
Proof.
  intros Hv. unfold date_new. rewrite Hv.
  apply valid_ymd_iff in Hv. destruct Hv as (Hy & Hm & Hd).
  pose proof (days_in_month_bounds y m Hm) as Hdim.
  rewrite !c_int_small by lia. reflexivity.
Qed.

Lemma date_new_invalid (y m d : Z) :
  c_int y = true -> c_int m = true -> c_int d = true ->
  valid_ymd y m d = false -> date_new y m d = Raise ValueError.
Proof.
  intros Hy Hm Hd Hv. unfold date_new. rewrite Hy, Hm, Hd, Hv. reflexivity.
Qed.

Lemma date_new_overflow (y m d : Z) :
  c_int y = false \/ c_int m = false \/ c_int d = false ->
  date_new y m d = Raise OverflowError.
Proof.
  intros H. unfold date_new.
  destruct H as [H | [H | H]]; rewrite H; rewrite ?andb_false_r; reflexivity.
Qed.

Lemma date_new_ok (y m d : Z) (t : date) :
  date_new y m d = Ok t -> valid_ymd y m d = true /\ t = mkdate y m d.
Proof.
  unfold date_new. destruct (c_int y && c_int m && c_int d); [|discriminate].
  destruct (valid_ymd y m d); [|discriminate].
  intros H. injection H as <-. split; reflexivity.
Qed.

(** The month loop keeps the month count [12 * year + month] and ends
    with a month in 1..12. *)
Lemma wrap_month_spec (fuel : nat) :
  forall m y,
    m <= 12 -> 1 - m <= Z.of_nat fuel ->
    1 <= fst (wrap_month fuel m y) <= 12 /\
    12 * snd (wrap_month fuel m y) + fst (wrap_month fuel m y) = 12 * y + m.
Proof.
  induction fuel as [|fuel IH]; intros m y Hm Hfuel.
  - cbn [wrap_month].
    destruct (m <? 1) eqn:E; cbn [fst snd]; [apply Z.ltb_lt in E|]; lia.
  - cbn [wrap_month]. destruct (m <? 1) eqn:E.
    + apply Z.ltb_lt in E.
      destruct (IH (m + 12) (y - 1)) as [H1 H2]; [lia | lia |].
      split; [exact H1 | lia].
    + apply Z.ltb_ge in E. cbn [fst snd]. lia.
Qed.

(** With a year and a month that exist, the clamping loop stops at the
    first day that the month has. *)
Lemma clamp_day_spec (fuel : nat) :
  forall today ny nm e,
    1 <= ny <= 9999 -> 1 <= nm <= 12 ->
    1 <= day today - e <= 31 ->
    (0 < fuel)%nat ->
    day today - e - days_in_month ny nm < Z.of_nat fuel ->
    clamp_day fuel today ny nm e
    = Ok (mkdate ny nm (Z.min (day today - e) (days_in_month ny nm))).
Proof.
  induction fuel as [|fuel IH]; intros today ny nm e Hy Hm Hd Hpos Hfuel.
  - exfalso. lia.
  - pose proof (days_in_month_bounds ny nm Hm) as Hdim.
    cbn [clamp_day].
    destruct (valid_ymd ny nm (day today - e)) eqn:E.
    + rewrite (date_new_valid_ymd _ _ _ E).
      apply valid_ymd_iff in E. rewrite Z.min_l by lia. reflexivity.
    + rewrite (date_new_invalid _ _ _) by (exact E || (apply c_int_small; lia)).
      assert (Hlate : days_in_month ny nm < day today - e).
      { destruct (Z.lt_ge_cases (days_in_month ny nm) (day today - e))
          as [Hlt | Hge]; [exact Hlt|].
        assert (Hv : valid_ymd ny nm (day today - e) = true)
          by (apply valid_ymd_iff; lia).
        rewrite Hv in E. discriminate E. }
      rewrite IH by lia.
      rewrite !Z.min_r by lia. reflexivity.
Qed.

(** With a year out of range no day is ever accepted: the loop does not
    leave with a date. *)
Lemma clamp_day_year_out_of_range (fuel : nat) :
  forall today ny nm e target,
    ny < 1 -> clamp_day fuel today ny nm e <> Ok target.
Proof.
  induction fuel as [|fuel IH]; intros today ny nm e target Hy;
    cbn [clamp_day]; [discriminate|].
  destruct (date_new ny nm (day today - e)) as [t|ex|] eqn:E.
  - apply date_new_ok in E. destruct E as [E _].
    apply valid_ymd_iff in E. lia.
  - destruct ex; try discriminate. apply IH. exact Hy.
  - discriminate.
Qed.

(** C7 (as amended).  For a valid anchor and n >= 0 such that the month
    n months before the anchor's month still lies in year 1 or later,
    [MonthAgo(n)] returns without an exception, after at most three
    decrements of the day: it selects the one date in that month whose
    day is the anchor's day, lowered to the last day of the month when
    the month is shorter. *)
Theorem C7_month_ago_target :
  forall (read_sql_query : yaml -> connection -> result frame)
         (read_text : string -> result string)
         fuel df today row n,
    valid_date today ->
    0 <= n ->
    n < 12 * (year today - 1) + month today ->
    (4 <= fuel)%nat ->
    exists ny nm,
      1 <= nm <= 12 /\
      12 * ny + nm = 12 * year today + month today - n /\
      let target := mkdate ny nm (Z.min (day today) (days_in_month ny nm)) in
      valid_date target /\
      month_target fuel today n = Ok target /\
      eval read_sql_query read_text fuel (MonthAgo n) df today row
      = Ok (calculate_total_over
              (df_sum (df_where (fun d => date_eqb d target) df))).
Proof.
  intros rsq rt fuel df today row n Hvalid Hn Hrange Hfuel.
  apply valid_ymd_iff in Hvalid. destruct Hvalid as (Hy & Hm & Hd).
  pose proof (days_in_month_bounds (year today) (month today) Hm) as Hdim.
  pose proof (wrap_month_spec (Z.to_nat (1 - (month today - n)))
                              (month today - n) (year today)) as Hwrap.
  change (wrap_month (Z.to_nat (1 - (month today - n)))
                     (month today - n) (year today))
    with (shift_month today n) in Hwrap.
  destruct (shift_month today n) as [nm ny] eqn:Hshift.
  cbn [fst snd] in Hwrap.
  destruct Hwrap as [Hnm Hcount]; [lia | lia |].
  assert (Hny : 1 <= ny <= 9999) by lia.
  pose proof (days_in_month_bounds ny nm Hnm) as Hdim'.
  assert (Htarget :
    month_target fuel today n
    = Ok (mkdate ny nm (Z.min (day today) (days_in_month ny nm)))).
  { unfold month_target. rewrite Hshift.
    rewrite clamp_day_spec by lia.
    rewrite Z.sub_0_r. reflexivity. }
  exists ny, nm. split; [exact Hnm|]. split; [lia|].
  cbv zeta. split; [|split].
  - apply valid_ymd_iff. simpl. lia.
  - exact Htarget.
  - unfold eval. rewrite Htarget. reflexivity.
Qed.

(** ** Matching at the start of the text *)

Lemma has_close_app (s t : string) :
  has_close (s ++ t) = has_close s || has_close t.
Proof.
  induction s as [|c s IH]; simpl; [reflexivity|].
  rewrite IH. apply orb_assoc.
Qed.

Lemma strip_prefix_split (p : string) :
  forall s r, strip_prefix p s = Some r -> s = p ++ r.
Proof.
  induction p as [|a p IH]; intros s r H; simpl in *.
  - injection H as ->. reflexivity.
  - destruct s as [|b s]; [discriminate H|].
    destruct (Ascii.eqb a b) eqn:E; [|discriminate H].
    apply Ascii.eqb_eq in E. subst b. f_equal. apply IH. exact H.
Qed.

Lemma strip_prefix_app (p : string) :
  forall s r t, strip_prefix p s = Some r -> strip_prefix p (s ++ t) = Some (r ++ t).
Proof.
  induction p as [|a p IH]; intros s r t H; simpl in *.
  - injection H as ->. reflexivity.
  - destruct s as [|b s]; [discriminate H|]. simpl.
    destruct (Ascii.eqb a b); [|discriminate H].
    apply IH. exact H.
Qed.

(** A prefix test that failed on a text holding a closing parenthesis
    fails however the text is continued, when the prefix holds none. *)
Lemma strip_prefix_none_app (p : string) :
  forall s t,
    strip_prefix p s = None -> has_close s = true -> has_close p = false ->
    strip_prefix p (s ++ t) = None.
Proof.
  induction p as [|a p IH]; intros s t H Hs Hp; simpl in *.
  - discriminate H.
  - destruct s as [|b s]; [discriminate Hs|]. simpl in *.
    apply orb_false_iff in Hp. destruct Hp as [Ha Hp].
    destruct (Ascii.eqb a b) eqn:E; [|reflexivity].
    apply Ascii.eqb_eq in E. subst b. rewrite Ha in Hs. simpl in Hs.
    apply IH; assumption.
Qed.

Lemma span_split (cls : ascii -> bool) (s : string) :
  forall g r, span cls s = (g, r) -> s = g ++ r.
Proof.
  induction s as [|c s IH]; intros g r H; simpl in H.
  - injection H as <- <-. reflexivity.
  - destruct (cls c).
    + destruct (span cls s) as [g' r'] eqn:E. injection H as <- <-.
      simpl. f_equal. apply IH. reflexivity.
    + injection H as <- <-. reflexivity.
Qed.

Lemma span_no_close (cls : ascii -> bool) (s : string) :
  cls ")"%char = false ->
  forall g r, span cls s = (g, r) -> has_close g = false.
Proof.
  intros Hcls. induction s as [|c s IH]; intros g r H; simpl in H.
  - injection H as <- <-. reflexivity.
  - destruct (cls c) eqn:Ec.
    + destruct (span cls s) as [g' r'] eqn:E. injection H as <- <-.
      simpl. rewrite (IH g' r' eq_refl), orb_false_r.
      destruct (Ascii.eqb c ")") eqn:E'; [|reflexivity].
      apply Ascii.eqb_eq in E'. subst c. rewrite Hcls in Ec. discriminate Ec.
    + injection H as <- <-. reflexivity.
Qed.

(** The longest run of a class is the same when text is appended, unless
    the run reached the end of the text. *)
Lemma span_app (cls : ascii -> bool) (s : string) :
  forall g r t,
    span cls s = (g, r) -> r <> EmptyString -> span cls (s ++ t) = (g, r ++ t).
Proof.
  induction s as [|c s IH]; intros g r t H Hr; simpl in H.
  - injection H as <- <-. contradiction.
  - simpl. destruct (cls c).
    + destruct (span cls s) as [g' r'] eqn:E. injection H as <- <-.
      rewrite (IH g' r' t eq_refl Hr). reflexivity.
    + injection H as <- <-. reflexivity.
Qed.

Lemma starts_with_close_app (r t : string) :
  r <> EmptyString -> starts_with_close (r ++ t) = starts_with_close r.
Proof.
  destruct r; [contradiction | reflexivity].
Qed.

Lemma starts_with_close_nonempty (r : string) :
  starts_with_close r = true -> r <> EmptyString.
Proof.
  destruct r; [discriminate | discriminate].
Qed.

Lemma starts_with_close_has_close (r : string) :
  starts_with_close r = true -> has_close r = true.
Proof.
  destruct r as [|c r]; simpl; [discriminate|]. intros ->. reflexivity.
Qed.

Section MatchCall.

Variable name : string.
Variable cls : ascii -> bool.
Hypothesis name_no_close : has_close (name ++ "(") = false.
Hypothesis cls_no_close : cls ")"%char = false.

Lemma match_call_has_close (p g : string) :
  match_call name cls p = Some g -> has_close p = true.
Proof.
  unfold match_call. intros H.
  destruct (strip_prefix (name ++ "(") p) as [rest|] eqn:Es; [|discriminate H].
  destruct (span cls rest) as [g' rest'] eqn:Esp.
  destruct g'; [discriminate H|].
  destruct (starts_with_close rest') eqn:Ec; [|discriminate H].
  rewrite (strip_prefix_split _ _ _ Es), (span_split _ _ _ _ Esp).
  rewrite !has_close_app, (starts_with_close_has_close _ Ec).
  rewrite !orb_true_r. reflexivity.
Qed.

(** A match is kept when the text is continued. *)
Lemma match_call_app (p g t : string) :
  match_call name cls p = Some g -> match_call name cls (p ++ t) = Some g.
Proof.
  unfold match_call. intros H.
  destruct (strip_prefix (name ++ "(") p) as [rest|] eqn:Es; [|discriminate H].
  rewrite (strip_prefix_app _ _ _ t Es).
  destruct (span cls rest) as [g' rest'] eqn:Esp.
  destruct g' as [|c g']; [discriminate H|].
  destruct (starts_with_close rest') eqn:Ec; [|discriminate H].
  pose proof (starts_with_close_nonempty _ Ec) as Hne.
  rewrite (span_app _ _ _ _ t Esp Hne).
  rewrite (starts_with_close_app _ t Hne), Ec. exact H.
Qed.

(** A failed match stays failed when a text that holds a closing
    parenthesis is continued. *)
Lemma match_call_none_app (p t : string) :
  match_call name cls p = None -> has_close p = true ->
  match_call name cls (p ++ t) = None.
Proof.
  unfold match_call. intros H Hp.
  destruct (strip_prefix (name ++ "(") p) as [rest|] eqn:Es.
  - rewrite (strip_prefix_app _ _ _ t Es).
    destruct (span cls rest) as [g' rest'] eqn:Esp.
    assert (Hne : rest' <> EmptyString).
    { intros ->.
      rewrite (strip_prefix_split _ _ _ Es), (span_split _ _ _ _ Esp) in Hp.
      rewrite has_close_app, name_no_close, has_close_app in Hp.
      rewrite (span_no_close _ _ cls_no_close _ _ Esp) in Hp.
      discriminate Hp. }
    rewrite (span_app _ _ _ _ t Esp Hne).
    rewrite (starts_with_close_app _ t Hne). exact H.
  - rewrite (strip_prefix_none_app _ _ t Es Hp name_no_close). reflexivity.
Qed.

End MatchCall.

Lemma match_shape_split (shape : list (ascii -> bool)) :
  Forall (fun f => f ")"%char = false) shape ->
  forall s g r,
    match_shape shape s = Some (g, r) -> s = g ++ r /\ has_close g = false.
Proof.
  induction 1 as [|f shape Hf _ IH]; intros s g r H; simpl in H.
  - injection H as <- <-. split; reflexivity.
  - destruct s as [|c s]; [discriminate H|].
    destruct (f c) eqn:Efc; [|discriminate H].
    destruct (match_shape shape s) as [[g' r']|] eqn:E; [|discriminate H].
    injection H as <- <-. destruct (IH s g' r' E) as [-> Hg].
    split; [reflexivity|]. simpl. rewrite Hg, orb_false_r.
    destruct (Ascii.eqb c ")") eqn:E'; [|reflexivity].
    apply Ascii.eqb_eq in E'. subst c. rewrite Hf in Efc. discriminate Efc.
Qed.

Lemma match_shape_app (shape : list (ascii -> bool)) :
  forall s g r t,
    match_shape shape s = Some (g, r) ->
    match_shape shape (s ++ t) = Some (g, r ++ t).
Proof.
  induction shape as [|f shape IH]; intros s g r t H; simpl in H.
  - injection H as <- <-. reflexivity.
  - destruct s as [|c s]; [discriminate H|]. simpl.
    destruct (f c); [|discriminate H].
    destruct (match_shape shape s) as [[g' r']|] eqn:E; [|discriminate H].
    injection H as <- <-. rewrite (IH s g' r' t E). reflexivity.
Qed.

Lemma match_shape_none_app (shape : list (ascii -> bool)) :
  Forall (fun f => f ")"%char = false) shape ->
  forall s t,
    match_shape shape s = None -> has_close s = true ->
    match_shape shape (s ++ t) = None.
Proof.
  induction 1 as [|f shape Hf _ IH]; intros s t H Hs; simpl in H.
  - discriminate H.
  - destruct s as [|c s]; [discriminate Hs|]. simpl in *.
    destruct (f c) eqn:Efc; [|reflexivity].
    assert (Hc : Ascii.eqb c ")" = false).
    { destruct (Ascii.eqb c ")") eqn:E'; [|reflexivity].
      apply Ascii.eqb_eq in E'. subst c. rewrite Hf in Efc. discriminate Efc. }
    rewrite Hc in Hs. simpl in Hs.
    destruct (match_shape shape s) as [[g' r']|] eqn:E; [discriminate H|].
    rewrite (IH s t E Hs). reflexivity.
Qed.

Lemma date_shape_no_close : Forall (fun f => f ")"%char = false) date_shape.
Proof. repeat constructor. Qed.

Lemma match_since_has_close (p g : string) :
  match_since p = Some g -> has_close p = true.
Proof.
  unfold match_since. intros H.
  destruct (strip_prefix "since(" p) as [rest|] eqn:Es; [|discriminate H].
  destruct (match_shape date_shape rest) as [[g' rest']|] eqn:Esh;
    [|discriminate H].
  destruct (starts_with_close rest') eqn:Ec; [|discriminate H].
  destruct (match_shape_split _ date_shape_no_close _ _ _ Esh) as [Hrest _].
  rewrite (strip_prefix_split _ _ _ Es), Hrest.
  rewrite !has_close_app, (starts_with_close_has_close _ Ec).
  rewrite !orb_true_r. reflexivity.
Qed.

Lemma match_since_app (p g t : string) :
  match_since p = Some g -> match_since (p ++ t) = Some g.
Proof.
  unfold match_since. intros H.
  destruct (strip_prefix "since(" p) as [rest|] eqn:Es; [|discriminate H].
  rewrite (strip_prefix_app _ _ _ t Es).
  destruct (match_shape date_shape rest) as [[g' rest']|] eqn:Esh;
    [|discriminate H].
  rewrite (match_shape_app _ _ _ _ t Esh).
  destruct (starts_with_close rest') eqn:Ec; [|discriminate H].
  rewrite (starts_with_close_app _ t (starts_with_close_nonempty _ Ec)), Ec.
  exact H.
Qed.

Lemma match_since_none_app (p t : string) :
  match_since p = None -> has_close p = true -> match_since (p ++ t) = None.
Proof.
  unfold match_since. intros H Hp.
  destruct (strip_prefix "since(" p) as [rest|] eqn:Es.
  - rewrite (strip_prefix_app _ _ _ t Es).
    assert (Hrest : has_close rest = true).
    { rewrite (strip_prefix_split _ _ _ Es), has_close_app in Hp.
      exact Hp. }
    destruct (match_shape date_shape rest) as [[g' rest']|] eqn:Esh.
    + rewrite (match_shape_app _ _ _ _ t Esh).
      destruct (match_shape_split _ date_shape_no_close _ _ _ Esh)
        as [Hsplit Hg].
      assert (Hne : rest' <> EmptyString).
      { intros ->. rewrite Hsplit, has_close_app, Hg in Hrest.
        discriminate Hrest. }
      rewrite (starts_with_close_app _ t Hne). exact H.
    + rewrite (match_shape_none_app _ date_shape_no_close _ t Esh Hrest).
      reflexivity.
  - rewrite (strip_prefix_none_app _ _ t Es Hp eq_refl). reflexivity.
Qed.

Lemma eqb_app_literal (p t lit : string) :
  has_close p = true -> has_close lit = false ->
  String.eqb (p ++ t) lit = false.
Proof.
  intros Hp Hlit. destruct (String.eqb (p ++ t) lit) eqn:E; [|reflexivity].
  apply String.eqb_eq in E. rewrite <- E, has_close_app, Hp in Hlit.
  discriminate Hlit.
Qed.

Lemma eqb_literal_no_close (p lit : string) :
  has_close p = true -> has_close lit = false -> String.eqb p lit = false.
Proof.
  intros Hp Hlit. destruct (String.eqb p lit) eqn:E; [|reflexivity].
  apply String.eqb_eq in E. subst lit. rewrite Hp in Hlit. discriminate Hlit.
Qed.

Ltac split_literals H :=
  unfold is_literal, literals in H; cbn [existsb] in H;
  repeat (apply orb_false_iff in H;
          let H' := fresh "Hlit" in destruct H as [H' H]).

Ltac use_literals p H :=
  repeat match goal with
         | L : String.eqb p _ = false |- _ => rewrite L in H; clear L
         end.

(** An expression accepted by one of the parameterized patterns holds a
    closing parenthesis. *)
Lemma parse_window_has_close (p : string) (line : Z) (spec : Column) :
  parse_window p line = Ok spec -> is_literal p = false ->
  has_close p = true.
Proof.
  intros Hparse Hlit. split_literals Hlit.
  unfold parse_window in Hparse. use_literals p Hparse.
  repeat match type of Hparse with
         | context [match_call ?n ?c p] =>
             let E := fresh "E" in
             destruct (match_call n c p) eqn:E;
             [ exact (match_call_has_close n c p _ E) | ]
         | context [match_since p] =>
             let E := fresh "E" in
             destruct (match_since p) eqn:E;
             [ exact (match_since_has_close p _ E) | ]
         end.
  discriminate Hparse.
Qed.

(** An expression that one of the parameterized patterns accepts is
    accepted with the same window when any text follows it. *)
Lemma parse_window_app (p t : string) (line : Z) (spec : Column) :
  parse_window p line = Ok spec ->
  is_literal p = false ->
  parse_window (p ++ t) line = Ok spec.
Proof.
  intros Hparse Hlit.
  pose proof (parse_window_has_close p line spec Hparse Hlit) as Hclose.
  split_literals Hlit.
  unfold parse_window in *. use_literals p Hparse.
  repeat match goal with
         | |- context [String.eqb (p ++ t) ?lit] =>
             rewrite (eqb_app_literal p t lit Hclose eq_refl)
         end.
  cbv beta iota in Hparse |- *.
  repeat match goal with
         | |- context [match_call ?n ?c (p ++ t)] =>
             let E := fresh "E" in
             destruct (match_call n c p) eqn:E;
             [ rewrite (match_call_app n c p _ t E); exact Hparse
             | rewrite (match_call_none_app n c eq_refl eq_refl p t E Hclose);
               cbv beta iota in Hparse |- * ]
         | |- context [match_since (p ++ t)] =>
             let E := fresh "E" in
             destruct (match_since p) eqn:E;
             [ rewrite (match_since_app p _ t E); exact Hparse
             | rewrite (match_since_none_app p t E Hclose);
               cbv beta iota in Hparse |- * ]
         end.
  discriminate Hparse.
Qed.

(** ** The two [goal(...)] patterns *)

Lemma span_run (cls : ascii -> bool) (s : string) :
  forall c r,
    string_forall cls s = true -> cls c = false ->
    span cls (s ++ String c r) = (s, String c r).
Proof.
  induction s as [|a s IH]; intros c r Hs Hc; simpl in *.
  - rewrite Hc. reflexivity.
  - apply andb_true_iff in Hs. destruct Hs as [Ha Hs].
    rewrite Ha, (IH c r Hs Hc). reflexivity.
Qed.

Lemma match_goal_call (cls : ascii -> bool) (g : string) :
  g <> EmptyString -> string_forall cls g = true -> cls ")"%char = false ->
  match_call "goal" cls ("goal(" ++ g ++ ")") = Some g.
Proof.
  intros Hne Hg Hcls. unfold match_call.
  change (strip_prefix ("goal" ++ "(") ("goal(" ++ g ++ ")"))
    with (Some (g ++ ")")).
  cbv beta iota.
  rewrite (span_run cls g ")"%char EmptyString Hg Hcls).
  destruct g; [contradiction | reflexivity].
Qed.

(** A run of digits that stops inside an identifier stops before a
    character that is not the closing parenthesis. *)
Lemma span_digits_stops_early (k : string) :
  string_forall not_close k = true -> string_forall is_digit k = false ->
  forall g r, span is_digit (k ++ ")") = (g, r) -> starts_with_close r = false.
Proof.
  induction k as [|c k IH]; intros Hk Hd g r H; simpl in *.
  - discriminate Hd.
  - apply andb_true_iff in Hk. destruct Hk as [Hc Hk].
    destruct (is_digit c) eqn:E.
    + simpl in Hd. destruct (span is_digit (k ++ ")")) as [g' r'] eqn:Es.
      injection H as <- <-. exact (IH Hk Hd g' r' eq_refl).
    + injection H as <- <-. simpl. unfold not_close in Hc.
      apply negb_true_iff in Hc. exact Hc.
Qed.

Lemma goal_prefix_parse (body : string) (line : Z) :
  parse_window ("goal(" ++ body) line
  = match match_call "goal" is_digit ("goal(" ++ body) with
    | Some g => Ok (NumberGoal g)
    | None =>
        match match_call "goal" not_close ("goal(" ++ body) with
        | Some g => Ok (FieldGoal g)
        | None =>
            Raise (ConfigError (Fmt "unknown column value '%s'"
                                    (YStr ("goal(" ++ body))) line None)
        end
    end.
Proof. reflexivity. Qed.

(** C4, at the code.  For a token [goal(<digits>)] the integer pattern is
    tried first and wins, but the [NumberGoal] it builds holds the matched
    text itself: its evaluation is that string of digits on every frame
    and anchor, not a number.  A token [goal(<k>)] whose [k] is not all
    digits (and holds no closing parenthesis) yields [FieldGoal k]. *)
Theorem C4_goal_patterns :
  forall (read_sql_query : yaml -> connection -> result frame)
         (read_text : string -> result string)
         g line,
    g <> EmptyString ->
    string_forall not_close g = true ->
    (string_forall is_digit g = true ->
     parse_window ("goal(" ++ g ++ ")") line = Ok (NumberGoal g) /\
     forall fuel df today row,
       eval read_sql_query read_text fuel (NumberGoal g) df today row
       = Ok (PStr g)) /\
    (string_forall is_digit g = false ->
     parse_window ("goal(" ++ g ++ ")") line = Ok (FieldGoal g)).
Proof.
  intros rsq rt g line Hne Hnc. split; intros Hd.
  - split; [|reflexivity].
    rewrite goal_prefix_parse, (match_goal_call is_digit g Hne Hd eq_refl).
    reflexivity.
  - rewrite goal_prefix_parse.
    assert (Hnum : match_call "goal" is_digit ("goal(" ++ g ++ ")") = None).
    { unfold match_call.
      change (strip_prefix ("goal" ++ "(") ("goal(" ++ g ++ ")"))
        with (Some (g ++ ")")).
      cbv beta iota.
      destruct (span is_digit (g ++ ")")) as [g' r'] eqn:Es.
      rewrite (span_digits_stops_early g Hnc Hd g' r' Es).
      destruct g'; reflexivity. }
    rewrite Hnum, (match_goal_call not_close g Hne Hnc eq_refl).
    reflexivity.
Qed.

(** ** Expressions followed by further text *)

Lemma strip_prefix_self (p r : string) : strip_prefix p (p ++ r) = Some r.
Proof.
  induction p as [|a p IH]; simpl; [reflexivity|].
  rewrite Ascii.eqb_refl. exact IH.
Qed.

Lemma string_app_assoc (a b c : string) : (a ++ b) ++ c = a ++ b ++ c.
Proof. induction a as [|x a IH]; simpl; [reflexivity|]. rewrite IH. reflexivity. Qed.

Lemma match_call_exact (name : string) (cls : ascii -> bool) (g : string) :
  g <> EmptyString -> string_forall cls g = true -> cls ")"%char = false ->
  match_call name cls (name ++ "(" ++ g ++ ")") = Some g.
Proof.
  intros Hne Hg Hcls. unfold match_call.
  rewrite <- string_app_assoc, strip_prefix_self.
  rewrite (span_run cls g ")"%char EmptyString Hg Hcls).
  destruct g; [contradiction | reflexivity].
Qed.

Lemma int_within_limit (s : string) :
  Z.of_nat (String.length s) <= int_max_str_digits -> int s = Ok (decimal s).
Proof.
  intros H. unfold int.
  destruct (Z.ltb_spec int_max_str_digits (Z.of_nat (String.length s)))
    as [Hlt | Hge]; [lia | reflexivity].
Qed.

Lemma int_beyond_limit (s : string) :
  int_max_str_digits < Z.of_nat (String.length s) -> int s = Raise ValueError.
Proof.
  intros H. unfold int.
  destruct (Z.ltb_spec int_max_str_digits (Z.of_nat (String.length s)))
    as [Hlt | Hge]; [reflexivity | lia].
Qed.

Lemma int_ok (s : string) (n : Z) :
  int s = Ok n ->
  n = decimal s /\ Z.of_nat (String.length s) <= int_max_str_digits.
Proof.
  unfold int.
  destruct (Z.ltb_spec int_max_str_digits (Z.of_nat (String.length s)))
    as [Hlt | Hge]; [discriminate|].
  intros H. injection H as <-. split; [reflexivity | exact Hge].
Qed.

(** An expression of one of the eight integer patterns is taken by its
    own pattern: no earlier literal or pattern matches it. *)
Lemma int_pattern_exact (name : string) (ctor : Z -> Column) (ds : string)
      (line : Z) :
  In (name, ctor) int_patterns ->
  ds <> EmptyString -> string_forall is_digit ds = true ->
  parse_window (name ++ "(" ++ ds ++ ")") line = (n <- int ds ;; Ok (ctor n)).
Proof.
  intros Hin Hne Hd.
  pose proof (fun n => match_call_exact n is_digit ds Hne Hd eq_refl) as Hm.
  unfold int_patterns in Hin. cbn [In] in Hin.
  repeat (destruct Hin as [Hin | Hin];
          [injection Hin as <- <-;
           unfold parse_window; rewrite Hm; reflexivity|]).
  contradiction.
Qed.

Lemma has_close_not_literal (p : string) :
  has_close p = true -> is_literal p = false.
Proof.
  intros Hp. unfold is_literal, literals. cbn [existsb].
  repeat match goal with
         | |- context [String.eqb p ?lit] =>
             rewrite (eqb_literal_no_close p lit Hp eq_refl)
         end.
  reflexivity.
Qed.

Lemma call_has_close (name g : string) :
  has_close (name ++ "(" ++ g ++ ")") = true.
Proof.
  rewrite !has_close_app. cbn [has_close]. rewrite Ascii.eqb_refl.
  rewrite !orb_true_r. reflexivity.
Qed.

Lemma call_app (name g t : string) :
  name ++ "(" ++ g ++ ")" ++ t = (name ++ "(" ++ g ++ ")") ++ t.
Proof. rewrite !string_app_assoc. reflexivity. Qed.

(** A text of the shape dddd-dd-dd is what the [since] pattern captures. *)
Lemma match_since_exact (g : string) :
  match_shape date_shape g = Some (g, EmptyString) ->
  match_since ("since(" ++ g ++ ")") = Some g.
Proof.
  intros Hg. unfold match_since.
  rewrite strip_prefix_self, (match_shape_app _ _ _ _ ")" Hg). reflexivity.
Qed.

Lemma since_exact (g : string) (line : Z) :
  match_shape date_shape g = Some (g, EmptyString) ->
  parse_window ("since(" ++ g ++ ")") line
  = (since <- strptime_date g ;; Ok (SinceDate since)).
Proof.
  intros Hg. unfold parse_window. rewrite (match_since_exact g Hg). reflexivity.
Qed.

(** C10.  The parameterized patterns are matched at the start of the
    token only.  Whatever text [t] follows it, an expression
    [name(<digits>)] of an integer pattern parses to the window of [name]
    with the decimal value of the digits, [since(<date>)] to [SinceDate]
    of that date, [goal(<digits>)] to [NumberGoal] and [goal(<key>)] to
    [FieldGoal] of the key; and in general a token made of an expression
    that a pattern accepts, followed by any further characters, parses to
    the window of that expression instead of raising [ConfigError]. *)
Theorem C10_trailing_text_ignored :
  forall t line,
    (forall name ctor ds,
        In (name, ctor) int_patterns ->
        ds <> EmptyString -> string_forall is_digit ds = true ->
        Z.of_nat (String.length ds) <= int_max_str_digits ->
        parse_window (name ++ "(" ++ ds ++ ")" ++ t) line
        = Ok (ctor (decimal ds))) /\
    (forall g d,
        match_shape date_shape g = Some (g, EmptyString) ->
        strptime_date g = Ok d ->
        parse_window ("since(" ++ g ++ ")" ++ t) line = Ok (SinceDate d)) /\
    (forall g,
        g <> EmptyString -> string_forall is_digit g = true ->
        parse_window ("goal(" ++ g ++ ")" ++ t) line = Ok (NumberGoal g)) /\
    (forall k,
        k <> EmptyString -> string_forall not_close k = true ->
        string_forall is_digit k = false ->
        parse_window ("goal(" ++ k ++ ")" ++ t) line = Ok (FieldGoal k)) /\
    (forall p spec,
        parse_window p line = Ok spec -> is_literal p = false ->
        parse_window (p ++ t) line = Ok spec).
Proof.
  intros t line.
  assert (Happ : forall name g spec,
             parse_window (name ++ "(" ++ g ++ ")") line = Ok spec ->
             parse_window (name ++ "(" ++ g ++ ")" ++ t) line = Ok spec).
  { intros name g spec H. rewrite call_app.
    apply parse_window_app; [exact H|].
    apply has_close_not_literal. apply call_has_close. }
  split; [|split; [|split; [|split]]].
  - intros name ctor ds Hin Hne Hd Hlen. apply Happ.
    rewrite (int_pattern_exact name ctor ds line Hin Hne Hd).
    rewrite (int_within_limit ds Hlen). reflexivity.
  - intros g d Hg Hd. apply (Happ "since" g).
    change ("since" ++ "(" ++ g ++ ")") with ("since(" ++ g ++ ")").
    rewrite (since_exact g line Hg), Hd. reflexivity.
  - intros g Hne Hd. apply (Happ "goal" g).
    change ("goal" ++ "(" ++ g ++ ")") with ("goal(" ++ g ++ ")").
    rewrite goal_prefix_parse, (match_goal_call is_digit g Hne Hd eq_refl).
    reflexivity.
  - intros k Hne Hnc Hd. apply (Happ "goal" k).
    change ("goal" ++ "(" ++ k ++ ")") with ("goal(" ++ k ++ ")").
    rewrite goal_prefix_parse.
    assert (Hnum : match_call "goal" is_digit ("goal(" ++ k ++ ")") = None).
    { unfold match_call.
      change (strip_prefix ("goal" ++ "(") ("goal(" ++ k ++ ")"))
        with (Some (k ++ ")")).
      cbv beta iota.
      destruct (span is_digit (k ++ ")")) as [g' r'] eqn:Es.
      rewrite (span_digits_stops_early k Hnc Hd g' r' Es).
      destruct g'; reflexivity. }
    rewrite Hnum, (match_goal_call not_close k Hne Hnc eq_refl).
    reflexivity.
  - intros p spec Hparse Hlit. apply parse_window_app; assumption.
Qed.

(** ** Validation *)

Lemma mapM_app_raise (A B : Type) (f : A -> result B) (before : list A) :
  forall parsed c after e,
    mapM f before = Ok parsed -> f c = Raise e ->
    mapM f (before ++ c :: after) = Raise e.
Proof.
  induction before as [|a before IH]; intros parsed c after e Hb Hc; simpl in *.
  - rewrite Hc. reflexivity.
  - destruct (f a) as [b| |]; simpl in *; try discriminate Hb.
    destruct (mapM f before) as [bs| |] eqn:E; simpl in *; try discriminate Hb.
    rewrite (IH bs c after e eq_refl Hc). reflexivity.
Qed.

Lemma dict_in_get (m : mapping) (k : string) :
  dict_in k m = false -> dict_get m k = None.
Proof.
  unfold dict_in. destruct (dict_get m k); [discriminate | reflexivity].
Qed.

Lemma dict_get_in (m : mapping) (k : string) (v : yaml) :
  dict_get m k = Some v -> dict_in k m = true.
Proof.
  unfold dict_in. intros ->. reflexivity.
Qed.

(** Validation up to the columns, for a document with a [name] and a
    list under [columns]. *)
Lemma validate_columns_raise (config : mapping) (columns : list yaml) (e : exn) :
  dict_in "name" config = true ->
  dict_get config "columns" = Some (YList columns) ->
  read_column_config columns = Raise e ->
  validate config = Raise e.
Proof.
  intros Hname Hcols Hraise. unfold validate, dict_item.
  rewrite Hname, (dict_get_in _ _ _ Hcols), Hcols. simpl.
  rewrite Hraise. reflexivity.
Qed.

(** C3, at the code.  With a [name], a valid list of columns and no
    [rows] key, validation does not succeed with an empty row list: the
    guard on [rows] is skipped and the unguarded [config["rows"]] that
    follows raises [KeyError].  With [rows] present and not a list it
    raises [ConfigError] "rows must be a list" at line 1. *)
Theorem C3_rows_key :
  forall config filename columns parsed,
    dict_in "name" config = true ->
    dict_get config "columns" = Some (YList columns) ->
    read_column_config columns = Ok parsed ->
    (dict_in "rows" config = false ->
     read_config_from_string config filename = Raise (KeyError "rows")) /\
    (forall v, dict_get config "rows" = Some v ->
               (forall rows, v <> YList rows) ->
               read_config_from_string config filename
               = Raise (ConfigError (Text "rows must be a list") 1
                                    (Some filename))).
Proof.
  intros config filename columns parsed Hname Hcols Hparsed.
  unfold read_config_from_string, validate, dict_item.
  rewrite Hname, (dict_get_in _ _ _ Hcols), Hcols. simpl.
  rewrite Hparsed. simpl. split.
  - intros Hrows. rewrite Hrows, (dict_in_get _ _ Hrows). reflexivity.
  - intros v Hrows Hnotlist. rewrite (dict_get_in _ _ _ Hrows), Hrows.
    destruct v; try reflexivity. exfalso. exact (Hnotlist items eq_refl).
Qed.

(** C8.  Validation stops at the first violation.  For a document with
    a [name]: without [columns] it raises [ConfigError] "missing toplevel
    columns attribute" at line 1; when the first column that fails is a
    mapping without [type], it raises "missing type attribute for column"
    at that mapping's own line; and in general the exception of the first
    failing column is the outcome, whatever follows it in the document. *)
Theorem C8_first_violation :
  forall config filename,
    dict_in "name" config = true ->
    (dict_in "columns" config = false ->
     read_config_from_string config filename
     = Raise (ConfigError (Text "missing toplevel columns attribute") 1
                          (Some filename))) /\
    (forall before line entries after parsed,
        dict_get config "columns"
        = Some (YList (before ++ YMap line entries :: after)) ->
        read_column_config before = Ok parsed ->
        dict_in "type" (mkmap line entries) = false ->
        read_config_from_string config filename
        = Raise (ConfigError (Text "missing type attribute for column") line
                             (Some filename))) /\
    (forall before column after parsed e,
        dict_get config "columns" = Some (YList (before ++ column :: after)) ->
        read_column_config before = Ok parsed ->
        read_one_column column = Raise e ->
        read_config_from_string config filename
        = with_filename filename (Raise e)).
Proof.
  intros config filename Hname. split; [|split].
  - intros Hcols. unfold read_config_from_string, validate.
    rewrite Hname, Hcols. reflexivity.
  - intros before line entries after parsed Hcols Hbefore Htype.
    unfold read_config_from_string.
    rewrite (validate_columns_raise config _
               (ConfigError (Text "missing type attribute for column") line None)
               Hname Hcols); [reflexivity|].
    apply (mapM_app_raise _ _ read_one_column before parsed); [exact Hbefore|].
    unfold read_one_column. rewrite Htype. reflexivity.
  - intros before column after parsed e Hcols Hbefore Hcol.
    unfold read_config_from_string.
    rewrite (validate_columns_raise config _ e Hname Hcols); [reflexivity|].
    apply (mapM_app_raise _ _ read_one_column before parsed); assumption.
Qed.

(** ** What evaluation writes *)

Lemma assoc_dict_set (A : Type) (k k' : string) (v : A) (l : list (string * A)) :
  assoc k (dict_set k' v l) = if String.eqb k k' then Some v else assoc k l.
Proof.
  induction l as [|[k1 v1] l IH]; simpl.
  - reflexivity.
  - destruct (String.eqb_spec k' k1) as [-> | Hne]; simpl.
    + destruct (String.eqb k k1); reflexivity.
    + rewrite IH. destruct (String.eqb_spec k k1) as [-> | Hne'].
      * destruct (String.eqb_spec k1 k') as [-> | _];
          [contradiction | reflexivity].
      * reflexivity.
Qed.

Lemma mapM_Forall2 (A B : Type) (f : A -> result B) (P : A -> B -> Prop) :
  (forall a b, f a = Ok b -> P a b) ->
  forall l l', mapM f l = Ok l' -> Forall2 P l l'.
Proof.
  intros Hf. induction l as [|a l IH]; intros l' H; simpl in H.
  - injection H as <-. constructor.
  - destruct (f a) as [b| |] eqn:Ea; simpl in H; try discriminate H.
    destruct (mapM f l) as [bs| |] eqn:El; simpl in H; try discriminate H.
    injection H as <-. constructor; [apply Hf; exact Ea | apply IH; reflexivity].
Qed.

Section Driver.

Variable read_sql_query : yaml -> connection -> result frame.
Variable read_text : string -> result string.
Variable sparkline : yaml -> frame -> date -> result string.
Variable format : string -> date -> result string.

Lemma format_entries_keep (yd : date) (l : list (string * cfgval)) :
  forall l' k,
    mapM (format_entry format yd) l = Ok l' ->
    k = "columns" \/ k = "rows" ->
    assoc k l' = assoc k l.
Proof.
  induction l as [|[k1 v1] l IH]; intros l' k H Hk; cbn [mapM] in H.
  - injection H as <-. reflexivity.
  - destruct (format_entry format yd (k1, v1)) as [[k2 v2]| |] eqn:E1;
      simpl in H; try discriminate H.
    destruct (mapM (format_entry format yd) l) as [l2| |] eqn:E2;
      simpl in H; try discriminate H.
    injection H as <-. simpl. rewrite (IH l2 k eq_refl Hk).
    unfold format_entry in E1.
    destruct (String.eqb k1 "columns" || String.eqb k1 "rows") eqn:Ek.
    + injection E1 as <- <-. reflexivity.
    + apply orb_false_iff in Ek. destruct Ek as [Ec Er].
      assert (Hkk : String.eqb k k1 = false).
      { destruct Hk as [-> | ->]; rewrite String.eqb_sym; assumption. }
      destruct v1 as [[| |s| |]| | |]; try discriminate E1.
      destruct (format s yd) as [s'| |]; simpl in E1; try discriminate E1.
      injection E1 as <- <-. rewrite Hkk. reflexivity.
Qed.

Lemma evaluate_row_updates (fuel : nat) (yesterday : date) (row row' : Row)
      (config : Config) (conn : connection) :
  evaluate_row read_sql_query read_text sparkline fuel yesterday row config conn
  = Ok row' ->
  exists columns,
    cfg_columns config = Ok columns /\ row_updated conn columns row row'.
Proof.
  unfold evaluate_row. intros H.
  destruct (read_sql_query _ conn) as [df| |]; simpl in H; try discriminate H.
  destruct (cfg_columns config) as [columns| |]; simpl in H; try discriminate H.
  match type of H with
  | bind ?m _ = _ => destruct m as [results| |] eqn:E; simpl in H;
                     try discriminate H
  end.
  injection H as <-. exists columns. split; [reflexivity|].
  unfold row_updated. simpl. repeat split; try reflexivity.
  revert E. apply mapM_Forall2. intros column value Hvalue.
  match type of Hvalue with
  | bind ?m _ = _ => destruct m; simpl in Hvalue; try discriminate Hvalue
  end.
  injection Hvalue as <-. simpl. repeat split; reflexivity.
Qed.

(** C9 (as amended).  [build_message] leaves the parsed column
    definitions unchanged and, in every row, the name, the query, the
    display type, the style, the fields and the origin directory; but it
    does write to the parsed structures: each row object gets the
    connection and has its [columns] replaced by the new [ColumnValue]
    list (one per column, in order), and the dictionary has the rows also
    listed under [table]. *)
Theorem C9_build_message_writes :
  forall fuel yesterday_date config conn config',
    build_message read_sql_query read_text sparkline format
                  fuel yesterday_date config conn = Ok config' ->
    exists rows rows',
      cfg_columns config' = cfg_columns config /\
      cfg_rows config = Ok rows /\
      cfg_rows config' = Ok rows' /\
      cfg_get config' "table" = Ok (CRows rows') /\
      Forall2 (fun row row' =>
                 exists columns,
                   cfg_columns config = Ok columns /\
                   row_updated conn columns row row')
              rows rows'.
Proof.
  intros fuel yd config conn config' H. unfold build_message in H.
  destruct (mapM (format_entry format yd) (cfg_entries config))
    as [entries| |] eqn:Ef; simpl in H; try discriminate H.
  pose proof (format_entries_keep yd _ entries "columns" Ef (or_introl eq_refl))
    as Hcols.
  pose proof (format_entries_keep yd _ entries "rows" Ef (or_intror eq_refl))
    as Hrows.
  set (formatted := mkconfig (cfg_line config) entries) in *.
  assert (Hc : cfg_columns formatted = cfg_columns config)
    by (unfold cfg_columns, cfg_get; simpl; rewrite Hcols; reflexivity).
  assert (Hr : cfg_rows formatted = cfg_rows config)
    by (unfold cfg_rows, cfg_get; simpl; rewrite Hrows; reflexivity).
  destruct (cfg_rows formatted) as [rows| |] eqn:Er; simpl in H;
    try discriminate H.
  match type of H with
  | bind ?m _ = _ => destruct m as [results| |] eqn:Em; simpl in H;
                     try discriminate H
  end.
  injection H as <-.
  assert (Hset : forall k,
             assoc k (cfg_entries
                        (cfg_set "yesterday_date" (CDate yd)
                           (cfg_set "table" (CRows results)
                              (cfg_set "rows" (CRows results) formatted))))
             = if String.eqb k "yesterday_date" then Some (CDate yd)
               else if String.eqb k "table" then Some (CRows results)
               else if String.eqb k "rows" then Some (CRows results)
               else assoc k entries).
  { intros k. unfold cfg_set. simpl. rewrite !assoc_dict_set. reflexivity. }
  exists rows, results. repeat split.
  - unfold cfg_columns, cfg_get. rewrite Hset. simpl. rewrite Hcols.
    reflexivity.
  - symmetry. exact Hr.
  - unfold cfg_rows, cfg_get. rewrite Hset. reflexivity.
  - unfold cfg_get. rewrite Hset. reflexivity.
  - revert Em. apply mapM_Forall2. intros row row' Hrow.
    destruct (evaluate_row_updates _ _ _ _ _ _ Hrow) as [columns [Hc' Hu]].
    exists columns. rewrite <- Hc. split; assumption.
Qed.

End Driver.

(** ** Concrete runs *)

(** C1, counterexample.  Anchor Tuesday 2024-01-02, window [week(0)]: the
    week is 2024-01-01 .. 2024-01-07 and both observations are matched,
    the first with [over] = 0.  Per-date ratios would make the sum
    undefined; the code returns (1 + 1) / (0 + 1) = 2. *)
Lemma C1_counterexample :
  has_over week_frame = true /\
  sum_of_ratios (observations week_frame) = PNone /\
  eval no_sql no_text 0 (WeeksAgo 0) week_frame (mkdate 2024 1 2) None
  = Ok (PNum (Fin 2)) /\
  eval no_sql no_text 0 (WeeksAgo 0) week_frame (mkdate 2024 1 2) None
  <> Ok (sum_of_ratios (observations week_frame)).
Proof.
  split; [reflexivity|]. split; [vm_compute; reflexivity|].
  split; [vm_compute; reflexivity|].
  intros H. vm_compute in H. discriminate H.
Qed.

Lemma C1_witness :
  exists mask,
    (forall df',
        eval no_sql no_text 0 (WeeksAgo 0) df' (mkdate 2024 1 2) None
        = Ok (calculate_total_over (df_sum (df_where mask df')))) /\
    PNum (Fin 2) = ratio_of_sums (observations (df_where mask week_frame)).
Proof.
  exact (C1_ratio_of_sums no_sql no_text 0%nat (WeeksAgo 0) week_frame
           (mkdate 2024 1 2) None (PNum (Fin 2)) eq_refl eq_refl eq_refl).
Defined.

(** C2, counterexample.  The frame has no [over] column and no
    observation on 2024-01-12; [yesterday] with that anchor evaluates to
    the number 0, not to [None]. *)
Lemma C2_counterexample :
  (forall o, In o (observations two_day_frame) ->
             date_eqb (obs_date o) (mkdate 2024 1 12) = false) /\
  eval no_sql no_text 0 (DaysAgo 0) two_day_frame (mkdate 2024 1 12) None
  = Ok (PNum (Fin 0)) /\
  eval no_sql no_text 0 (DaysAgo 0) two_day_frame (mkdate 2024 1 12) None
  <> Ok PNone.
Proof.
  split; [|split].
  - intros o [<- | [<- | []]]; reflexivity.
  - vm_compute. reflexivity.
  - intros H. vm_compute in H. discriminate H.
Qed.

Lemma C2_witness :
  eval no_sql no_text 4 (DaysAgo 31) two_day_frame (mkdate 2024 2 12) None
  = Ok (PNum (Fin 0)) /\
  eval no_sql no_text 4 (MonthAgo 1) two_day_frame (mkdate 2024 2 12) None
  = Ok (PNum (Fin 0)).
Proof.
  assert (Habsent : forall o, In o (observations two_day_frame) ->
                              date_eqb (obs_date o) (mkdate 2024 1 12) = false).
  { intros o [<- | [<- | []]]; reflexivity. }
  destruct (C2_single_date_absent no_sql no_text 4%nat two_day_frame
              (mkdate 2024 2 12) None (mkdate 2024 1 12) Habsent) as [Hd Hm].
  split; [exact (Hd 31 eq_refl) | exact (Hm 1 eq_refl)].
Defined.

Lemma C3_witness :
  read_config_from_string doc_without_rows "STREAM" = Raise (KeyError "rows").
Proof.
  exact (proj1 (C3_rows_key doc_without_rows "STREAM" _
                  [NumberColumn (YStr "yesterday") (DaysAgo 0)]
                  eq_refl eq_refl eq_refl)
               eq_refl).
Defined.

(** [test_rows_not_a_list] *)
Example rows_not_a_list :
  read_config_from_string
    (mkmap 1 [("name", YStr "thealth");
              ("columns",
               YList [YMap 3 [("name", YStr "yesterday");
                              ("type", YStr "number");
                              ("value", YStr "yesterday")]]);
              ("rows", YStr "this won't work")])
    "STREAM"
  = Raise (ConfigError (Text "rows must be a list") 1 (Some "STREAM")).
Proof. reflexivity. Qed.

Lemma C4_witness :
  (string_forall is_digit "42" = true ->
   parse_window "goal(42)" 7 = Ok (NumberGoal "42") /\
   forall fuel df today row,
     eval no_sql no_text fuel (NumberGoal "42") df today row = Ok (PStr "42")) /\
  (string_forall is_digit "42" = false ->
   parse_window "goal(42)" 7 = Ok (FieldGoal "42")).
Proof.
  refine (C4_goal_patterns no_sql no_text "42" 7 _ eq_refl).
  discriminate.
Defined.

(** The string that [goal(42)] evaluates to breaks a percent change. *)
Example goal_number_in_pct_change :
  column_eval no_sql no_text no_sparkline 0
              (PctChangeColumn (YStr "vs goal") (DaysAgo 0) (NumberGoal "42"))
              two_day_frame (mkdate 2024 1 10) None
  = Raise TypeError.
Proof. vm_compute. reflexivity. Qed.

Example goal_field : parse_window "goal(target_q1)" 7 = Ok (FieldGoal "target_q1").
Proof. reflexivity. Qed.

(** C5, at the code.  Anchor Saturday 2024-01-06 and n = 0: the window
    is 2024-01-05 .. 2024-01-06, so the result is 1 + 2 = 3; the Sunday of
    that weekend, present in the frame with total 4, is not selected. *)
Theorem C5_saturday_window :
  weekday (mkdate 2024 1 6) = 5 /\
  eval no_sql no_text 0 (WeekdayWeekend 0) weekend_frame (mkdate 2024 1 6) None
  = Ok (PNum (Fin 3)) /\
  (forall df,
      eval no_sql no_text 0 (WeekdayWeekend 0) df (mkdate 2024 1 6) None
      = Ok (calculate_total_over
              (df_sum (df_where
                         (fun d => date_leb (mkdate 2024 1 5) d
                                   && date_leb d (mkdate 2024 1 6))
                         df)))).
Proof.
  split; [reflexivity|]. split; [vm_compute; reflexivity|].
  intros df. reflexivity.
Qed.

Example weekdayweekend_sunday :
  eval no_sql no_text 0 (WeekdayWeekend 0) weekend_frame (mkdate 2024 1 7) None
  = Ok (PNum (Fin 7)).
Proof. vm_compute. reflexivity. Qed.

Example weekdayweekend_friday :
  eval no_sql no_text 0 (WeekdayWeekend 0) weekend_frame (mkdate 2024 1 5) None
  = Ok (PNum (Fin 1)).
Proof. vm_compute. reflexivity. Qed.

(** value = 10, base = 5: 100 * 10 / 5 - 100 = 100. *)
Lemma C6_witness :
  column_eval no_sql no_text no_sparkline 0
              (PctChangeColumn (YStr "day over day") (DaysAgo 0) (DaysAgo 1))
              two_day_frame (mkdate 2024 1 10) None
  = Ok (PNum (Fin 100)).
Proof.
  refine (proj2 (proj2 (proj2
            (C6_pct_change_cases no_sql no_text no_sparkline 0%nat
               (YStr "day over day") (DaysAgo 0) (DaysAgo 1) two_day_frame
               (mkdate 2024 1 10) None (PNum (Fin 10)) (PNum (Fin 5))
               eq_refl eq_refl)))
            10%Q 5%Q eq_refl eq_refl _).
  discriminate.
Defined.

Example pct_change_both_zero :
  pct_change (PNum (Fin 0)) (PNum (Fin 0)) = Ok (PNum (Fin 0)).
Proof. reflexivity. Qed.

Example pct_change_base_zero : pct_change (PNum (Fin 5)) (PNum (Fin 0)) = Ok PNone.
Proof. reflexivity. Qed.

(** C7, counterexample.  Anchor 2024-03-31 and n = 30000: the month loop
    ends with month 3 of year -476, no [replace] in that year returns a
    date, and the clamping loop has no exit with one: no number of
    iterations yields a date. *)
Lemma C7_counterexample :
  ~ exists fuel target, month_target fuel (mkdate 2024 3 31) 30000 = Ok target.
Proof.
  intros [fuel [target H]]. unfold month_target in H.
  assert (Hshift : shift_month (mkdate 2024 3 31) 30000 = (3, -476))
    by (vm_compute; reflexivity).
  rewrite Hshift in H.
  revert H. apply clamp_day_year_out_of_range. lia.
Qed.

Lemma C7_witness :
  exists ny nm,
    1 <= nm <= 12 /\
    12 * ny + nm = 12 * 2024 + 3 - 1 /\
    let target := mkdate ny nm (Z.min 31 (days_in_month ny nm)) in
    valid_date target /\
    month_target 4 (mkdate 2024 3 31) 1 = Ok target /\
    eval no_sql no_text 4 (MonthAgo 1) two_day_frame (mkdate 2024 3 31) None
    = Ok (calculate_total_over
            (df_sum (df_where (fun d => date_eqb d target) two_day_frame))).
Proof.
  refine (C7_month_ago_target no_sql no_text 4%nat two_day_frame
            (mkdate 2024 3 31) None 1 eq_refl _ _ _); simpl; lia.
Defined.

Example month_ago_leap :
  month_target 4 (mkdate 2024 3 31) 1 = Ok (mkdate 2024 2 29).
Proof. reflexivity. Qed.

Example month_ago_common :
  month_target 4 (mkdate 2023 3 31) 1 = Ok (mkdate 2023 2 28).
Proof. reflexivity. Qed.

Example month_ago_across_year :
  month_target 4 (mkdate 2024 1 31) 2 = Ok (mkdate 2023 11 30).
Proof. reflexivity. Qed.

Lemma C8_witness :
  read_config_from_string doc_column_without_type "STREAM"
  = Raise (ConfigError (Text "missing type attribute for column") 6
                       (Some "STREAM")).
Proof.
  exact (proj1 (proj2 (C8_first_violation doc_column_without_type "STREAM"
                         eq_refl))
               [YMap 3 [("name", YStr "yesterday"); ("type", YStr "number");
                        ("value", YStr "yesterday")]]
               6 [("name", YStr "last week"); ("value", YStr "lastweek")] []
               [NumberColumn (YStr "yesterday") (DaysAgo 0)]
               eq_refl eq_refl eq_refl).
Defined.

(** The documents of [test_config.py]. *)

Example test_missing_name :
  read_config_from_string
    (mkmap 1 [("columns",
               YList [column 2 [("name", YStr "overall"); ("type", YStr "number");
                                ("value", YStr "since(2000-01-01)")];
                      column 5 [("name", YStr "last week"); ("type", YStr "number");
                                ("value", YStr "lastweek")]])])
    "STREAM"
  = Raise (ConfigError (Text "missing toplevel name attribute") 1 (Some "STREAM")).
Proof. reflexivity. Qed.

Example test_missing_columns :
  read_config_from_string
    (mkmap 1 [("name", YStr "thealth");
              ("rows",
               YList [YMap 3 [("name", YStr "Email sends");
                              ("query", YStr "sql/thealth/email_sends.sql");
                              ("type", YStr "number")]])])
    "STREAM"
  = Raise (ConfigError (Text "missing toplevel columns attribute") 1
                       (Some "STREAM")).
Proof. reflexivity. Qed.

Example test_columns_not_a_list :
  read_config_from_string
    (mkmap 1 [("name", YStr "thealth"); ("columns", YStr "this won't work")])
    "STREAM"
  = Raise (ConfigError (Text "columns must be a list") 1 (Some "STREAM")).
Proof. reflexivity. Qed.

Example test_missing_column_name :
  read_config_from_string
    (mkmap 1 [("name", YStr "thealth");
              ("columns",
               YList [column 3 [("type", YStr "number");
                                ("value", YStr "since(2000-01-01)")];
                      column 5 [("name", YStr "last week"); ("type", YStr "number");
                                ("value", YStr "lastweek")]])])
    "STREAM"
  = Raise (ConfigError (Text "missing name attribute for column") 3
                       (Some "STREAM")).
Proof. reflexivity. Qed.

Example test_missing_column_value :
  read_config_from_string
    (mkmap 1 [("name", YStr "thealth");
              ("columns",
               YList [column 3 [("name", YStr "number"); ("type", YStr "number");
                                ("value", YStr "since(2000-01-01)")];
                      column 6 [("name", YStr "last week");
                                ("type", YStr "number")]])])
    "STREAM"
  = Raise (ConfigError (Text "missing value attribute for column") 6
                       (Some "STREAM")).
Proof. reflexivity. Qed.

Example test_missing_column_type :
  read_config_from_string
    (mkmap 1 [("name", YStr "thealth");
              ("columns",
               YList [column 3 [("name", YStr "number");
                                ("value", YStr "since(2000-01-01)")];
                      column 5 [("name", YStr "last week"); ("type", YStr "number");
                                ("value", YStr "lastweek")]])])
    "STREAM"
  = Raise (ConfigError (Text "missing type attribute for column") 3
                       (Some "STREAM")).
Proof. reflexivity. Qed.

Example test_unknown_column_type :
  read_config_from_string
    (mkmap 1 [("name", YStr "thealth");
              ("columns",
               YList [column 4 [("name", YStr "overall"); ("type", YStr "number");
                                ("value", YStr "since(2000-01-01)")];
                      column 7 [("name", YStr "last week"); ("type", YStr "number");
                                ("value", YStr "lastweek")];
                      column 10 [("name", YStr "week over week");
                                 ("type", YStr "unknown");
                                 ("value", YStr "lastweek");
                                 ("base", YStr "week(2)")]])])
    "STREAM"
  = Raise (ConfigError (Fmt "unknown column type '%s'" (YStr "unknown")) 10
                       (Some "STREAM")).
Proof. reflexivity. Qed.

Example test_unknown_column_value :
  read_config_from_string
    (mkmap 1 [("name", YStr "thealth");
              ("columns",
               YList [column 4 [("name", YStr "overall"); ("type", YStr "number");
                                ("value", YStr "after(2000-01-01)")];
                      column 7 [("name", YStr "last week"); ("type", YStr "number");
                                ("value", YStr "lastweek")]])])
    "STREAM"
  = Raise (ConfigError (Fmt "unknown column value '%s'"
                            (YStr "after(2000-01-01)")) 4 (Some "STREAM")).
Proof. reflexivity. Qed.

Example test_unknown_row_type :
  read_config_from_string
    (mkmap 1 [("name", YStr "thealth");
              ("columns",
               YList [column 3 [("name", YStr "yesterday"); ("type", YStr "number");
                                ("value", YStr "yesterday")]]);
              ("rows",
               YList [YMap 7 [("name", YStr "Email sends");
                              ("query", YStr "sql/thealth/email_sends.sql");
                              ("type", YStr "unknown")]])])
    "STREAM"
  = Raise (ConfigError (Fmt "unknown row type '%s'" (YStr "unknown")) 7
                       (Some "STREAM")).
Proof. reflexivity. Qed.

Lemma C10_witness :
  parse_window "daysago(3)garbage" 4 = Ok (DaysAgo 3).
Proof.
  refine (proj1 (C10_trailing_text_ignored "garbage" 4)
                "daysago" DaysAgo "3" _ _ eq_refl _).
  - left. reflexivity.
  - discriminate.
  - vm_compute. discriminate.
Defined.

Example trailing_text_after_goal :
  parse_window "goal(revenue) and more)" 4 = Ok (FieldGoal "revenue").
Proof. reflexivity. Qed.

Example literal_is_exact :
  parse_window "yesterdayfoo" 4
  = Raise (ConfigError (Fmt "unknown column value '%s'" (YStr "yesterdayfoo"))
                       4 None).
Proof. reflexivity. Qed.

(** C9, counterexample.  After validation the row has no column values
    and no connection; after [build_message] the same row object, still
    listed under [rows], holds the connection and the evaluated values,
    and the dictionary has two more keys. *)
Lemma C9_counterexample :
  read_config_from_string doc_one_row "STREAM" = Ok config_parsed /\
  build_message sql_two_days no_text no_sparkline format_id
                0 (mkdate 2024 1 10) config_parsed (Connection 1)
  = Ok config_evaluated /\
  cfg_rows config_parsed = Ok [row_parsed] /\
  cfg_rows config_evaluated = Ok [row_evaluated] /\
  row_columns row_parsed <> row_columns row_evaluated /\
  row_connection row_parsed <> row_connection row_evaluated /\
  config_parsed <> config_evaluated.
Proof.
  repeat (split; [vm_compute; reflexivity|]).
  repeat split; discriminate.
Qed.

Lemma C9_witness :
  exists rows rows',
    cfg_columns config_evaluated = cfg_columns config_parsed /\
    cfg_rows config_parsed = Ok rows /\
    cfg_rows config_evaluated = Ok rows' /\
    cfg_get config_evaluated "table" = Ok (CRows rows') /\
    Forall2 (fun row row' =>
               exists columns,
                 cfg_columns config_parsed = Ok columns /\
                 row_updated (Connection 1) columns row row')
            rows rows'.
Proof.
  exact (C9_build_message_writes sql_two_days no_text no_sparkline format_id
           0%nat (mkdate 2024 1 10) config_parsed (Connection 1)
           config_evaluated eq_refl).
Defined.

(** * Further properties of the code *)

(** ** Day numbers *)

Ltac dlia := Z.div_mod_to_equations; lia.

Lemma month_day_checked (leapyear : bool) (n : Z) :
  0 <= n < 365 -> month_day_ok leapyear n = true.
Proof.
  intros Hn.
  assert (Hall : forallb (fun k => month_day_ok leapyear (Z.of_nat k))
                         (seq 0 365) = true)
    by (destruct leapyear; vm_compute; reflexivity).
  rewrite forallb_forall in Hall.
  rewrite <- (Z2Nat.id n) by lia. apply Hall.
  apply in_seq. lia.
Qed.

Lemma days_before_year_decomp (a b c e : Z) :
  0 <= b <= 3 -> 0 <= c <= 24 -> 0 <= e <= 3 ->
  days_before_year (400 * a + 100 * b + 4 * c + e + 1)
  = 146097 * a + 36524 * b + 1461 * c + 365 * e.
Proof. intros Hb Hc He. unfold days_before_year. dlia. Qed.

Lemma is_leap_decomp (a b c e : Z) :
  0 <= b <= 3 -> 0 <= c <= 24 -> 0 <= e <= 3 ->
  is_leap (400 * a + 100 * b + 4 * c + e + 1)
  = (e =? 3) && (negb (c =? 24) || (b =? 3)).
Proof.
  intros Hb Hc He. unfold is_leap.
  destruct (Z.eqb_spec e 3), (Z.eqb_spec c 24), (Z.eqb_spec b 3);
    repeat match goal with
           | |- context [?x mod ?k =? 0] => destruct (Z.eqb_spec (x mod k) 0)
           end; cbn [andb orb negb]; try reflexivity; exfalso; dlia.
Qed.

Lemma ord2ymd_spec (o : Z) :
  1 <= o <= MAXORDINAL ->
  valid_date (ord2ymd o) /\ toordinal (ord2ymd o) = o.
Proof.
  intros Ho. unfold MAXORDINAL in Ho. unfold ord2ymd, DI400Y, DI100Y, DI4Y.
  cbv zeta.
  set (N := o - 1).
  set (a := N / 146097). set (r1 := N mod 146097).
  set (b := r1 / 36524). set (r2 := r1 mod 36524).
  set (c := r2 / 1461). set (r3 := r2 mod 1461).
  set (e := r3 / 365). set (r4 := r3 mod 365).
  assert (Ha : 0 <= a <= 24) by (subst a N; dlia).
  assert (Hr1 : 0 <= r1 < 146097 /\ N = 146097 * a + r1) by (subst a r1; dlia).
  assert (Hb : 0 <= b <= 4) by (subst b; dlia).
  assert (Hr2 : 0 <= r2 < 36524 /\ r1 = 36524 * b + r2) by (subst b r2; dlia).
  assert (Hc : 0 <= c <= 24) by (subst c; dlia).
  assert (Hr3 : 0 <= r3 < 1461 /\ r2 = 1461 * c + r3) by (subst c r3; dlia).
  assert (He : 0 <= e <= 4) by (subst e; dlia).
  assert (Hr4 : 0 <= r4 < 365 /\ r3 = 365 * e + r4) by (subst e r4; dlia).
  clearbody a r1 b r2 c r3 e r4.
  assert (HN : o = N + 1) by (subst N; lia). clearbody N.
  destruct ((e =? 4) || (b =? 4)) eqn:Especial.
  - (* the last day of a leap year *)
    apply orb_true_iff in Especial.
    set (y := a * 400 + 1 + b * 100 + c * 4 + e - 1).
    assert (Hfacts : is_leap y = true /\ days_before_year y + 366 = o
                     /\ 1 <= y <= 9999).
    { destruct Especial as [E | E]; apply Z.eqb_eq in E.
      - assert (Hy : y = 400 * a + 100 * b + 4 * c + 3 + 1) by (subst y; lia).
        rewrite Hy, is_leap_decomp, days_before_year_decomp by lia.
        replace (c =? 24) with false by (symmetry; apply Z.eqb_neq; lia).
        split; [reflexivity | lia].
      - assert (Hy : y = 400 * a + 100 * 3 + 4 * 24 + 3 + 1) by (subst y; lia).
        rewrite Hy, is_leap_decomp, days_before_year_decomp by lia.
        split; [reflexivity | lia]. }
    clearbody y. destruct Hfacts as (Hleap & Hdby & Hyear).
    unfold valid_date, toordinal, valid_ymd, days_in_month,
      days_before_month, MINYEAR, MAXYEAR. cbn [year month day].
    rewrite Hleap. cbn -[Z.add Z.leb days_before_year].
    split; [rewrite !andb_true_iff, !Z.leb_le; lia | lia].
  - apply orb_false_iff in Especial. destruct Especial as [E4 B4].
    apply Z.eqb_neq in E4, B4.
    set (leapyear := (e =? 3) && (negb (c =? 24) || (b =? 3))).
    set (y := a * 400 + 1 + b * 100 + c * 4 + e).
    assert (Hy : y = 400 * a + 100 * b + 4 * c + e + 1) by (subst y; lia).
    assert (Hleap : is_leap y = leapyear)
      by (subst leapyear; rewrite Hy; apply is_leap_decomp; lia).
    assert (Hdby : days_before_year y
                   = 146097 * a + 36524 * b + 1461 * c + 365 * e)
      by (rewrite Hy; apply days_before_year_decomp; lia).
    assert (Hyear : 1 <= y <= 9999) by lia.
    clearbody y leapyear.
    pose proof (month_day_checked leapyear r4 (proj1 Hr4)) as Hmd.
    unfold month_day_ok, month_day in Hmd. cbv zeta in Hmd.
    match goal with
    | |- context [if ?t then _ else _] =>
        match t with
        | (r4 <? _) => destruct t
        end
    end.
    all: rewrite !andb_true_iff, !Z.leb_le, Z.eqb_eq in Hmd;
      destruct Hmd as ((((Hm1 & Hm2) & Hd1) & Hd2) & Hsum);
      unfold valid_date, toordinal, valid_ymd, days_in_month,
        days_before_month, MINYEAR, MAXYEAR;
      cbn [year month day];
      rewrite Hleap, Hdby;
      (split; [rewrite !andb_true_iff, !Z.leb_le; lia | lia]).
Qed.

Lemma days_before_year_succ (y : Z) :
  days_before_year (y + 1)
  = days_before_year y + 365 + (if is_leap y then 1 else 0).
Proof.
  unfold days_before_year, is_leap. cbv zeta.
  replace (y + 1 - 1) with y by lia.
  destruct (Z.eqb_spec (y mod 4) 0), (Z.eqb_spec (y mod 100) 0),
    (Z.eqb_spec (y mod 400) 0); cbn [andb orb negb]; dlia.
Qed.

Lemma days_before_year_mono (y y' : Z) :
  y <= y' -> days_before_year y <= days_before_year y'.
Proof. intros H. unfold days_before_year. cbv zeta. dlia. Qed.

Ltac month_cases m H :=
  let C := fresh "C" in
  assert (C : m = 1 \/ m = 2 \/ m = 3 \/ m = 4 \/ m = 5 \/ m = 6 \/
              m = 7 \/ m = 8 \/ m = 9 \/ m = 10 \/ m = 11 \/ m = 12)
    by lia;
  clear H;
  repeat (destruct C as [C | C]); subst m.

(** The day of the year lies within the year. *)
Lemma day_of_year_bounds (y m d : Z) :
  1 <= m <= 12 -> 1 <= d <= days_in_month y m ->
  1 <= days_before_month y m + d <= 365 + (if is_leap y then 1 else 0).
Proof.
  intros Hm. unfold days_before_month, days_in_month.
  month_cases m Hm; destruct (is_leap y); cbn -[Z.add]; lia.
Qed.

Lemma days_before_month_next (y m m' : Z) :
  1 <= m -> m < m' -> m' <= 12 ->
  days_before_month y m + days_in_month y m <= days_before_month y m'.
Proof.
  intros H1 H2 H3. unfold days_before_month, days_in_month.
  assert (Hm : 1 <= m <= 12) by lia. assert (Hm' : 1 <= m' <= 12) by lia.
  month_cases m Hm; month_cases m' Hm'; try lia;
    destruct (is_leap y); cbn -[Z.add]; lia.
Qed.

Lemma toordinal_range (d : date) :
  valid_date d -> 1 <= toordinal d <= MAXORDINAL.
Proof.
  intros Hv. apply valid_ymd_iff in Hv. destruct Hv as (Hy & Hm & Hd).
  pose proof (day_of_year_bounds (year d) (month d) (day d) Hm Hd) as Hyd.
  pose proof (days_before_year_succ (year d)) as Hsucc.
  pose proof (days_before_year_mono 1 (year d) (proj1 Hy)) as Hlo.
  pose proof (days_before_year_mono (year d + 1) 10000 ltac:(lia)) as Hhi.
  change (days_before_year 1) with 0 in Hlo.
  change (days_before_year 10000) with 3652059 in Hhi.
  unfold toordinal, MAXORDINAL. destruct (is_leap (year d)); lia.
Qed.

(** The order of dates is the order of their ordinals. *)
Lemma toordinal_lt (a b : date) :
  valid_date a -> valid_date b ->
  date_ltb a b = true -> toordinal a < toordinal b.
Proof.
  intros Ha Hb Hlt.
  apply valid_ymd_iff in Ha, Hb.
  destruct Ha as (Hya & Hma & Hda). destruct Hb as (Hyb & Hmb & Hdb).
  pose proof (day_of_year_bounds _ _ _ Hma Hda) as Hyda.
  pose proof (day_of_year_bounds _ _ _ Hmb Hdb) as Hydb.
  unfold date_ltb in Hlt. unfold toordinal.
  rewrite !orb_true_iff, !andb_true_iff, !orb_true_iff, !andb_true_iff,
    !Z.ltb_lt, !Z.eqb_eq in Hlt.
  destruct Hlt as [Hy | [Hy [Hm | [Hm Hd]]]].
  - pose proof (days_before_year_succ (year a)) as Hsucc.
    pose proof (days_before_year_mono (year a + 1) (year b) ltac:(lia)).
    destruct (is_leap (year a)); lia.
  - rewrite Hy in *.
    pose proof (days_before_month_next (year b) (month a) (month b)
                  ltac:(lia) Hm ltac:(lia)).
    lia.
  - rewrite Hy, Hm. lia.
Qed.

Lemma date_trichotomy (a b : date) :
  date_ltb a b = true \/ a = b \/ date_ltb b a = true.
Proof.
  destruct a as [ya ma da], b as [yb mb db]. unfold date_ltb. cbn [year month day].
  destruct (Z.lt_total ya yb) as [H | [H | H]].
  - left. apply orb_true_iff. left. apply Z.ltb_lt. exact H.
  - subst yb. destruct (Z.lt_total ma mb) as [H | [H | H]].
    + left. rewrite Z.eqb_refl.
      replace (ma <? mb) with true by (symmetry; apply Z.ltb_lt; exact H).
      cbn. apply orb_true_r.
    + subst mb. destruct (Z.lt_total da db) as [H | [H | H]].
      * left. rewrite !Z.eqb_refl.
        replace (da <? db) with true by (symmetry; apply Z.ltb_lt; exact H).
        cbn. rewrite !orb_true_r. reflexivity.
      * subst db. right. left. reflexivity.
      * right. right. rewrite !Z.eqb_refl.
        replace (db <? da) with true by (symmetry; apply Z.ltb_lt; exact H).
        cbn. rewrite !orb_true_r. reflexivity.
    + right. right. rewrite Z.eqb_refl.
      replace (mb <? ma) with true by (symmetry; apply Z.ltb_lt; exact H).
      cbn. apply orb_true_r.
  - right. right. apply orb_true_iff. left. apply Z.ltb_lt. exact H.
Qed.

Lemma date_eqb_refl (a : date) : date_eqb a a = true.
Proof. unfold date_eqb. rewrite !Z.eqb_refl. reflexivity. Qed.

Lemma date_ltb_ordinal (a b : date) :
  valid_date a -> valid_date b ->
  date_ltb a b = (toordinal a <? toordinal b).
Proof.
  intros Ha Hb. destruct (date_trichotomy a b) as [H | [H | H]].
  - rewrite H. symmetry. apply Z.ltb_lt. apply toordinal_lt; assumption.
  - subst b. rewrite Z.ltb_irrefl.
    destruct (date_ltb a a) eqn:E; [|reflexivity].
    pose proof (toordinal_lt a a Ha Ha E). lia.
  - pose proof (toordinal_lt b a Hb Ha H) as Hlt.
    replace (toordinal a <? toordinal b) with false
      by (symmetry; apply Z.ltb_ge; lia).
    destruct (date_ltb a b) eqn:E; [|reflexivity].
    pose proof (toordinal_lt a b Ha Hb E). lia.
Qed.

Lemma date_eqb_ordinal (a b : date) :
  valid_date a -> valid_date b ->
  date_eqb a b = (toordinal a =? toordinal b).
Proof.
  intros Ha Hb. destruct (date_trichotomy a b) as [H | [H | H]].
  - pose proof (toordinal_lt a b Ha Hb H) as Hlt.
    replace (toordinal a =? toordinal b) with false
      by (symmetry; apply Z.eqb_neq; lia).
    destruct (date_eqb a b) eqn:E; [|reflexivity].
    unfold date_eqb in E. rewrite !andb_true_iff, !Z.eqb_eq in E.
    unfold toordinal in Hlt. destruct E as [[E1 E2] E3].
    rewrite E1, E2, E3 in Hlt. lia.
  - subst b. rewrite date_eqb_refl, Z.eqb_refl. reflexivity.
  - pose proof (toordinal_lt b a Hb Ha H) as Hlt.
    replace (toordinal a =? toordinal b) with false
      by (symmetry; apply Z.eqb_neq; lia).
    destruct (date_eqb a b) eqn:E; [|reflexivity].
    unfold date_eqb in E. rewrite !andb_true_iff, !Z.eqb_eq in E.
    unfold toordinal in Hlt. destruct E as [[E1 E2] E3].
    rewrite E1, E2, E3 in Hlt. lia.
Qed.

Lemma date_leb_ordinal (a b : date) :
  valid_date a -> valid_date b ->
  date_leb a b = (toordinal a <=? toordinal b).
Proof.
  intros Ha Hb. unfold date_leb.
  rewrite (date_ltb_ordinal a b Ha Hb), (date_eqb_ordinal a b Ha Hb).
  destruct (Z.ltb_spec (toordinal a) (toordinal b)),
    (Z.eqb_spec (toordinal a) (toordinal b)),
    (Z.leb_spec (toordinal a) (toordinal b)); cbn; try reflexivity; lia.
Qed.

Lemma toordinal_inj (a b : date) :
  valid_date a -> valid_date b -> toordinal a = toordinal b -> a = b.
Proof.
  intros Ha Hb H. destruct (date_trichotomy a b) as [L | [E | L]].
  - pose proof (toordinal_lt a b Ha Hb L). lia.
  - exact E.
  - pose proof (toordinal_lt b a Hb Ha L). lia.
Qed.

Lemma ord2ymd_toordinal (d : date) :
  valid_date d -> ord2ymd (toordinal d) = d.
Proof.
  intros Hv. pose proof (toordinal_range d Hv) as Hr.
  destruct (ord2ymd_spec (toordinal d) Hr) as [Hv' Ho].
  apply toordinal_inj; assumption.
Qed.

Lemma df_where_ext (mask mask' : date -> bool) (df : frame) :
  frame_valid df ->
  (forall d, valid_date d -> mask d = mask' d) ->
  df_where mask df = df_where mask' df.
Proof.
  intros Hdf Hext. unfold df_where. f_equal.
  apply filter_ext_in. intros o Ho.
  apply Hext. unfold frame_valid in Hdf. rewrite Forall_forall in Hdf.
  apply Hdf. exact Ho.
Qed.

(** Date arithmetic is arithmetic on day numbers, within the range of
    [datetime.date]. *)
Lemma add_days_in_range (d : date) (n : Z) :
  valid_date d -> 1 <= toordinal d + n <= MAXORDINAL ->
  exists d', add_days d n = Ok d' /\ valid_date d'
             /\ toordinal d' = toordinal d + n.
Proof.
  intros Hv Hr. unfold add_days. cbv zeta.
  replace ((0 <? toordinal d + n) && (toordinal d + n <=? MAXORDINAL))
    with true
    by (symmetry; apply andb_true_iff; split;
        [apply Z.ltb_lt | apply Z.leb_le]; lia).
  destruct (ord2ymd_spec _ Hr) as [Hv' Ho].
  eexists. split; [reflexivity|]. split; assumption.
Qed.

Lemma add_days_out_of_range (d : date) (n : Z) :
  toordinal d + n < 1 \/ MAXORDINAL < toordinal d + n ->
  add_days d n = Raise OverflowError.
Proof.
  intros Hr. unfold add_days. cbv zeta.
  replace ((0 <? toordinal d + n) && (toordinal d + n <=? MAXORDINAL))
    with false; [reflexivity|].
  symmetry. apply andb_false_iff.
  destruct Hr; [left; apply Z.ltb_ge | right; apply Z.leb_gt]; lia.
Qed.

Lemma sub_days_in_range (d : date) (n : Z) :
  valid_date d -> 1 <= toordinal d - n <= MAXORDINAL ->
  exists d', sub_days d n = Ok d' /\ valid_date d'
             /\ toordinal d' = toordinal d - n.
Proof.
  intros Hv Hr. unfold sub_days.
  destruct (add_days_in_range d (- n) Hv ltac:(lia)) as (d' & H1 & H2 & H3).
  exists d'. repeat split; [assumption | assumption | lia].
Qed.

Lemma range_mask (lo hi d : date) :
  valid_date lo -> valid_date hi -> valid_date d ->
  date_leb lo d && date_leb d hi
  = (toordinal lo <=? toordinal d) && (toordinal d <=? toordinal hi).
Proof.
  intros Hlo Hhi Hd.
  rewrite (date_leb_ordinal lo d Hlo Hd), (date_leb_ordinal d hi Hd Hhi).
  reflexivity.
Qed.

Section WindowRanges.

Variable read_sql_query : yaml -> connection -> result frame.
Variable read_text : string -> result string.
Local Abbreviation eval' := (eval read_sql_query read_text).

(** X1.  [DaysAgo(n)] selects the observations of the one day n days before
    the anchor; when that day lies before 0001-01-01 the subtraction
    raises [OverflowError]. *)
Theorem DaysAgo_selects_one_day :
  forall fuel n df today row,
    valid_date today -> frame_valid df -> 0 <= n ->
    (n < toordinal today ->
     eval' fuel (DaysAgo n) df today row
     = Ok (calculate_total_over
             (df_sum (on_days (toordinal today - n) (toordinal today - n) df))))
    /\
    (toordinal today <= n ->
     eval' fuel (DaysAgo n) df today row = Raise OverflowError).
Proof.
  intros fuel n df today row Hv Hdf Hn.
  pose proof (toordinal_range today Hv) as Hr. split; intros Hcase.
  - destruct (sub_days_in_range today n Hv ltac:(lia)) as (t & Ht & Hvt & Hot).
    unfold eval. rewrite Ht. cbn [bind]. do 3 f_equal.
    unfold on_days. apply df_where_ext; [exact Hdf|].
    intros d Hd. rewrite (date_eqb_ordinal d t Hd Hvt), Hot.
    destruct (Z.eqb_spec (toordinal d) (toordinal today - n)),
      (Z.leb_spec (toordinal today - n) (toordinal d)),
      (Z.leb_spec (toordinal d) (toordinal today - n));
      cbn; try reflexivity; lia.
  - unfold eval, sub_days. rewrite add_days_out_of_range by lia. reflexivity.
Qed.

(** X2.  [TrailingAverage(n)] averages the n days before the anchor; the
    anchor itself is not part of the window. *)
Theorem TrailingAverage_excludes_anchor :
  forall fuel n df today row,
    valid_date today -> frame_valid df -> 0 <= n < toordinal today ->
    eval' fuel (TrailingAverage n) df today row
    = Ok (calculate_total_over
            (df_mean (on_days (toordinal today - n) (toordinal today - 1) df))).
Proof.
  intros fuel n df today row Hv Hdf Hn.
  pose proof (toordinal_range today Hv) as Hr.
  destruct (sub_days_in_range today n Hv ltac:(lia)) as (lo & Hlo & Hvlo & Holo).
  unfold eval. rewrite Hlo. cbn [bind]. do 3 f_equal.
  unfold on_days. apply df_where_ext; [exact Hdf|].
  intros d Hd.
  rewrite (date_ltb_ordinal d today Hd Hv), (date_leb_ordinal lo d Hvlo Hd), Holo.
  destruct (Z.ltb_spec (toordinal d) (toordinal today)),
    (Z.leb_spec (toordinal today - n) (toordinal d)),
    (Z.leb_spec (toordinal d) (toordinal today - 1));
    cbn; try reflexivity; lia.
Qed.


Lemma between_days (lo hi : date) (df : frame) :
  valid_date lo -> valid_date hi -> frame_valid df ->
  df_where (fun d => date_leb d hi && date_leb lo d) df
  = on_days (toordinal lo) (toordinal hi) df.
Proof.
  intros Hlo Hhi Hdf. unfold on_days. apply df_where_ext; [exact Hdf|].
  intros d Hd. rewrite andb_comm. apply range_mask; assumption.
Qed.

Lemma between_days' (lo hi : date) (df : frame) :
  valid_date lo -> valid_date hi -> frame_valid df ->
  df_where (fun d => date_leb lo d && date_leb d hi) df
  = on_days (toordinal lo) (toordinal hi) df.
Proof.
  intros Hlo Hhi Hdf. unfold on_days. apply df_where_ext; [exact Hdf|].
  intros d Hd. apply range_mask; assumption.
Qed.

(** X3.  [WeekdayWeekend(n)] selects from the day n days before the anchor
    back to the Friday before it when that day is a Saturday or a Sunday,
    and that day alone otherwise; it never selects a day after it. *)
Theorem WeekdayWeekend_range :
  forall fuel n df today row,
    valid_date today -> frame_valid df -> 0 <= n < toordinal today ->
    let e := toordinal today - n in
    let w := (e + 6) mod 7 in
    let s := if 5 <=? w then e - (w - 4) else e in
    eval' fuel (WeekdayWeekend n) df today row
    = Ok (calculate_total_over (df_sum (on_days s e df)))
    /\ (5 <= w -> (s + 6) mod 7 = 4).
Proof.
  intros fuel n df today row Hv Hdf Hn e w s.
  pose proof (toordinal_range today Hv) as Hr.
  destruct (sub_days_in_range today n Hv ltac:(lia)) as (ed & Hed & Hved & Hoed).
  fold e in Hoed.
  assert (Hw : weekday ed = w) by (unfold weekday; rewrite Hoed; reflexivity).
  assert (Hwr : 0 <= w < 7) by (subst w; dlia).
  split.
  - unfold eval. rewrite Hed. cbn [bind]. rewrite Hw. subst s.
    destruct (Z.leb_spec 5 w) as [Hwe | Hwd].
    + assert (Hs : 1 <= toordinal ed - (w - 4) <= MAXORDINAL).
      { rewrite Hoed. subst w. unfold MAXORDINAL in *. dlia. }
      destruct (sub_days_in_range ed (w - 4) Hved Hs) as (sd & Hsd & Hvsd & Hosd).
      rewrite Hsd. cbn [bind].
      rewrite (between_days' sd ed df Hvsd Hved Hdf), Hosd, Hoed. reflexivity.
    + cbn [bind].
      rewrite (between_days' ed ed df Hved Hved Hdf), Hoed. reflexivity.
  - intros Hwe. subst s.
    replace (5 <=? w) with true by (symmetry; apply Z.leb_le; exact Hwe).
    subst w. dlia.
Qed.

(** X4.  [WeeksAgo(n)] selects the seven days from a Monday to the following
    Sunday: the week that holds the day after the anchor, moved n weeks
    back. *)
Theorem WeeksAgo_monday_to_sunday :
  forall fuel n df today row,
    valid_date today -> frame_valid df -> 0 <= n ->
    toordinal today < MAXORDINAL ->
    let t1 := toordinal today + 1 in
    let ws := t1 - (t1 + 6) mod 7 - 7 * n in
    1 <= ws -> ws + 6 <= MAXORDINAL ->
    eval' fuel (WeeksAgo n) df today row
    = Ok (calculate_total_over (df_sum (on_days ws (ws + 6) df)))
    /\ (ws + 6) mod 7 = 0.
Proof.
  intros fuel n df today row Hv Hdf Hn Hmax t1 ws Hlo Hhi.
  pose proof (toordinal_range today Hv) as Hr.
  assert (Hw : 0 <= (t1 + 6) mod 7 < 7) by dlia.
  assert (Ht1 : 1 <= toordinal today + 1 <= MAXORDINAL) by lia.
  destruct (add_days_in_range today 1 Hv Ht1) as (d1 & Hd1 & Hv1 & Ho1).
  fold t1 in Ho1.
  assert (Hwd : weekday d1 = (t1 + 6) mod 7)
    by (unfold weekday; rewrite Ho1; reflexivity).
  assert (H0 : 1 <= toordinal d1 - weekday d1 <= MAXORDINAL)
    by (rewrite Ho1, Hwd; subst ws; lia).
  destruct (sub_days_in_range d1 _ Hv1 H0) as (w0 & Hw0 & Hvw0 & How0).
  assert (H1 : 1 <= toordinal w0 - 7 * n <= MAXORDINAL)
    by (rewrite How0, Ho1, Hwd; subst ws; lia).
  destruct (sub_days_in_range w0 _ Hvw0 H1) as (w1 & Hw1 & Hvw1 & How1).
  assert (How1' : toordinal w1 = ws)
    by (rewrite How1, How0, Ho1, Hwd; reflexivity).
  assert (H2 : 1 <= toordinal w1 + 6 <= MAXORDINAL) by lia.
  destruct (add_days_in_range w1 6 Hvw1 H2) as (we & Hwe & Hvwe & Howe).
  split.
  - unfold eval. rewrite Hd1. cbn [bind]. rewrite Hw0. cbn [bind].
    rewrite Hw1. cbn [bind]. rewrite Hwe. cbn [bind].
    rewrite (between_days w1 we df Hvw1 Hvwe Hdf), Howe, How1'. reflexivity.
  - subst ws. dlia.
Qed.

(** X5.  [WeekToDate(n)] selects from the Monday of the anchor's week to the
    anchor, both moved n weeks back. *)
Theorem WeekToDate_range :
  forall fuel n df today row,
    valid_date today -> frame_valid df -> 0 <= n ->
    let t := toordinal today in
    let ws := t - (t + 6) mod 7 - 7 * n in
    1 <= ws ->
    eval' fuel (WeekToDate n) df today row
    = Ok (calculate_total_over (df_sum (on_days ws (t - 7 * n) df)))
    /\ (ws + 6) mod 7 = 0.
Proof.
  intros fuel n df today row Hv Hdf Hn t ws Hlo.
  pose proof (toordinal_range today Hv) as Hr. fold t in Hr.
  assert (Hw : 0 <= (t + 6) mod 7 < 7) by dlia.
  assert (Hwd : weekday today = (t + 6) mod 7) by reflexivity.
  assert (H0 : 1 <= toordinal today - weekday today <= MAXORDINAL)
    by (rewrite Hwd; fold t; subst ws; lia).
  destruct (sub_days_in_range today _ Hv H0) as (w0 & Hw0 & Hvw0 & How0).
  assert (H1 : 1 <= toordinal w0 - 7 * n <= MAXORDINAL)
    by (rewrite How0, Hwd; fold t; subst ws; lia).
  destruct (sub_days_in_range w0 _ Hvw0 H1) as (w1 & Hw1 & Hvw1 & How1).
  assert (H2 : 1 <= toordinal today - 7 * n <= MAXORDINAL)
    by (fold t; subst ws; lia).
  destruct (sub_days_in_range today _ Hv H2) as (t' & Ht' & Hvt' & Hot').
  split.
  - unfold eval. rewrite Hw0. cbn [bind]. rewrite Hw1. cbn [bind].
    rewrite Ht'. cbn [bind].
    rewrite (between_days w1 t' df Hvw1 Hvt' Hdf), Hot', How1, How0, Hwd.
    reflexivity.
  - subst ws. dlia.
Qed.

(** X6.  [SinceDate(d)] selects the days from d to the anchor, both included;
    a date after the anchor selects nothing. *)
Theorem SinceDate_range :
  forall fuel since df today row,
    valid_date today -> valid_date since -> frame_valid df ->
    eval' fuel (SinceDate since) df today row
    = Ok (calculate_total_over
            (df_sum (on_days (toordinal since) (toordinal today) df)))
    /\ (toordinal today < toordinal since ->
        eval' fuel (SinceDate since) df today row
        = Ok (if has_over df then PNone else PNum (Fin 0))).
Proof.
  intros fuel since df today row Hv Hs Hdf.
  assert (Heval : eval' fuel (SinceDate since) df today row
                  = Ok (calculate_total_over
                          (df_sum (on_days (toordinal since) (toordinal today) df)))).
  { unfold eval. rewrite (between_days since today df Hs Hv Hdf). reflexivity. }
  split; [exact Heval|].
  intros Hafter. rewrite Heval. f_equal. unfold on_days.
  apply total_over_of_nothing. intros o _.
  destruct (Z.leb_spec (toordinal since) (toordinal (obs_date o))),
    (Z.leb_spec (toordinal (obs_date o)) (toordinal today));
    cbn; try reflexivity; lia.
Qed.

End WindowRanges.

Lemma toordinal_next_month (y m : Z) :
  1 <= m <= 12 ->
  toordinal (mkdate (fst (next_month y m)) (snd (next_month y m)) 1)
  = toordinal (mkdate y m 1) + days_in_month y m.
Proof.
  intros Hm. unfold next_month, toordinal. cbn [year month day].
  destruct (Z.eqb_spec m 12) as [-> | Hne]; cbn [fst snd].
  - rewrite days_before_year_succ.
    unfold days_before_month, days_in_month.
    destruct (is_leap y), (is_leap (y + 1)); cbn -[Z.add]; lia.
  - unfold days_before_month, days_in_month.
    month_cases m Hm; try lia;
      repeat match goal with
             | |- context [Z.pos ?p + 1] =>
                 let v := eval cbv in (Z.pos p + 1) in
                 change (Z.pos p + 1) with v
             end;
      destruct (is_leap y); cbn -[Z.add]; lia.
Qed.

Lemma next_prev_month (y m : Z) :
  1 <= m <= 12 ->
  next_month (fst (prev_month y m)) (snd (prev_month y m)) = (y, m)
  /\ 1 <= snd (prev_month y m) <= 12.
Proof.
  intros Hm. unfold prev_month, next_month.
  destruct (Z.eqb_spec m 1) as [-> | Hne]; cbn [fst snd].
  - split; [|lia]. cbn. f_equal. lia.
  - destruct (Z.eqb_spec (m - 1) 12); [lia|].
    split; [f_equal; lia | lia].
Qed.

Lemma valid_first (y m : Z) :
  1 <= y <= 9999 -> 1 <= m <= 12 -> valid_date (mkdate y m 1).
Proof.
  intros Hy Hm. apply valid_ymd_iff. cbn [year month day].
  pose proof (days_in_month_bounds y m Hm). lia.
Qed.

Lemma valid_last (y m : Z) :
  1 <= y <= 9999 -> 1 <= m <= 12 -> valid_date (mkdate y m (days_in_month y m)).
Proof.
  intros Hy Hm. apply valid_ymd_iff. cbn [year month day].
  pose proof (days_in_month_bounds y m Hm). lia.
Qed.

(** The day before the first of a month is the last day of the month
    before. *)
Lemma day_before_first (y m : Z) :
  1 <= y <= 9999 -> 1 <= m <= 12 -> ~ (y = 1 /\ m = 1) ->
  sub_days (mkdate y m 1) 1
  = Ok (mkdate (fst (prev_month y m)) (snd (prev_month y m))
               (days_in_month (fst (prev_month y m)) (snd (prev_month y m)))).
Proof.
  intros Hy Hm Hfirst.
  destruct (next_prev_month y m Hm) as [Hnext Hpm].
  set (py := fst (prev_month y m)) in *. set (pm := snd (prev_month y m)) in *.
  assert (Hpy : 1 <= py <= 9999).
  { subst py. unfold prev_month. destruct (Z.eqb_spec m 1); cbn [fst]; lia. }
  pose proof (toordinal_next_month py pm Hpm) as Hord.
  rewrite Hnext in Hord. cbn [fst snd] in Hord.
  pose proof (valid_last py pm Hpy Hpm) as Hvl.
  assert (Hol : toordinal (mkdate py pm (days_in_month py pm))
                = toordinal (mkdate y m 1) - 1).
  { rewrite Hord. unfold toordinal. cbn [year month day]. lia. }
  pose proof (toordinal_range _ Hvl) as Hr.
  destruct (sub_days_in_range (mkdate y m 1) 1 (valid_first y m Hy Hm)
              ltac:(lia)) as (d' & Hd' & Hvd' & Hod').
  rewrite Hd'. f_equal. apply toordinal_inj; [exact Hvd' | exact Hvl | lia].
Qed.

(** 31 days after the first of a month, reset to day 1, less one day:
    the last day of that month.  In December 9999 the first step leaves
    the range of dates. *)
Lemma last_day_of_month (y m : Z) :
  1 <= y <= 9999 -> 1 <= m <= 12 ->
  (~ (y = 9999 /\ m = 12) ->
   (next <- add_days (mkdate y m 1) 31 ;;
    next_start <- replace_day next 1 ;;
    sub_days next_start 1)
   = Ok (mkdate y m (days_in_month y m)))
  /\ (y = 9999 /\ m = 12 ->
      add_days (mkdate y m 1) 31 = Raise OverflowError).
Proof.
  intros Hy Hm. split.
  - intros Hnotlast.
    pose proof (days_in_month_bounds y m Hm) as Hdim.
    pose proof (toordinal_next_month y m Hm) as Hord.
    set (ny := fst (next_month y m)) in *. set (nm := snd (next_month y m)) in *.
    assert (Hn : 1 <= ny <= 9999 /\ 1 <= nm <= 12 /\ ~ (ny = 1 /\ nm = 1)).
    { subst ny nm. unfold next_month.
      destruct (Z.eqb_spec m 12); cbn [fst snd]; lia. }
    destruct Hn as (Hny & Hnm & Hnotfirst).
    pose proof (days_in_month_bounds ny nm Hnm) as Hdim'.
    set (nd := mkdate ny nm (32 - days_in_month y m)).
    assert (Hvnd : valid_date nd)
      by (apply valid_ymd_iff; subst nd; cbn [year month day]; lia).
    assert (Hond : toordinal nd = toordinal (mkdate y m 1) + 31).
    { transitivity (toordinal (mkdate ny nm 1) + 31 - days_in_month y m);
        [subst nd; unfold toordinal; cbn [year month day]; lia | lia]. }
    pose proof (toordinal_range _ Hvnd) as Hrnd.
    destruct (add_days_in_range (mkdate y m 1) 31 (valid_first y m Hy Hm)
                ltac:(lia)) as (d1 & Hd1 & Hvd1 & Hod1).
    assert (d1 = nd) by (apply toordinal_inj; [assumption | assumption | lia]).
    subst d1. rewrite Hd1. cbn [bind].
    unfold replace_day. subst nd. cbn [year month day].
    pose proof (valid_first ny nm Hny Hnm) as Hvf. unfold valid_date in Hvf.
    cbn [year month day] in Hvf. rewrite (date_new_valid_ymd _ _ _ Hvf).
    cbn [bind].
    assert (Hback : prev_month ny nm = (y, m)).
    { subst ny nm. unfold next_month, prev_month.
      destruct (Z.eqb_spec m 12) as [-> | Hne]; cbn [fst snd].
      - cbn. f_equal. lia.
      - destruct (Z.eqb_spec (m + 1) 1); [lia|]. f_equal. lia. }
    rewrite day_before_first; [rewrite Hback; reflexivity | lia | lia |].
    exact Hnotfirst.
  - intros [-> ->]. apply add_days_out_of_range. right. vm_compute. reflexivity.
Qed.

Lemma month_mask (y m last : Z) (d : date) :
  1 <= last <= days_in_month y m ->
  valid_date d ->
  date_leb d (mkdate y m last) && date_leb (mkdate y m 1) d
  = (year d =? y) && (month d =? m) && (day d <=? last).
Proof.
  intros Hlast Hd. apply valid_ymd_iff in Hd. destruct Hd as (_ & _ & Hday).
  unfold date_leb, date_ltb, date_eqb. cbn [year month day].
  apply eq_true_iff_eq.
  rewrite !andb_true_iff, !orb_true_iff, !andb_true_iff, !orb_true_iff,
    !andb_true_iff, !Z.ltb_lt, !Z.eqb_eq, !Z.leb_le.
  lia.
Qed.

Lemma in_month_whole (y m : Z) (df : frame) :
  frame_valid df ->
  in_month y m (days_in_month y m) df = whole_month y m df.
Proof.
  intros Hdf. unfold in_month, whole_month. apply df_where_ext; [exact Hdf|].
  intros d Hd. apply valid_ymd_iff in Hd. destruct Hd as (_ & _ & Hday).
  destruct (Z.eqb_spec (year d) y) as [<- |]; [|reflexivity].
  destruct (Z.eqb_spec (month d) m) as [<- |]; [|reflexivity].
  cbn [andb]. apply Z.leb_le. lia.
Qed.

Lemma month_range (y m last : Z) (df : frame) :
  1 <= last <= days_in_month y m -> frame_valid df ->
  df_where (fun d => date_leb d (mkdate y m last) && date_leb (mkdate y m 1) d) df
  = in_month y m last df.
Proof.
  intros Hlast Hdf. unfold in_month. apply df_where_ext; [exact Hdf|].
  intros d Hd. apply month_mask; assumption.
Qed.

(** The month that [shift_month] reaches, by its month count. *)
Lemma shift_month_spec (today : date) (n : Z) :
  1 <= month today <= 12 -> 0 <= n ->
  1 <= fst (shift_month today n) <= 12 /\
  12 * snd (shift_month today n) + fst (shift_month today n)
  = 12 * year today + month today - n.
Proof.
  intros Hm Hn.
  destruct (wrap_month_spec (Z.to_nat (1 - (month today - n)))
                            (month today - n) (year today)) as [H1 H2];
    [lia | lia |].
  change (wrap_month (Z.to_nat (1 - (month today - n)))
                     (month today - n) (year today))
    with (shift_month today n) in H1, H2.
  split; [exact H1 | lia].
Qed.

Lemma month_target_in_range (fuel : nat) (today : date) (n : Z) :
  valid_date today -> 0 <= n ->
  1 <= snd (shift_month today n) -> (4 <= fuel)%nat ->
  month_target fuel today n
  = Ok (mkdate (snd (shift_month today n)) (fst (shift_month today n))
               (Z.min (day today)
                      (days_in_month (snd (shift_month today n))
                                     (fst (shift_month today n))))).
Proof.
  intros Hv Hn Hyear Hfuel.
  apply valid_ymd_iff in Hv. destruct Hv as (Hy & Hm & Hd).
  destruct (shift_month_spec today n Hm Hn) as [Hnm Hcount].
  pose proof (days_in_month_bounds (year today) (month today) Hm) as Hdim.
  unfold month_target.
  destruct (shift_month today n) as [nm ny]. cbn [fst snd] in *.
  pose proof (days_in_month_bounds ny nm Hnm) as Hdim'.
  rewrite clamp_day_spec by lia. rewrite Z.sub_0_r. reflexivity.
Qed.

Section MonthWindows.

Variable read_sql_query : yaml -> connection -> result frame.
Variable read_text : string -> result string.
Local Abbreviation eval' := (eval read_sql_query read_text).

(** X7.  [Month(n)] selects every observation of the calendar month n months
    before the anchor's.  A month before year 1 is a [ValueError], or an
    [OverflowError] when its year is below -2^31 and does not fit the C
    [int] that [replace] takes; for December 9999 the date arithmetic
    overflows. *)
Theorem Month_whole_month :
  forall fuel n df today row,
    valid_date today -> frame_valid df -> 0 <= n ->
    exists ny nm,
      1 <= nm <= 12 /\
      12 * ny + nm = 12 * year today + month today - n /\
      (INT_MIN <= ny < 1 ->
       eval' fuel (Month n) df today row = Raise ValueError) /\
      (ny < INT_MIN ->
       eval' fuel (Month n) df today row = Raise OverflowError) /\
      (ny = 9999 /\ nm = 12 ->
       eval' fuel (Month n) df today row = Raise OverflowError) /\
      (1 <= ny -> ~ (ny = 9999 /\ nm = 12) ->
       eval' fuel (Month n) df today row
       = Ok (calculate_total_over (df_sum (whole_month ny nm df)))).
Proof.
  intros fuel n df today row Hv Hdf Hn.
  pose proof Hv as Hv'. apply valid_ymd_iff in Hv'.
  destruct Hv' as (Hy & Hm & Hd).
  destruct (shift_month_spec today n Hm Hn) as [Hnm Hcount].
  unfold eval. destruct (shift_month today n) as [nm ny]. cbn [fst snd] in *.
  exists ny, nm. split; [exact Hnm|]. split; [exact Hcount|].
  assert (Hny : ny <= 9999) by lia.
  split; [|split; [|split]].
  - intros Hlow. rewrite date_new_invalid; [reflexivity | | | |].
    + apply c_int_iff. unfold INT_MAX. lia.
    + apply c_int_small. lia.
    + apply c_int_small. lia.
    + destruct (valid_ymd ny nm 1) eqn:E; [|reflexivity].
      apply valid_ymd_iff in E. lia.
  - intros Hlow. rewrite date_new_overflow; [reflexivity|].
    left. destruct (c_int ny) eqn:E; [|reflexivity].
    apply c_int_iff in E. lia.
  - intros [-> ->].
    destruct (last_day_of_month 9999 12 ltac:(lia) ltac:(lia)) as [_ Hover].
    rewrite (date_new_valid_ymd 9999 12 1 eq_refl).
    cbn [bind]. rewrite (Hover (conj eq_refl eq_refl)). reflexivity.
  - intros Hlow Hnotlast.
    destruct (last_day_of_month ny nm ltac:(lia) Hnm) as [Hlast _].
    specialize (Hlast Hnotlast).
    pose proof (valid_first ny nm ltac:(lia) Hnm) as Hvf.
    unfold valid_date in Hvf. cbn [year month day] in Hvf.
    rewrite (date_new_valid_ymd _ _ _ Hvf). cbn [bind].
    destruct (add_days (mkdate ny nm 1) 31) as [next| |];
      cbn [bind] in Hlast |- *; try discriminate Hlast.
    destruct (replace_day next 1) as [next_start| |];
      cbn [bind] in Hlast |- *; try discriminate Hlast.
    rewrite Hlast. cbn [bind].
    pose proof (days_in_month_bounds ny nm Hnm) as Hdim.
    rewrite month_range by (assumption || lia).
    rewrite in_month_whole by assumption. reflexivity.
Qed.

(** X8.  [MonthToDate(n)] selects, in the month n months before the anchor's,
    the days from the 1st to the anchor's day (or to the last day of that
    month when it is shorter). *)
Theorem MonthToDate_range :
  forall fuel n df today row,
    valid_date today -> frame_valid df -> 0 <= n ->
    n < 12 * (year today - 1) + month today -> (4 <= fuel)%nat ->
    exists ny nm,
      1 <= nm <= 12 /\
      12 * ny + nm = 12 * year today + month today - n /\
      eval' fuel (MonthToDate n) df today row
      = Ok (calculate_total_over
              (df_sum (in_month ny nm
                         (Z.min (day today) (days_in_month ny nm)) df))).
Proof.
  intros fuel n df today row Hv Hdf Hn Hrange Hfuel.
  pose proof Hv as Hv'. apply valid_ymd_iff in Hv'.
  destruct Hv' as (Hy & Hm & Hd).
  destruct (shift_month_spec today n Hm Hn) as [Hnm Hcount].
  assert (Hyear : 1 <= snd (shift_month today n)) by lia.
  pose proof (month_target_in_range fuel today n Hv Hn Hyear Hfuel) as Ht.
  unfold eval. rewrite Ht. cbn [bind].
  destruct (shift_month today n) as [nm ny]. cbn [fst snd] in *.
  exists ny, nm. split; [exact Hnm|]. split; [exact Hcount|].
  pose proof (days_in_month_bounds ny nm Hnm) as Hdim.
  pose proof (days_in_month_bounds (year today) (month today) Hm) as Hdim0.
  unfold replace_day. cbn [year month day].
  pose proof (valid_first ny nm ltac:(lia) Hnm) as Hvf.
  unfold valid_date in Hvf. cbn [year month day] in Hvf.
  rewrite (date_new_valid_ymd _ _ _ Hvf). cbn [bind].
  rewrite month_range by (assumption || lia). reflexivity.
Qed.

(** The loop of [MonthToDateAverage] on an anchor day that every month
    has (or with no month to go back). *)
Lemma mtdavg_shift_spec (k : nat) :
  forall y m d,
    1 <= y <= 9999 -> 1 <= m <= 12 -> 1 <= d <= days_in_month y m ->
    k = O \/ d <= 28 ->
    Z.of_nat k < 12 * (y - 1) + m ->
    exists y' m',
      1 <= y' <= 9999 /\ 1 <= m' <= 12 /\
      12 * y' + m' = 12 * y + m - Z.of_nat k /\
      1 <= d <= days_in_month y' m' /\
      mtdavg_shift k (mkdate y m 1) (mkdate y m d)
      = Ok (mkdate y' m' 1, mkdate y' m' d).
Proof.
  induction k as [|k IH]; intros y m d Hy Hm Hd Hday Hrange.
  - exists y, m. cbn [mtdavg_shift]. repeat split; try lia.
  - destruct Hday as [Hk | Hday]; [discriminate Hk|].
    destruct (next_prev_month y m Hm) as [Hnext Hpm].
    assert (Hpy : 1 <= fst (prev_month y m) <= 9999
                  /\ 12 * fst (prev_month y m) + snd (prev_month y m)
                     = 12 * y + m - 1).
    { unfold prev_month. destruct (Z.eqb_spec m 1); cbn [fst snd]; lia. }
    destruct Hpy as [Hpy Hcount].
    cbn [mtdavg_shift].
    rewrite day_before_first by lia. cbn [bind].
    set (py := fst (prev_month y m)) in *. set (pm := snd (prev_month y m)) in *.
    pose proof (days_in_month_bounds py pm Hpm) as Hdim.
    unfold replace_day. cbn [year month day].
    pose proof (valid_first py pm Hpy Hpm) as Hvf.
    unfold valid_date in Hvf. cbn [year month day] in Hvf.
    rewrite (date_new_valid_ymd _ _ _ Hvf). cbn [bind year month day].
    assert (Hvd : valid_ymd py pm d = true) by (apply valid_ymd_iff; lia).
    rewrite (date_new_valid_ymd _ _ _ Hvd). cbn [bind].
    destruct (IH py pm d Hpy Hpm ltac:(lia) (or_intror Hday) ltac:(lia))
      as (y' & m' & Hy' & Hm' & Hc' & Hd' & Hshift).
    exists y', m'. repeat split; try lia. exact Hshift.
Qed.

(** X9.  [MonthToDateAverage(n)] averages, in the month n months before the
    anchor's, the days from the 1st to the anchor's day, when n = 0 or
    the anchor's day is at most the 28th. *)
Theorem MonthToDateAverage_range :
  forall fuel n df today row,
    valid_date today -> frame_valid df -> 0 <= n ->
    n = 0 \/ day today <= 28 ->
    n < 12 * (year today - 1) + month today ->
    exists ny nm,
      1 <= nm <= 12 /\
      12 * ny + nm = 12 * year today + month today - n /\
      eval' fuel (MonthToDateAverage n) df today row
      = Ok (calculate_total_over (df_mean (in_month ny nm (day today) df))).
Proof.
  intros fuel n df today row Hv Hdf Hn Hday Hrange.
  pose proof Hv as Hv'. apply valid_ymd_iff in Hv'.
  destruct Hv' as (Hy & Hm & Hd).
  destruct (mtdavg_shift_spec (Z.to_nat n) (year today) (month today)
              (day today) Hy Hm Hd)
    as (y' & m' & Hy' & Hm' & Hc' & Hd' & Hshift); [| lia |].
  { destruct Hday as [-> | Hday]; [left; reflexivity | right; exact Hday]. }
  exists y', m'. split; [exact Hm'|]. split; [lia|].
  unfold eval, replace_day.
  pose proof (valid_first _ _ Hy Hm) as Hvf.
  unfold valid_date in Hvf. cbn [year month day] in Hvf.
  rewrite (date_new_valid_ymd _ _ _ Hvf). cbn [bind].
  destruct today as [ty tm td]. cbn [year month day] in *.
  rewrite Hshift. cbn [bind].
  rewrite month_range by assumption. reflexivity.
Qed.

(** X10.  Where [MonthToDate] lowers the day, [MonthToDateAverage] fails: when
    the month before the anchor's has no day with the anchor's number,
    every [mtdavg(n)] with n >= 1 raises [ValueError]. *)
Theorem MonthToDateAverage_missing_day :
  forall fuel n df today row,
    valid_date today -> 1 <= n ->
    ~ (year today = 1 /\ month today = 1) ->
    days_in_month (fst (prev_month (year today) (month today)))
                  (snd (prev_month (year today) (month today)))
    < day today ->
    eval' fuel (MonthToDateAverage n) df today row = Raise ValueError.
Proof.
  intros fuel n df today row Hv Hn Hfirst Hshort.
  apply valid_ymd_iff in Hv. destruct Hv as (Hy & Hm & Hd).
  destruct (next_prev_month (year today) (month today) Hm) as [_ Hpm].
  assert (Hpy : 1 <= fst (prev_month (year today) (month today)) <= 9999).
  { unfold prev_month. destruct (Z.eqb_spec (month today) 1); cbn [fst]; lia. }
  unfold eval, replace_day.
  pose proof (valid_first _ _ Hy Hm) as Hvf.
  unfold valid_date in Hvf. cbn [year month day] in Hvf.
  rewrite (date_new_valid_ymd _ _ _ Hvf). cbn [bind].
  destruct (Z.to_nat n) as [|k] eqn:Ek; [lia|].
  cbn [mtdavg_shift]. rewrite day_before_first by assumption. cbn [bind].
  set (py := fst (prev_month (year today) (month today))) in *.
  set (pm := snd (prev_month (year today) (month today))) in *.
  unfold replace_day. cbn [year month day].
  pose proof (valid_first py pm Hpy Hpm) as Hvf'.
  unfold valid_date in Hvf'. cbn [year month day] in Hvf'.
  rewrite (date_new_valid_ymd _ _ _ Hvf'). cbn [bind year month day].
  assert (Hinv : valid_ymd py pm (day today) = false).
  { destruct (valid_ymd py pm (day today)) eqn:E; [|reflexivity].
    apply valid_ymd_iff in E. lia. }
  rewrite date_new_invalid;
    [reflexivity | apply c_int_small; lia | apply c_int_small; lia
     | apply c_int_small | exact Hinv].
  pose proof (days_in_month_bounds (year today) (month today) Hm). lia.
Qed.

End MonthWindows.

(** ** Frames and reductions *)

Section FrameProperties.

Variable read_sql_query : yaml -> connection -> result frame.
Variable read_text : string -> result string.
Local Abbreviation eval' := (eval read_sql_query read_text).

Lemma total_only_reduce (red : list Q -> num) (mask : date -> bool) (df : frame) :
  has_over df = false ->
  calculate_total_over (df_reduce red (df_where mask df))
  = PNum (red (map obs_total (observations (df_where mask df)))).
Proof.
  intros Hover. unfold calculate_total_over, df_reduce, df_where.
  cbn [has_over observations s_total s_over]. rewrite Hover. reflexivity.
Qed.

(** X12.  Over a frame without an [over] column a window that reads the frame
    never evaluates to [None] (nor to a string): what it returns is the
    reduced [total], a number, which for an averaging window may be NaN. *)
Theorem total_only_never_none :
  forall fuel c df today row v,
    table_window c = true ->
    has_over df = false ->
    eval' fuel c df today row = Ok v ->
    v <> PNone /\ exists n, v = PNum n.
Proof.
  intros fuel c df today row v Htable Hover Heval.
  unfold eval in Heval.
  destruct c; try discriminate Htable;
    try destruct (shift_month today months_ago) as [nm ny];
    repeat step_bind Heval;
    repeat match goal with
           | x : (date * date)%type |- _ => destruct x
           end;
    injection Heval as <-;
    unfold df_sum, df_mean; rewrite (total_only_reduce _ _ df Hover);
    (split; [discriminate | eexists; reflexivity]).
Qed.

(** The mean of an empty selection: NaN in each column, and NaN is not
    equal to 0, so the division is made and gives NaN. *)
Lemma total_over_of_empty_mean (df : frame) :
  observations df = [] -> calculate_total_over (df_mean df) = PNum NaN.
Proof.
  intros Hempty. unfold calculate_total_over, df_mean, df_reduce.
  rewrite Hempty. cbn [map col_mean s_total s_over].
  destruct (has_over df); reflexivity.
Qed.

(** X13.  An averaging window whose selection is empty evaluates to NaN,
    with or without an [over] column: not to [None], and not to the 0 that
    a summing window gives for an empty selection without [over]. *)
Theorem mean_window_empty :
  forall fuel c df today row v,
    table_window c = true -> sum_window c = false ->
    eval' fuel c df today row = Ok v ->
    exists mask,
      (forall df',
          eval' fuel c df' today row
          = Ok (calculate_total_over (df_mean (df_where mask df')))) /\
      (observations (df_where mask df) = [] -> v = PNum NaN).
Proof.
  intros fuel c df today row v Htable Hsum Heval.
  assert (Hshape :
    exists mask, forall df',
        eval' fuel c df' today row
        = Ok (calculate_total_over (df_mean (df_where mask df')))).
  { unfold eval in *.
    destruct c; try discriminate Htable; try discriminate Hsum.
    - step_bind Heval. eexists. intros df'. cbn [bind]. reflexivity.
    - do 2 step_bind Heval. destruct a0 as [ms td].
      eexists. intros df'. cbn [bind]. rewrite E0. cbn [bind]. reflexivity. }
  destruct Hshape as [mask Hmask]. exists mask. split; [exact Hmask|].
  intros Hempty. rewrite (Hmask df) in Heval. injection Heval as <-.
  apply total_over_of_empty_mean. exact Hempty.
Qed.

End FrameProperties.

(** ** The parser on every text *)

Lemma is_digit_value (c : ascii) :
  is_digit c = true -> 0 <= Z.of_nat (nat_of_ascii c) - 48 <= 9.
Proof.
  unfold is_digit. rewrite andb_true_iff, !Z.leb_le. lia.
Qed.

Lemma int_acc_nonneg (s : string) :
  forall acc, string_forall is_digit s = true -> 0 <= acc -> 0 <= int_acc acc s.
Proof.
  induction s as [|c s IH]; intros acc Hs Hacc; cbn [int_acc]; [exact Hacc|].
  cbn [string_forall] in Hs. apply andb_true_iff in Hs. destruct Hs as [Hc Hs].
  pose proof (is_digit_value c Hc). apply IH; [exact Hs | lia].
Qed.

Lemma decimal_nonneg (s : string) :
  string_forall is_digit s = true -> 0 <= decimal s.
Proof. intros Hs. apply int_acc_nonneg; [exact Hs | lia]. Qed.

(** X15.  Every one of the eight integer patterns is reachable: no earlier
    literal or pattern takes its expressions.  For up to 4300 digits
    ('0'..'9') the parameter is their decimal value, which is not
    negative; for more, [int] refuses the conversion and the parser
    raises [ValueError], not [ConfigError]. *)
Theorem int_patterns_parse :
  forall name ctor ds line,
    In (name, ctor) int_patterns ->
    ds <> EmptyString -> string_forall is_digit ds = true ->
    (Z.of_nat (String.length ds) <= int_max_str_digits ->
     parse_window (name ++ "(" ++ ds ++ ")") line = Ok (ctor (decimal ds))
     /\ 0 <= decimal ds) /\
    (int_max_str_digits < Z.of_nat (String.length ds) ->
     parse_window (name ++ "(" ++ ds ++ ")") line = Raise ValueError).
Proof.
  intros name ctor ds line Hin Hne Hd.
  rewrite (int_pattern_exact name ctor ds line Hin Hne Hd).
  split; intros Hlen.
  - rewrite (int_within_limit ds Hlen).
    split; [reflexivity | apply decimal_nonneg; exact Hd].
  - rewrite (int_beyond_limit ds Hlen). reflexivity.
Qed.

Lemma span_class (cls : ascii -> bool) (s : string) :
  forall g r, span cls s = (g, r) -> string_forall cls g = true.
Proof.
  induction s as [|c s IH]; intros g r H; cbn [span] in H.
  - injection H as <- <-. reflexivity.
  - destruct (cls c) eqn:Ec.
    + destruct (span cls s) as [g' r'] eqn:E. injection H as <- <-.
      cbn [string_forall]. rewrite Ec. exact (IH g' r' eq_refl).
    + injection H as <- <-. reflexivity.
Qed.

Lemma match_call_group (name : string) (cls : ascii -> bool) (text g : string) :
  match_call name cls text = Some g ->
  g <> EmptyString /\ string_forall cls g = true.
Proof.
  unfold match_call. intros H.
  destruct (strip_prefix (name ++ "(") text) as [rest|]; [|discriminate H].
  destruct (span cls rest) as [g' rest'] eqn:Es.
  pose proof (span_class cls rest g' rest' Es) as Hcls.
  destruct g' as [|c g']; [discriminate H|].
  destruct (starts_with_close rest'); [|discriminate H].
  injection H as <-. split; [discriminate | exact Hcls].
Qed.

Lemma date_new_valid (y m d : Z) (t : date) :
  date_new y m d = Ok t -> valid_date t.
Proof.
  intros H. apply date_new_ok in H. destruct H as [E ->]. exact E.
Qed.

Lemma parse_window_result_well_formed (text : string) (line : Z) (c : Column) :
  parse_window text line = Ok c -> well_formed c.
Proof.
  intros H. unfold parse_window in H.
  repeat match type of H with
         | (if ?b then _ else _) = _ =>
             destruct b; [injection H as <-; cbn [well_formed]; lia|]
         | match match_call ?n ?cl text with _ => _ end = _ =>
             let E := fresh "E" in
             destruct (match_call n cl text) eqn:E;
             [ destruct (match_call_group n cl text _ E) as [Hne Hcls];
               first
                 [ match type of H with
                   | bind (int ?g) _ = _ =>
                       let Ei := fresh "Ei" in
                       destruct (int g) eqn:Ei; cbn [bind] in H;
                       try discriminate H;
                       apply int_ok in Ei; destruct Ei as [-> _];
                       injection H as <-; cbn [well_formed];
                       apply decimal_nonneg; exact Hcls
                   end
                 | injection H as <-; cbn [well_formed]; split; assumption ] |]
         | match match_since text with _ => _ end = _ =>
             destruct (match_since text);
             [ unfold strptime_date in H;
               match type of H with
               | bind ?r _ = _ => destruct r eqn:Ed; cbn [bind] in H;
                                  try discriminate H
               end;
               injection H as <-; cbn [well_formed];
               exact (date_new_valid _ _ _ _ Ed) |]
         end.
  discriminate H.
Qed.

(** X16.  Whatever text it came from, a window returned by the parser has a
    parameter that is not negative, a [since] date that exists, and a goal
    that is a nonempty run of digits or of characters other than the
    closing parenthesis; [WeekdayWeekend] only comes with 0. *)
Theorem parse_window_well_formed :
  forall text line c, parse_window text line = Ok c -> well_formed c.
Proof.
  intros text line c. apply parse_window_result_well_formed.
Qed.

Lemma substring_length_le (s : string) :
  forall n m, (String.length (substring n m s) <= m)%nat.
Proof.
  induction s as [|c s IH]; intros n m.
  - destruct n, m; cbn; lia.
  - destruct n as [|n].
    + destruct m as [|m]; cbn [substring String.length]; [lia|].
      specialize (IH O m). lia.
    + cbn [substring]. apply IH.
Qed.

Lemma decimal_small (s : string) :
  (String.length s <= 4)%nat -> -1000000 <= decimal s <= 1000000.
Proof.
  intros H. unfold decimal.
  destruct s as [|a [|b [|c [|d [|e s]]]]]; cbn [String.length] in H;
    try lia; cbn [int_acc];
    try pose proof (nat_ascii_bounded a); try pose proof (nat_ascii_bounded b);
    try pose proof (nat_ascii_bounded c); try pose proof (nat_ascii_bounded d);
    lia.
Qed.

(** The date parser returns a date or raises [ValueError]. *)
Lemma strptime_date_cases (g : string) :
  (exists d, strptime_date g = Ok d) \/ strptime_date g = Raise ValueError.
Proof.
  unfold strptime_date.
  assert (Hc : forall n m, (m <= 4)%nat -> c_int (decimal (substring n m g)) = true).
  { intros n m Hm. apply c_int_iff. unfold INT_MIN, INT_MAX.
    pose proof (substring_length_le g n m) as Hl.
    pose proof (decimal_small (substring n m g) ltac:(lia)). lia. }
  destruct (valid_ymd (decimal (substring 0 4 g)) (decimal (substring 5 2 g))
                      (decimal (substring 8 2 g))) eqn:Ev.
  - left. eexists. apply date_new_valid_ymd. exact Ev.
  - right. apply date_new_invalid; [apply Hc; lia .. | exact Ev].
Qed.

(** X17.  The parser has three outcomes: a window; a [ConfigError] "unknown
    column value" that carries the text and the caller's line; or a
    [ValueError], which is not a [ConfigError], in two cases: a
    [since(...)] whose ten characters do not name a calendar day, refused
    by the date parser, and an integer pattern with more than 4300
    digits, refused by [int]. *)
Theorem parse_window_outcomes :
  forall text line,
    (exists c, parse_window text line = Ok c) \/
    parse_window text line
    = Raise (ConfigError (Fmt "unknown column value '%s'" (YStr text)) line None)
    \/
    (parse_window text line = Raise ValueError /\
     ((exists g, match_since text = Some g /\
                 strptime_date g = Raise ValueError) \/
      (exists name ctor g,
          In (name, ctor) int_patterns /\
          match_call name is_digit text = Some g /\
          int_max_str_digits < Z.of_nat (String.length g)))).
Proof.
  intros text line. unfold parse_window.
  repeat match goal with
         | |- context [if ?b then _ else _] =>
             lazymatch b with
             | String.eqb text _ =>
                 destruct b; [left; eexists; reflexivity|]
             end
         | |- context [match match_call ?n is_digit text with _ => _ end] =>
             let E := fresh "E" in
             let Hlt := fresh "Hlt" in
             let Hge := fresh "Hge" in
             destruct (match_call n is_digit text) as [g|] eqn:E;
             [ destruct (Z.ltb_spec int_max_str_digits
                                    (Z.of_nat (String.length g)))
                 as [Hlt | Hge];
               [ right; right; rewrite (int_beyond_limit g Hlt);
                 split; [reflexivity|]; right; exists n; eexists; exists g;
                 split; [ unfold int_patterns; cbn [In];
                          repeat first [left; reflexivity | right]
                        | split; [exact E | exact Hlt]]
               | left; rewrite (int_within_limit g Hge); eexists;
                 reflexivity ]
             | ]
         end.
  destruct (match_since text) as [g|] eqn:Es.
  - destruct (strptime_date_cases g) as [[d Hd] | Hd]; rewrite Hd; cbn [bind].
    + left. eexists. reflexivity.
    + right. right. split; [reflexivity|]. left. exists g.
      split; [reflexivity | exact Hd].
  - destruct (match_call "goal" is_digit text); [left; eexists; reflexivity|].
    destruct (match_call "goal" not_close text); [left; eexists; reflexivity|].
    right. left. reflexivity.
Qed.

Lemma has_open_app (s t : string) :
  has_open (s ++ t) = has_open s || has_open t.
Proof.
  induction s as [|c s IH]; simpl; [reflexivity|].
  rewrite IH. apply orb_assoc.
Qed.

Lemma strip_prefix_open (name text rest : string) :
  strip_prefix (name ++ "(") text = Some rest -> has_open text = true.
Proof.
  intros H. rewrite (strip_prefix_split _ _ _ H), !has_open_app.
  cbn. rewrite orb_true_r. reflexivity.
Qed.

Lemma match_call_open (name : string) (cls : ascii -> bool) (text : string) :
  has_open text = false -> match_call name cls text = None.
Proof.
  intros Hno. unfold match_call.
  destruct (strip_prefix (name ++ "(") text) as [rest|] eqn:E; [|reflexivity].
  rewrite (strip_prefix_open _ _ _ E) in Hno. discriminate Hno.
Qed.

Lemma match_since_open (text : string) :
  has_open text = false -> match_since text = None.
Proof.
  intros Hno. unfold match_since.
  destruct (strip_prefix "since(" text) as [rest|] eqn:E; [|reflexivity].
  rewrite (strip_prefix_open "since" _ _ E) in Hno. discriminate Hno.
Qed.

(** X18.  A text without an opening parenthesis is accepted only if it is one
    of the eight literal expressions; any other is rejected with a
    [ConfigError] at the caller's line. *)
Theorem parse_window_without_parenthesis :
  forall text line,
    has_open text = false -> is_literal text = false ->
    parse_window text line
    = Raise (ConfigError (Fmt "unknown column value '%s'" (YStr text)) line None).
Proof.
  intros text line Hno Hlit. split_literals Hlit.
  unfold parse_window.
  repeat match goal with
         | L : String.eqb text _ = false |- _ => rewrite L; clear L
         end.
  rewrite !(match_call_open _ _ text Hno), (match_since_open text Hno).
  reflexivity.
Qed.

Lemma read_column_value_config_well_formed (text : yaml) (line : Z) (c : Column) :
  read_column_value_config text line = Ok c -> well_formed c.
Proof.
  unfold read_column_value_config. destruct text; try discriminate.
  apply parse_window_result_well_formed.
Qed.

Lemma read_one_column_well_formed (y : yaml) (c : ColumnDef) :
  read_one_column y = Ok c -> column_well_formed c.
Proof.
  unfold read_one_column. intros H.
  destruct y as [| | | |line entries]; try discriminate H.
  destruct (dict_in "type" (mkmap line entries)); cbn [negb] in H;
    [|discriminate H].
  destruct (dict_item (mkmap line entries) "type") as [ty| |];
    cbn [bind] in H; try discriminate H.
  destruct (yaml_is_str ty "number").
  { unfold NumberColumn_from_config in H.
    repeat match type of H with
           | (if ?b then _ else _) = _ => destruct b; try discriminate H
           end.
    repeat step_bind H. injection H as <-. cbn [column_well_formed].
    eapply read_column_value_config_well_formed. eassumption. }
  destruct (yaml_is_str ty "pctchange").
  { unfold PctChangeColumn_from_config in H.
    repeat match type of H with
           | (if ?b then _ else _) = _ => destruct b; try discriminate H
           end.
    repeat step_bind H. injection H as <-. cbn [column_well_formed].
    split; eapply read_column_value_config_well_formed; eassumption. }
  destruct (yaml_is_str ty "sparkline"); [|discriminate H].
  unfold SparklineColumn_from_config in H. injection H as <-. exact I.
Qed.

Lemma yaml_is_str_eq (v : yaml) (t : string) :
  yaml_is_str v t = true -> v = YStr t.
Proof.
  destruct v; try discriminate. cbn [yaml_is_str]. intros H.
  apply String.eqb_eq in H. subst. reflexivity.
Qed.

Lemma dict_item_ok (m : mapping) (k : string) (v : yaml) :
  dict_item m k = Ok v -> dict_get m k = Some v.
Proof.
  unfold dict_item. destruct (dict_get m k); [|discriminate].
  intros H. injection H as <-. reflexivity.
Qed.

Lemma read_window_of (m : mapping) (key : string) (text : yaml) (w : Column) :
  dict_item m key = Ok text ->
  read_column_value_config text (map_line m) = Ok w ->
  window_of m key w.
Proof.
  intros Hitem Hread. unfold read_column_value_config in Hread.
  destruct text as [| |t| |]; try discriminate Hread.
  exists t. split; [apply dict_item_ok; exact Hitem | exact Hread].
Qed.

Lemma read_one_column_of (y : yaml) (c : ColumnDef) :
  read_one_column y = Ok c -> column_of y c.
Proof.
  unfold read_one_column. intros H.
  destruct y as [| | | |line entries]; try discriminate H.
  exists line, entries. split; [reflexivity|]. cbv zeta.
  set (m := mkmap line entries) in *.
  destruct (dict_in "type" m); cbn [negb] in H; [|discriminate H].
  destruct (dict_item m "type") as [ty| |] eqn:Ety;
    cbn [bind] in H; try discriminate H.
  apply dict_item_ok in Ety.
  destruct (yaml_is_str ty "number") eqn:E1.
  { apply yaml_is_str_eq in E1. subst ty.
    unfold NumberColumn_from_config in H.
    destruct (dict_in "name" m); cbn [negb] in H; [|discriminate H].
    destruct (dict_in "value" m); cbn [negb] in H; [|discriminate H].
    destruct (dict_item m "name") as [name| |] eqn:En;
      cbn [bind] in H; try discriminate H.
    destruct (dict_item m "value") as [text| |] eqn:Ev;
      cbn [bind] in H; try discriminate H.
    destruct (read_column_value_config text (map_line m)) as [w| |] eqn:Ew;
      cbn [bind] in H; try discriminate H.
    injection H as <-.
    split; [exact Ety|]. split; [apply dict_item_ok; exact En|].
    exact (read_window_of m "value" text w Ev Ew). }
  destruct (yaml_is_str ty "pctchange") eqn:E2.
  { apply yaml_is_str_eq in E2. subst ty.
    unfold PctChangeColumn_from_config in H.
    destruct (dict_in "name" m); cbn [negb] in H; [|discriminate H].
    destruct (dict_in "value" m); cbn [negb] in H; [|discriminate H].
    destruct (dict_in "base" m); cbn [negb] in H; [|discriminate H].
    destruct (dict_item m "name") as [name| |] eqn:En;
      cbn [bind] in H; try discriminate H.
    destruct (dict_item m "value") as [vtext| |] eqn:Ev;
      cbn [bind] in H; try discriminate H.
    destruct (read_column_value_config vtext (map_line m)) as [w| |] eqn:Ew;
      cbn [bind] in H; try discriminate H.
    destruct (dict_item m "base") as [btext| |] eqn:Eb;
      cbn [bind] in H; try discriminate H.
    destruct (read_column_value_config btext (map_line m)) as [w'| |] eqn:Ew';
      cbn [bind] in H; try discriminate H.
    injection H as <-.
    split; [exact Ety|]. split; [apply dict_item_ok; exact En|].
    split; [exact (read_window_of m "value" vtext w Ev Ew)
           | exact (read_window_of m "base" btext w' Eb Ew')]. }
  destruct (yaml_is_str ty "sparkline") eqn:E3; [|discriminate H].
  apply yaml_is_str_eq in E3. subst ty.
  unfold SparklineColumn_from_config in H. injection H as <-.
  split; [exact Ety|]. split; reflexivity.
Qed.

(** X19.  Validation builds the columns entry by entry and in the order of
    the document: the k-th column comes from the k-th entry, with its
    name, the class its [type] asks for and the windows its [value] and
    [base] parse to; and every such window is well formed. *)
Theorem validated_columns_well_formed :
  forall config columns,
    read_column_config config = Ok columns ->
    Forall2 (fun y c => column_of y c /\ column_well_formed c) config columns.
Proof.
  intros config columns H. unfold read_column_config in H.
  revert H. apply mapM_Forall2. intros y c Hc.
  split; [exact (read_one_column_of y c Hc)
         | exact (read_one_column_well_formed y c Hc)].
Qed.

(** ** Validation results and the driver *)

(** X25.  The neutral rule gives black for every value.  On a finite number
    the negative-green rule is the positive-green rule on the opposite
    value, and the two agree (on green) at zero only; on NaN both
    comparisons are false and both rules give red; on [None] and on a
    string, which evaluation can also return, both raise [TypeError]. *)
Theorem style_mirror :
  (forall value, apply_style style_neutral value = Ok "color: #000") /\
  (forall q,
      apply_style style_negative_green (PNum (Fin q))
      = apply_style style_positive_green (PNum (Fin (- q)%Q))
      /\ ((q == 0)%Q ->
          apply_style style_positive_green (PNum (Fin q))
          = Ok "color: #00b37d"
          /\ apply_style style_negative_green (PNum (Fin q))
             = Ok "color: #00b37d")
      /\ (~ (q == 0)%Q ->
          apply_style style_positive_green (PNum (Fin q))
          <> apply_style style_negative_green (PNum (Fin q)))) /\
  (apply_style style_positive_green (PNum NaN) = Ok "color: #f00"
   /\ apply_style style_negative_green (PNum NaN) = Ok "color: #f00") /\
  (forall t,
      apply_style style_positive_green PNone = Raise TypeError
      /\ apply_style style_negative_green PNone = Raise TypeError
      /\ apply_style style_positive_green (PStr t) = Raise TypeError
      /\ apply_style style_negative_green (PStr t) = Raise TypeError).
Proof.
  split; [intros value; reflexivity|].
  split; [|split; [split; reflexivity | intros t; repeat split]].
  intros value.
  assert (Hneg : Qle_bool value 0 = Qle_bool 0 (- value)).
  { apply eq_true_iff_eq. rewrite !Qle_bool_iff.
    split; intros H.
    - apply (Qopp_le_compat value 0) in H. exact H.
    - apply (Qopp_le_compat 0 (- value)) in H. rewrite Qopp_involutive in H.
      exact H. }
  cbn [apply_style py_ge_zero py_le_zero bind].
  split; [|split].
  - rewrite Hneg. reflexivity.
  - intros Hz.
    assert (H1 : Qle_bool 0 value = true)
      by (apply Qle_bool_iff; rewrite Hz; apply Qle_refl).
    assert (H2 : Qle_bool value 0 = true)
      by (apply Qle_bool_iff; rewrite Hz; apply Qle_refl).
    rewrite H1, H2. split; reflexivity.
  - intros Hnz.
    destruct (Qle_bool 0 value) eqn:E1, (Qle_bool value 0) eqn:E2;
      try discriminate.
    + exfalso. apply Hnz. apply Qle_bool_iff in E1, E2.
      apply Qle_antisym; assumption.
    + exfalso.
      assert (H : ~ (0 <= value)%Q)
        by (intros H; apply Qle_bool_iff in H; rewrite H in E1; discriminate).
      apply Qnot_le_lt in H. apply Qlt_le_weak in H.
      apply Qle_bool_iff in H. rewrite H in E2. discriminate E2.
Qed.

Lemma mapM_length (A B : Type) (f : A -> result B) (l : list A) (l' : list B) :
  mapM f l = Ok l' -> List.length l' = List.length l.
Proof.
  intros H. symmetry.
  apply (Forall2_length (R := fun _ _ => True)).
  revert H. apply mapM_Forall2. intros; exact I.
Qed.

Lemma assoc_lift (k : string) (l : list (string * yaml)) :
  assoc k (map (fun kv => (fst kv, CYaml (snd kv))) l)
  = option_map CYaml (assoc k l).
Proof.
  induction l as [|[k' v] l IH]; cbn [map assoc fst snd]; [reflexivity|].
  destruct (String.eqb k k'); [reflexivity | exact IH].
Qed.

Lemma with_filename_ok (A : Type) (filename : string) (r : result A) (a : A) :
  with_filename filename r = Ok a -> r = Ok a.
Proof.
  unfold with_filename. destruct r as [x | e |]; try discriminate.
  - intros H. exact H.
  - destruct e; discriminate.
Qed.

(** X20.  Validation succeeds only for a document that has a [name], a list
    under [columns] and a list under [rows]; the result then holds the
    parsed columns and rows, one per entry and in order, under those two
    keys, and every other entry of the document unchanged. *)
Theorem validation_result :
  forall config filename c,
    read_config_from_string config filename = Ok c ->
    exists ycols yrows cols rows,
      dict_in "name" config = true /\
      dict_get config "columns" = Some (YList ycols) /\
      dict_get config "rows" = Some (YList yrows) /\
      read_column_config ycols = Ok cols /\
      read_row_config yrows = Ok rows /\
      cfg_columns c = Ok cols /\
      cfg_rows c = Ok rows /\
      List.length cols = List.length ycols /\
      List.length rows = List.length yrows /\
      (forall k, k <> "columns" -> k <> "rows" ->
                 assoc k (cfg_entries c)
                 = option_map CYaml (assoc k (map_entries config))).
Proof.
  intros config filename c H. unfold read_config_from_string in H.
  apply with_filename_ok in H. unfold validate, dict_item in H.
  destruct (dict_in "name" config) eqn:Ename; cbn [negb] in H;
    [|discriminate H].
  destruct (dict_in "columns" config) eqn:Ecin; cbn [negb] in H;
    [|discriminate H].
  destruct (dict_get config "columns") as [ycolsv|] eqn:Ecols;
    cbn [bind] in H; [|discriminate H].
  destruct ycolsv as [| | | ycols |]; try discriminate H.
  destruct (read_column_config ycols) as [cols| |] eqn:Erc; cbn [bind] in H;
    try discriminate H.
  destruct (dict_get config "rows") as [yrowsv|] eqn:Erows.
  2:{ destruct (dict_in "rows" config); cbn [bind] in H; discriminate H. }
  rewrite (dict_get_in _ _ _ Erows) in H. cbn [bind] in H.
  destruct yrowsv as [| | | yrows |]; try discriminate H.
  cbn [bind] in H.
  destruct (read_row_config yrows) as [rows| |] eqn:Err; cbn [bind] in H;
    try discriminate H.
  injection H as <-.
  exists ycols, yrows, cols, rows.
  repeat split; try assumption; try reflexivity.
  - unfold cfg_columns, cfg_get, cfg_set. cbn [cfg_entries].
    rewrite !assoc_dict_set. reflexivity.
  - unfold cfg_rows, cfg_get, cfg_set. cbn [cfg_entries].
    rewrite !assoc_dict_set. reflexivity.
  - exact (mapM_length _ _ _ _ _ Erc).
  - exact (mapM_length _ _ _ _ _ Err).
  - intros k Hk1 Hk2. unfold cfg_set. cbn [cfg_entries].
    rewrite !assoc_dict_set.
    destruct (String.eqb_spec k "rows"); [contradiction|].
    destruct (String.eqb_spec k "columns"); [contradiction|].
    unfold lift_entries. apply assoc_lift.
Qed.

Lemma read_one_row_spec (y : yaml) (r : Row) :
  read_one_row y = Ok r -> row_of y r.
Proof.
  unfold read_one_row, row_of. intros H.
  destruct y as [| | | |line entries]; try discriminate H.
  exists line, entries. split; [reflexivity|]. cbv zeta.
  set (m := mkmap line entries) in *.
  destruct (dict_in "name" m) eqn:En; cbn [negb] in H; [|discriminate H].
  destruct (dict_in "query" m) eqn:Eq; cbn [negb] in H; [|discriminate H].
  unfold dict_item in H.
  destruct (dict_get m "type") as [tv|] eqn:Et.
  - destruct (row_type_of tv) as [ty|] eqn:Ety; [|discriminate H].
    assert (Htv : tv = YStr ty /\ In ty row_types).
    { unfold row_type_of in Ety. destruct tv; try discriminate Ety.
      destruct (existsb (String.eqb s) row_types) eqn:Eex; [|discriminate Ety].
      injection Ety as <-. split; [reflexivity|].
      apply existsb_exists in Eex. destruct Eex as [x [Hin Hx]].
      apply String.eqb_eq in Hx. subst x. exact Hin. }
    destruct Htv as [-> Hin].
    destruct (dict_get m "style") as [sv|] eqn:Es.
    + destruct (lookup_style sv line) as [st| |] eqn:Els; cbn [bind] in H;
        try discriminate H.
      destruct (dict_get m "name") as [nv|]; cbn [bind] in H; [|discriminate H].
      destruct (dict_get m "query") as [qv|]; cbn [bind] in H; [|discriminate H].
      injection H as <-. cbn [row_name row_query row_type row_style row_columns
                               row_fields row_config_directory row_connection].
      repeat split; try reflexivity; try assumption; try discriminate.
      * intros v Hv. injection Hv as <-. reflexivity.
      * intros v Hv. injection Hv as <-.
        unfold lookup_style in Els. destruct sv; try discriminate Els.
        destruct (STYLES s) eqn:Est; [|discriminate Els].
        injection Els as <-. exists s. split; [reflexivity | exact Est].
    + cbn [lookup_style] in H.
      change (STYLES "positive-green") with (Some style_positive_green) in H.
      cbn [bind] in H.
      destruct (dict_get m "name") as [nv|]; cbn [bind] in H; [|discriminate H].
      destruct (dict_get m "query") as [qv|]; cbn [bind] in H; [|discriminate H].
      injection H as <-. cbn [row_name row_query row_type row_style row_columns
                               row_fields row_config_directory row_connection].
      repeat split; try reflexivity; try assumption; try discriminate.
      intros v Hv. injection Hv as <-. reflexivity.
  - change (row_type_of (YStr "float")) with (Some "float") in H.
    cbv iota in H.
    destruct (dict_get m "style") as [sv|] eqn:Es.
    + destruct (lookup_style sv line) as [st| |] eqn:Els; cbn [bind] in H;
        try discriminate H.
      destruct (dict_get m "name") as [nv|]; cbn [bind] in H; [|discriminate H].
      destruct (dict_get m "query") as [qv|]; cbn [bind] in H; [|discriminate H].
      injection H as <-. cbn [row_name row_query row_type row_style row_columns
                               row_fields row_config_directory row_connection].
      repeat split; try reflexivity; try discriminate.
      * cbn. tauto.
      * intros v Hv. injection Hv as <-.
        unfold lookup_style in Els. destruct sv; try discriminate Els.
        destruct (STYLES s) eqn:Est; [|discriminate Els].
        injection Els as <-. exists s. split; [reflexivity | exact Est].
    + cbn [lookup_style] in H.
      change (STYLES "positive-green") with (Some style_positive_green) in H.
      cbn [bind] in H.
      destruct (dict_get m "name") as [nv|]; cbn [bind] in H; [|discriminate H].
      destruct (dict_get m "query") as [qv|]; cbn [bind] in H; [|discriminate H].
      injection H as <-. cbn [row_name row_query row_type row_style row_columns
                               row_fields row_config_directory row_connection].
      repeat split; try reflexivity; try discriminate.
      cbn. tauto.
Qed.

(** X21.  Every row that [read_row_config] returns comes from a mapping with
    [name] and [query], in document order: its type is the given one or
    "float", always one of the four allowed; its style is the given one or
    positive-green; its fields are the whole mapping; it has no column
    values, no directory and no connection yet. *)
Theorem read_row_config_rows :
  forall config rows,
    read_row_config config = Ok rows -> Forall2 row_of config rows.
Proof.
  intros config rows. unfold read_row_config.
  apply mapM_Forall2. exact read_one_row_spec.
Qed.

(** X22.  Rows are validated after the columns and in order: when the columns
    are valid, the exception of the first row that fails is the outcome,
    whatever follows; a row that is not a mapping fails with [TypeError],
    which is not a [ConfigError]. *)
Theorem first_failing_row :
  forall config filename ycols cols before row after parsed e,
    dict_in "name" config = true ->
    dict_get config "columns" = Some (YList ycols) ->
    read_column_config ycols = Ok cols ->
    dict_get config "rows" = Some (YList (before ++ row :: after)) ->
    read_row_config before = Ok parsed ->
    read_one_row row = Raise e ->
    read_config_from_string config filename = with_filename filename (Raise e)
    /\ ((forall line entries, row <> YMap line entries) -> e = TypeError).
Proof.
  intros config filename ycols cols before row after parsed e
         Hname Hcols Hrc Hrows Hbefore Hrow.
  split.
  - unfold read_config_from_string, validate, dict_item.
    rewrite Hname, (dict_get_in _ _ _ Hcols), Hcols. cbn [negb bind].
    rewrite Hrc. cbn [bind].
    rewrite (dict_get_in _ _ _ Hrows), Hrows. cbn [bind].
    unfold read_row_config.
    rewrite (mapM_app_raise _ _ read_one_row before parsed row after e
               Hbefore Hrow).
    reflexivity.
  - intros Hnomap. destruct row; cbn [read_one_row] in Hrow;
      try (injection Hrow as <-; reflexivity).
    exfalso. exact (Hnomap line entries eq_refl).
Qed.

Section DriverProperties.

Variable read_sql_query : yaml -> connection -> result frame.
Variable read_text : string -> result string.
Variable sparkline : yaml -> frame -> date -> result string.
Variable format : string -> date -> result string.


(** X23.  [read_config] completes every validated row: the query path (taken
    relative to the directory of the configuration unless absolute) is
    replaced by the text of that file and the directory is recorded; the
    columns and the rest of each row are as validation left them. *)
Theorem read_config_loads_queries :
  forall config_directory filename document c,
    read_config read_text config_directory filename document = Ok c ->
    exists c0 rows0 rows,
      read_config_from_string document filename = Ok c0 /\
      cfg_rows c0 = Ok rows0 /\
      cfg_rows c = Ok rows /\
      cfg_columns c = cfg_columns c0 /\
      Forall2 (row_loaded read_text config_directory) rows0 rows.
Proof.
  intros dir filename document c H. unfold read_config in H.
  destruct (read_config_from_string document filename) as [c0| |];
    cbn [bind] in H; try discriminate H.
  destruct (cfg_rows c0) as [rows0| |] eqn:Er; cbn [bind] in H;
    try discriminate H.
  destruct (mapM (load_query read_text dir) rows0) as [rows| |] eqn:Em;
    cbn [bind] in H; try discriminate H.
  injection H as <-.
  exists c0, rows0, rows. repeat split; try reflexivity.
  - exact Er.
  - unfold cfg_rows, cfg_get, cfg_set. cbn [cfg_entries].
    rewrite assoc_dict_set. reflexivity.
  - unfold cfg_columns, cfg_get, cfg_set. cbn [cfg_entries].
    rewrite assoc_dict_set. reflexivity.
  - revert Em. apply mapM_Forall2. intros r0 r Hload.
    unfold load_query in Hload.
    destruct (row_query r0) as [| |p| |] eqn:Eq; try discriminate Hload.
    destruct (read_text (if is_absolute p then p else path_join dir p))
      as [sql| |] eqn:Et; cbn [bind] in Hload; try discriminate Hload.
    injection Hload as <-. exists p, sql.
    cbn [row_query row_config_directory row_name row_type row_style
           row_columns row_fields row_connection].
    repeat split; try reflexivity; assumption.
Qed.

End DriverProperties.

(** ** Runs of the further properties *)

Lemma two_day_frame_valid : frame_valid two_day_frame.
Proof. repeat constructor. Qed.

Lemma week_frame_valid : frame_valid week_frame.
Proof. repeat constructor. Qed.

Lemma weekend_frame_valid : frame_valid weekend_frame.
Proof. repeat constructor. Qed.

Lemma DaysAgo_selects_one_day_witness :
  eval no_sql no_text 0 (DaysAgo 1) two_day_frame (mkdate 2024 1 10) None
  = Ok (calculate_total_over
          (df_sum (on_days (toordinal (mkdate 2024 1 10) - 1)
                           (toordinal (mkdate 2024 1 10) - 1) two_day_frame))).
Proof.
  refine (proj1 (DaysAgo_selects_one_day no_sql no_text 0%nat 1 two_day_frame
                   (mkdate 2024 1 10) None eq_refl two_day_frame_valid _) _).
  - lia.
  - reflexivity.
Defined.

Lemma TrailingAverage_excludes_anchor_witness :
  eval no_sql no_text 0 (TrailingAverage 2) two_day_frame (mkdate 2024 1 11) None
  = Ok (calculate_total_over
          (df_mean (on_days (toordinal (mkdate 2024 1 11) - 2)
                            (toordinal (mkdate 2024 1 11) - 1) two_day_frame))).
Proof.
  refine (TrailingAverage_excludes_anchor no_sql no_text 0%nat 2 two_day_frame
            (mkdate 2024 1 11) None eq_refl two_day_frame_valid _).
  split; [lia | reflexivity].
Defined.

Lemma WeekdayWeekend_range_witness :
  let e := toordinal (mkdate 2024 1 7) - 0 in
  let w := (e + 6) mod 7 in
  let s := if 5 <=? w then e - (w - 4) else e in
  eval no_sql no_text 0 (WeekdayWeekend 0) weekend_frame (mkdate 2024 1 7) None
  = Ok (calculate_total_over (df_sum (on_days s e weekend_frame)))
  /\ (5 <= w -> (s + 6) mod 7 = 4).
Proof.
  refine (WeekdayWeekend_range no_sql no_text 0%nat 0 weekend_frame
            (mkdate 2024 1 7) None eq_refl weekend_frame_valid _).
  split; [lia | reflexivity].
Defined.

Lemma WeeksAgo_monday_to_sunday_witness :
  let t1 := toordinal (mkdate 2024 1 2) + 1 in
  let ws := t1 - (t1 + 6) mod 7 - 7 * 0 in
  eval no_sql no_text 0 (WeeksAgo 0) week_frame (mkdate 2024 1 2) None
  = Ok (calculate_total_over (df_sum (on_days ws (ws + 6) week_frame)))
  /\ (ws + 6) mod 7 = 0.
Proof.
  refine (WeeksAgo_monday_to_sunday no_sql no_text 0%nat 0 week_frame
            (mkdate 2024 1 2) None eq_refl week_frame_valid _ _ _ _).
  - lia.
  - reflexivity.
  - discriminate.
  - discriminate.
Defined.

Lemma WeekToDate_range_witness :
  let t := toordinal (mkdate 2024 1 2) in
  let ws := t - (t + 6) mod 7 - 7 * 0 in
  eval no_sql no_text 0 (WeekToDate 0) week_frame (mkdate 2024 1 2) None
  = Ok (calculate_total_over (df_sum (on_days ws (t - 7 * 0) week_frame)))
  /\ (ws + 6) mod 7 = 0.
Proof.
  refine (WeekToDate_range no_sql no_text 0%nat 0 week_frame
            (mkdate 2024 1 2) None eq_refl week_frame_valid _ _).
  - lia.
  - discriminate.
Defined.

Lemma SinceDate_range_witness :
  eval no_sql no_text 0 (SinceDate (mkdate 2000 1 1)) two_day_frame
       (mkdate 2024 1 10) None
  = Ok (calculate_total_over
          (df_sum (on_days (toordinal (mkdate 2000 1 1))
                           (toordinal (mkdate 2024 1 10)) two_day_frame)))
  /\ (toordinal (mkdate 2024 1 10) < toordinal (mkdate 2000 1 1) ->
      eval no_sql no_text 0 (SinceDate (mkdate 2000 1 1)) two_day_frame
           (mkdate 2024 1 10) None
      = Ok (if has_over two_day_frame then PNone else PNum (Fin 0))).
Proof.
  exact (SinceDate_range no_sql no_text 0%nat (mkdate 2000 1 1) two_day_frame
           (mkdate 2024 1 10) None eq_refl eq_refl two_day_frame_valid).
Defined.

Lemma Month_whole_month_witness :
  exists ny nm,
    1 <= nm <= 12 /\
    12 * ny + nm = 12 * 2024 + 2 - 1 /\
    (INT_MIN <= ny < 1 ->
     eval no_sql no_text 0 (Month 1) two_day_frame (mkdate 2024 2 10) None
     = Raise ValueError) /\
    (ny < INT_MIN ->
     eval no_sql no_text 0 (Month 1) two_day_frame (mkdate 2024 2 10) None
     = Raise OverflowError) /\
    (ny = 9999 /\ nm = 12 ->
     eval no_sql no_text 0 (Month 1) two_day_frame (mkdate 2024 2 10) None
     = Raise OverflowError) /\
    (1 <= ny -> ~ (ny = 9999 /\ nm = 12) ->
     eval no_sql no_text 0 (Month 1) two_day_frame (mkdate 2024 2 10) None
     = Ok (calculate_total_over (df_sum (whole_month ny nm two_day_frame)))).
Proof.
  refine (Month_whole_month no_sql no_text 0%nat 1 two_day_frame
            (mkdate 2024 2 10) None eq_refl two_day_frame_valid _).
  lia.
Defined.

Lemma MonthToDate_range_witness :
  exists ny nm,
    1 <= nm <= 12 /\
    12 * ny + nm = 12 * 2024 + 3 - 1 /\
    eval no_sql no_text 4 (MonthToDate 1) two_day_frame (mkdate 2024 3 31) None
    = Ok (calculate_total_over
            (df_sum (in_month ny nm (Z.min 31 (days_in_month ny nm))
                              two_day_frame))).
Proof.
  refine (MonthToDate_range no_sql no_text 4%nat 1 two_day_frame
            (mkdate 2024 3 31) None eq_refl two_day_frame_valid _ _ _).
  - lia.
  - reflexivity.
  - lia.
Defined.

Lemma MonthToDateAverage_range_witness :
  exists ny nm,
    1 <= nm <= 12 /\
    12 * ny + nm = 12 * 2024 + 3 - 1 /\
    eval no_sql no_text 0 (MonthToDateAverage 1) two_day_frame
         (mkdate 2024 3 15) None
    = Ok (calculate_total_over (df_mean (in_month ny nm 15 two_day_frame))).
Proof.
  refine (MonthToDateAverage_range no_sql no_text 0%nat 1 two_day_frame
            (mkdate 2024 3 15) None eq_refl two_day_frame_valid _ _ _).
  - lia.
  - right. discriminate.
  - reflexivity.
Defined.

Lemma MonthToDateAverage_missing_day_witness :
  eval no_sql no_text 0 (MonthToDateAverage 1) two_day_frame
       (mkdate 2024 3 31) None
  = Raise ValueError.
Proof.
  refine (MonthToDateAverage_missing_day no_sql no_text 0%nat 1 two_day_frame
            (mkdate 2024 3 31) None eq_refl _ _ _).
  - lia.
  - intros [H _]. discriminate H.
  - reflexivity.
Defined.

Lemma total_only_never_none_witness :
  PNum (Fin 10) <> PNone /\ exists n, PNum (Fin 10) = PNum n.
Proof.
  exact (total_only_never_none no_sql no_text 0%nat (DaysAgo 0) two_day_frame
           (mkdate 2024 1 10) None (PNum (Fin 10)) eq_refl eq_refl eq_refl).
Defined.

Lemma mean_window_empty_witness :
  exists mask,
    (forall df',
        eval no_sql no_text 0 (TrailingAverage 2) df' (mkdate 2024 1 3) None
        = Ok (calculate_total_over (df_mean (df_where mask df')))) /\
    (observations (df_where mask two_day_frame) = [] -> PNum NaN = PNum NaN).
Proof.
  exact (mean_window_empty no_sql no_text 0%nat (TrailingAverage 2)
           two_day_frame (mkdate 2024 1 3) None (PNum NaN)
           eq_refl eq_refl eq_refl).
Defined.

Example int_at_the_limit :
  parse_window ("daysago(" ++ zeros 4299 ++ "7)") 4 = Ok (DaysAgo 7).
Proof. vm_compute. reflexivity. Qed.

Example int_beyond_the_limit :
  parse_window ("daysago(" ++ zeros 4300 ++ "7)") 4 = Raise ValueError.
Proof. vm_compute. reflexivity. Qed.

Example replace_year_before_1 : date_new (-476) 3 31 = Raise ValueError.
Proof. reflexivity. Qed.

Example replace_year_not_a_c_int :
  date_new (-2147483649) 3 31 = Raise OverflowError.
Proof. reflexivity. Qed.

Example replace_day_not_a_c_int :
  date_new (-476) 3 (-2147483649) = Raise OverflowError.
Proof. reflexivity. Qed.

Lemma int_patterns_parse_witness :
  (Z.of_nat (String.length "012") <= int_max_str_digits ->
   parse_window ("monthago" ++ "(" ++ "012" ++ ")") 4
   = Ok (MonthAgo (decimal "012"))
   /\ 0 <= decimal "012") /\
  (int_max_str_digits < Z.of_nat (String.length "012") ->
   parse_window ("monthago" ++ "(" ++ "012" ++ ")") 4 = Raise ValueError).
Proof.
  refine (int_patterns_parse "monthago" MonthAgo "012" 4 _ _ eq_refl).
  - do 4 right. left. reflexivity.
  - discriminate.
Defined.

Lemma parse_window_well_formed_witness :
  well_formed (SinceDate (mkdate 2000 1 1)).
Proof.
  exact (parse_window_well_formed "since(2000-01-01)" 4
           (SinceDate (mkdate 2000 1 1)) eq_refl).
Defined.

Lemma parse_window_without_parenthesis_witness :
  parse_window "lastmonth" 4
  = Raise (ConfigError (Fmt "unknown column value '%s'" (YStr "lastmonth"))
                       4 None).
Proof.
  exact (parse_window_without_parenthesis "lastmonth" 4 eq_refl eq_refl).
Defined.

Lemma validated_columns_well_formed_witness :
  Forall2 (fun y c => column_of y c /\ column_well_formed c)
          [YMap 3 [("name", YStr "since"); ("type", YStr "number");
                   ("value", YStr "since(2000-01-01)")];
           YMap 6 [("name", YStr "wow"); ("type", YStr "pctchange");
                   ("value", YStr "lastweek"); ("base", YStr "week(2)")]]
          [NumberColumn (YStr "since") (SinceDate (mkdate 2000 1 1));
           PctChangeColumn (YStr "wow") (WeeksAgo 1) (WeeksAgo 2)].
Proof.
  exact (validated_columns_well_formed
           [YMap 3 [("name", YStr "since"); ("type", YStr "number");
                    ("value", YStr "since(2000-01-01)")];
            YMap 6 [("name", YStr "wow"); ("type", YStr "pctchange");
                    ("value", YStr "lastweek"); ("base", YStr "week(2)")]]
           [NumberColumn (YStr "since") (SinceDate (mkdate 2000 1 1));
            PctChangeColumn (YStr "wow") (WeeksAgo 1) (WeeksAgo 2)]
           eq_refl).
Defined.

Lemma validation_result_witness :
  exists ycols yrows cols rows,
    dict_in "name" doc_one_row = true /\
    dict_get doc_one_row "columns" = Some (YList ycols) /\
    dict_get doc_one_row "rows" = Some (YList yrows) /\
    read_column_config ycols = Ok cols /\
    read_row_config yrows = Ok rows /\
    cfg_columns config_parsed = Ok cols /\
    cfg_rows config_parsed = Ok rows /\
    List.length cols = List.length ycols /\
    List.length rows = List.length yrows /\
    (forall k, k <> "columns" -> k <> "rows" ->
               assoc k (cfg_entries config_parsed)
               = option_map CYaml (assoc k (map_entries doc_one_row))).
Proof.
  exact (validation_result doc_one_row "STREAM" config_parsed eq_refl).
Defined.

Lemma read_row_config_rows_witness :
  Forall2 row_of
          [YMap 7 [("name", YStr "Email sends");
                   ("query", YStr "select date, total from sends");
                   ("type", YStr "number")]]
          [row_parsed].
Proof.
  exact (read_row_config_rows
           [YMap 7 [("name", YStr "Email sends");
                    ("query", YStr "select date, total from sends");
                    ("type", YStr "number")]]
           [row_parsed] eq_refl).
Defined.

Lemma first_failing_row_witness :
  read_config_from_string
    (mkmap 1 [("name", YStr "thealth");
              ("columns", YList []);
              ("rows",
               YList [YMap 4 [("name", YStr "Email sends");
                              ("query", YStr "sends.sql")];
                      YStr "not a mapping";
                      YMap 6 [("name", YStr "never reached")]])])
    "STREAM"
  = with_filename "STREAM" (Raise TypeError)
  /\ ((forall line entries, YStr "not a mapping" <> YMap line entries) ->
      TypeError = TypeError).
Proof.
  exact (first_failing_row
           (mkmap 1 [("name", YStr "thealth");
                     ("columns", YList []);
                     ("rows",
                      YList [YMap 4 [("name", YStr "Email sends");
                                     ("query", YStr "sends.sql")];
                             YStr "not a mapping";
                             YMap 6 [("name", YStr "never reached")]])])
           "STREAM" [] []
           [YMap 4 [("name", YStr "Email sends"); ("query", YStr "sends.sql")]]
           (YStr "not a mapping")
           [YMap 6 [("name", YStr "never reached")]]
           _ TypeError eq_refl eq_refl eq_refl eq_refl eq_refl eq_refl).
Defined.


Lemma read_config_loads_queries_witness :
  exists c0 rows0 rows,
    read_config_from_string doc_one_row "grid.yaml" = Ok c0 /\
    cfg_rows c0 = Ok rows0 /\
    cfg_rows config_loaded = Ok rows /\
    cfg_columns config_loaded = cfg_columns c0 /\
    Forall2 (row_loaded stored_query "reports") rows0 rows.
Proof.
  exact (read_config_loads_queries stored_query "reports" "grid.yaml"
           doc_one_row config_loaded eq_refl).
Defined.

(** ** Termination of evaluation *)

Lemma bind_out_of_fuel (A B : Type) (r : result A) (k : A -> result B) :
  bind r k = OutOfFuel ->
  r = OutOfFuel \/ exists a, r = Ok a /\ k a = OutOfFuel.
Proof.
  destruct r as [a | e |]; cbn [bind]; intros H.
  - right. exists a. split; [reflexivity | exact H].
  - discriminate H.
  - left. reflexivity.
Qed.

Lemma date_new_returns (y m d : Z) : date_new y m d <> OutOfFuel.
Proof.
  unfold date_new. destruct (c_int y && c_int m && c_int d);
    [destruct (valid_ymd y m d)|]; discriminate.
Qed.

Lemma add_days_returns (d : date) (n : Z) : add_days d n <> OutOfFuel.
Proof.
  unfold add_days. cbv zeta.
  destruct ((0 <? toordinal d + n) && (toordinal d + n <=? MAXORDINAL));
    discriminate.
Qed.

Lemma sub_days_returns (d : date) (n : Z) : sub_days d n <> OutOfFuel.
Proof. apply add_days_returns. Qed.

Lemma replace_day_returns (d : date) (n : Z) : replace_day d n <> OutOfFuel.
Proof. apply date_new_returns. Qed.

Lemma mtdavg_shift_returns (k : nat) :
  forall month_start today, mtdavg_shift k month_start today <> OutOfFuel.
Proof.
  induction k as [|k IH]; intros ms td; cbn [mtdavg_shift]; [discriminate|].
  intros H.
  apply bind_out_of_fuel in H.
  destruct H as [H | [prev [_ H]]]; [exact (sub_days_returns _ _ H)|].
  apply bind_out_of_fuel in H.
  destruct H as [H | [ms' [_ H]]]; [exact (replace_day_returns _ _ H)|].
  apply bind_out_of_fuel in H.
  destruct H as [H | [td' [_ H]]]; [exact (date_new_returns _ _ _ H)|].
  exact (IH _ _ H).
Qed.

(** With a year before year 1 every [replace] of the clamping loop is
    refused.  The refusal is a [ValueError], which the loop catches, as
    long as the year and the lowered day fit a C [int]; the first day
    below -2^31 (or at once a year below -2^31) is an [OverflowError],
    which it does not catch. *)
Lemma clamp_day_overflow (fuel : nat) :
  forall today ny nm e,
    ny < 1 -> 1 <= nm <= 12 -> day today - e <= 31 ->
    (0 < fuel)%nat ->
    day today - e - INT_MIN + 2 <= Z.of_nat fuel ->
    clamp_day fuel today ny nm e = Raise OverflowError.
Proof.
  induction fuel as [|fuel IH]; intros today ny nm e Hy Hm Hd Hpos Hfuel;
    [lia|].
  cbn [clamp_day].
  destruct (c_int ny) eqn:Ey;
    [|rewrite date_new_overflow by (left; exact Ey); reflexivity].
  destruct (c_int (day today - e)) eqn:Ed;
    [|rewrite date_new_overflow by (right; right; exact Ed); reflexivity].
  rewrite date_new_invalid;
    [ | exact Ey | apply c_int_small; lia | exact Ed | ].
  - apply c_int_iff in Ed. unfold INT_MIN in *.
    apply IH; try assumption; lia.
  - destruct (valid_ymd ny nm (day today - e)) eqn:E; [|reflexivity].
    apply valid_ymd_iff in E. lia.
Qed.

Lemma month_target_overflow (fuel : nat) (today : date) (n : Z) :
  valid_date today -> 0 <= n ->
  snd (shift_month today n) < 1 ->
  day today - INT_MIN + 2 <= Z.of_nat fuel ->
  month_target fuel today n = Raise OverflowError.
Proof.
  intros Hv Hn Hlow Hfuel.
  apply valid_ymd_iff in Hv. destruct Hv as (Hy & Hm & Hd).
  pose proof (days_in_month_bounds (year today) (month today) Hm) as Hdim.
  destruct (shift_month_spec today n Hm Hn) as [Hnm _].
  unfold month_target.
  destruct (shift_month today n) as [nm ny]. cbn [fst snd] in *.
  unfold INT_MIN in Hfuel.
  apply clamp_day_overflow; try assumption; unfold INT_MIN; lia.
Qed.

Ltac returns_step H :=
  lazymatch type of H with
  | sub_days _ _ = OutOfFuel => exact (False_ind _ (sub_days_returns _ _ H))
  | add_days _ _ = OutOfFuel => exact (False_ind _ (add_days_returns _ _ H))
  | replace_day _ _ = OutOfFuel =>
      exact (False_ind _ (replace_day_returns _ _ H))
  | date_new _ _ _ = OutOfFuel => exact (False_ind _ (date_new_returns _ _ _ H))
  | mtdavg_shift _ _ _ = OutOfFuel =>
      exact (False_ind _ (mtdavg_shift_returns _ _ _ H))
  end.

Ltac fuel_steps H :=
  repeat (lazymatch type of H with
          | bind _ _ = OutOfFuel => apply bind_out_of_fuel in H
          end;
          destruct H as [H | [? [? H]]]; [returns_step H | ]).

(** X26.  With collaborators that return, the evaluation of a well-formed
    window on a valid anchor always returns, a value or an exception,
    once the day-clamping loop is allowed 2^31 + 33 iterations.  These
    are needed by [MonthAgo(n)] and [MonthToDate(n)] when the month lies
    before year 1: every [replace] is then refused, and the loop only
    ends when the lowered day (or at once the year) no longer fits a C
    [int], with an [OverflowError]. *)
Theorem eval_returns :
  forall (read_sql_query : yaml -> connection -> result frame)
         (read_text : string -> result string)
         iterations c df today row,
    (forall q conn, read_sql_query q conn <> OutOfFuel) ->
    (forall p, read_text p <> OutOfFuel) ->
    valid_date today -> well_formed c ->
    2147483681 <= iterations ->
    eval read_sql_query read_text (Z.to_nat iterations) c df today row
    <> OutOfFuel /\
    (forall n,
        c = MonthAgo n \/ c = MonthToDate n ->
        12 * (year today - 1) + month today <= n ->
        eval read_sql_query read_text (Z.to_nat iterations) c df today row
        = Raise OverflowError).
Proof.
  intros rsq rt iterations c df today row Hsql Htext Hv Hwf Hit.
  pose proof Hv as Hv'. apply valid_ymd_iff in Hv'.
  destruct Hv' as (Hy & Hm & Hd).
  pose proof (days_in_month_bounds (year today) (month today) Hm) as Hdim.
  set (fuel := Z.to_nat iterations).
  assert (Hfuel : (4 <= fuel)%nat) by (subst fuel; lia).
  assert (Hfuel' : day today - INT_MIN + 2 <= Z.of_nat fuel)
    by (subst fuel; unfold INT_MIN; lia).
  assert (Hover : forall n, 0 <= n ->
            12 * (year today - 1) + month today <= n ->
            month_target fuel today n = Raise OverflowError).
  { intros n Hn Hlow. destruct (shift_month_spec today n Hm Hn) as [Hnm Hcount].
    apply month_target_overflow; try assumption. lia. }
  assert (Hmonth : forall n, 0 <= n -> month_target fuel today n <> OutOfFuel).
  { intros n Hn. destruct (shift_month_spec today n Hm Hn) as [Hnm Hcount].
    destruct (Z.lt_ge_cases (snd (shift_month today n)) 1) as [Hlow | Hok].
    - rewrite Hover by lia. discriminate.
    - rewrite (month_target_in_range fuel today n Hv Hn Hok Hfuel).
      discriminate. }
  split.
  - intros H. unfold eval in H.
    destruct c; cbn [well_formed] in Hwf.
    + fuel_steps H. discriminate H.
    + fuel_steps H. discriminate H.
    + fuel_steps H.
      apply bind_out_of_fuel in H. destruct H as [H | [s [_ H]]];
        [|discriminate H].
      destruct (5 <=? weekday x);
        [exact (sub_days_returns _ _ H) | discriminate H].
    + revert H.
      destruct (shift_month today months_ago) as [nm ny]. intros H.
      fuel_steps H. discriminate H.
    + apply bind_out_of_fuel in H. destruct H as [H | [t [_ H]]];
        [|discriminate H].
      exact (Hmonth months_ago Hwf H).
    + fuel_steps H. discriminate H.
    + fuel_steps H. discriminate H.
    + apply bind_out_of_fuel in H. destruct H as [H | [t [_ H]]].
      * exact (Hmonth months_ago Hwf H).
      * fuel_steps H. discriminate H.
    + fuel_steps H. destruct x0 as [ms td]. discriminate H.
    + discriminate H.
    + discriminate H.
    + unfold FieldGoal_eval in H.
      destruct row as [r|]; [|discriminate H].
      destruct (dict_get (row_fields r) field_name) as [[| |s| |]|];
        try discriminate H.
      apply bind_out_of_fuel in H. destruct H as [H | [p [_ H]]].
      * unfold resolve_query_path in H.
        destruct (is_absolute s); [discriminate H|].
        destruct (row_config_directory r); discriminate H.
      * apply bind_out_of_fuel in H. destruct H as [H | [sql [_ H]]];
          [exact (Htext _ H)|].
        apply bind_out_of_fuel in H. destruct H as [H | [conn [_ H]]];
          [destruct (row_connection r); discriminate H|].
        apply bind_out_of_fuel in H. destruct H as [H | [d [_ H]]];
          [exact (Hsql _ _ H) | discriminate H].
  - intros n [-> | ->] Hlow; cbn [well_formed] in Hwf; unfold eval;
      rewrite (Hover n Hwf Hlow); reflexivity.
Qed.

Lemma eval_returns_witness :
  eval no_sql no_text (Z.to_nat 2147483681) (MonthAgo 30000) two_day_frame
       (mkdate 2024 3 31) None
  <> OutOfFuel /\
  (forall n,
      MonthAgo 30000 = MonthAgo n \/ MonthAgo 30000 = MonthToDate n ->
      12 * (year (mkdate 2024 3 31) - 1) + month (mkdate 2024 3 31) <= n ->
      eval no_sql no_text (Z.to_nat 2147483681) (MonthAgo 30000) two_day_frame
           (mkdate 2024 3 31) None
      = Raise OverflowError).
Proof.
  refine (eval_returns no_sql no_text 2147483681 (MonthAgo 30000)
            two_day_frame (mkdate 2024 3 31) None _ _ eq_refl _ _).
  - intros q conn. discriminate.
  - intros p. discriminate.
  - unfold well_formed. lia.
  - lia.
Defined.
